(** * Provisioning orchestrator of scripts/setup-azure-credentials.py

    A shallow embedding of the command runner, the provider registration
    poller and the resource provisioner, with the properties of the
    specification stated over it.

    The script talks to the outside through four channels only: it runs
    subprocesses, reads the wall clock, sleeps, and reads and writes files.
    The embedding threads an explicit world state through every function
    (a small state-and-exit monad) and records what the script does as a
    list of events, in the order it does them.

    Scope of the model.
    - Strings are byte strings ([string]); a character is a code point below
      256.
    - [subprocess.run] is modelled for commands that can be launched: it
      returns a [CompletedProcess], or raises [CalledProcessError] when
      [check] is set and the exit code is not zero.
    - The wall clock is a rational number of seconds; rounding of floating
      point subtraction is not modelled.
    - [json.loads], [time.strftime] and [str.upper] are parameters.
    - The file tree is a map from paths to the contents of regular files,
      and a path is the string the script builds. For an environment label
      that is one ordinary path component ([plain_label]) this is the path
      the path library uses. Making a directory is an event that cannot
      fail, which agrees with the script where no regular file stands in
      the way ([directories_free]); the properties that depend on either
      say so.
    - [main] is modelled from the environment selection on: the argument
      parser runs before it, and the report on the interpreter only
      prints. *)

From Stdlib Require Import QArith Lqa Ascii String DecimalString.
From stdpp Require Import gmap strings list.

Open Scope string_scope.

(** ** Python string operations used by the script *)

Module Py.

(** [s.replace(c, '')] for a one-character [c]. *)
Fixpoint remove_char (c : ascii) (s : string) : string :=
  match s with
  | EmptyString => EmptyString
  | String a s' =>
      if Ascii.eqb a c then remove_char c s' else String a (remove_char c s')
  end.

(** [s[:n]] for a natural [n]. *)
Fixpoint prefix (n : nat) (s : string) : string :=
  match n, s with
  | S n', String a s' => String a (prefix n' s')
  | _, _ => EmptyString
  end.

(** [s[k:]] for a natural [k]. *)
Fixpoint drop (k : nat) (s : string) : string :=
  match k, s with
  | S k', String _ s' => drop k' s'
  | _, _ => s
  end.

(** [s[-n:]] for a positive [n]: the last [n] characters, or all of [s]. *)
Definition suffix (n : nat) (s : string) : string :=
  drop (String.length s - n)%nat s.

(** [str(z)] for an integer. *)
Definition str_of_Z (z : Z) : string := NilZero.string_of_int (Z.to_int z).

(** [str(n)] for a length. *)
Definition str_of_nat (n : nat) : string := str_of_Z (Z.of_nat n).

(** [int(x)] for a float [x]: truncation towards zero. *)
Definition int_of_float (x : Q) : Z := Z.quot (Qnum x) (Z.pos (Qden x)).

(** [c.isspace()] on code points below 256. *)
Definition isspace (c : ascii) : bool :=
  let n := nat_of_ascii c in
  ((9 <=? n) && (n <=? 13) || (28 <=? n) && (n <=? 32)
   || (n =? 133) || (n =? 160))%nat.

Fixpoint lstrip (s : string) : string :=
  match s with
  | String a s' => if isspace a then lstrip s' else s
  | EmptyString => EmptyString
  end.

(** [s.rstrip()]: a character is kept when something after it is kept. *)
Fixpoint rstrip (s : string) : string :=
  match s with
  | EmptyString => EmptyString
  | String a s' =>
      match rstrip s' with
      | EmptyString => if isspace a then EmptyString else String a EmptyString
      | t => String a t
      end
  end.

(** [s.strip()]. *)
Definition strip (s : string) : string := rstrip (lstrip s).

(** [s.startswith(p)]. *)
Fixpoint startswith (p s : string) : bool :=
  match p, s with
  | EmptyString, _ => true
  | String a p', String b s' => Ascii.eqb a b && startswith p' s'
  | String _ _, EmptyString => false
  end.

(** [s.replace(old, new)] for a non-empty [old]: the scan copies [s] and,
    at each leftmost match, emits [new] and skips the matched characters
    ([skip] counts those still to be skipped). *)
Fixpoint replace_from (skip : nat) (old new s : string) : string :=
  match s with
  | EmptyString => EmptyString
  | String a s' =>
      match skip with
      | S k => replace_from k old new s'
      | O =>
          if startswith old s
          then new ++ replace_from (String.length old - 1)%nat old new s'
          else String a (replace_from 0 old new s')
      end
  end.

Definition replace (old new s : string) : string := replace_from 0 old new s.

(** [sep.join(l)]. *)
Fixpoint join (sep : string) (l : list string) : string :=
  match l with
  | [] => EmptyString
  | [x] => x
  | x :: rest => x ++ sep ++ join sep rest
  end.

End Py.

(** ** The world the script runs in *)

(** What [subprocess.run(..., capture_output=True, text=True)] returns. *)
Record CompletedProcess := {
  returncode : Z;
  stdout : string;
  stderr : string
}.

(** The prefix a message is printed with: [print_status], [print_success],
    [print_warning], [print_error], or a bare [print]. *)
Inductive level := Info | Success | Warning | Error | Plain.

(** What the script does to the outside, one event per action. *)
Inductive event :=
| EvCmd (command : list string) (result : CompletedProcess)
| EvPrint (l : level) (message : string)
| EvSleep (seconds : Q)
| EvMkdir (path : string)
| EvRead (path : string)
| EvWrite (path : string) (content : string).

(** The behaviour of everything outside the script. The [n]-th subprocess
    the script starts answers [respond n command] and takes [elapsed n]
    seconds; the [k]-th sleep lasts [oversleep k] seconds longer than asked. *)
Record world := {
  respond : nat -> list string -> CompletedProcess;
  elapsed : nat -> Q;
  oversleep : nat -> Q
}.

(** The part of the world that changes during a run. *)
Record state := {
  calls : nat;
  sleeps : nat;
  clock : Q;
  files : gmap string string
}.

(** The exceptions the script can meet. *)
Inductive exn :=
| CalledProcessError (command : list string) (result : CompletedProcess)
| JSONDecodeError (message : string)
| KeyError (key : string)
| FileNotFoundError (path : string).

(** How a function ends: it returns, the process exits ([sys.exit]), an
    exception travels up, or the model's loop budget is used up. *)
Inductive outcome (A : Type) :=
| Ret (a : A)
| Exit (code : Z)
| Raise (e : exn)
| OutOfFuel.
Arguments Ret {A} a.
Arguments Exit {A} code.
Arguments Raise {A} e.
Arguments OutOfFuel {A}.

(** A computation: from a state to an outcome, the next state and the events
    of this computation, oldest first. *)
Definition M (A : Type) : Type := state -> outcome A * state * list event.

Definition ret {A} (a : A) : M A := fun st => (Ret a, st, []).

Definition bind {A B} (m : M A) (f : A -> M B) : M B := fun st =>
  match m st with
  | (Ret a, st1, evs1) =>
      match f a st1 with (r, st2, evs2) => (r, st2, (evs1 ++ evs2)%list) end
  | (Exit c, st1, evs1) => (Exit c, st1, evs1)
  | (Raise e, st1, evs1) => (Raise e, st1, evs1)
  | (OutOfFuel, st1, evs1) => (OutOfFuel, st1, evs1)
  end.

Declare Scope prog_scope.
Delimit Scope prog_scope with prog.
Bind Scope prog_scope with M.
Notation "'let*' x := m 'in' k" := (bind m (fun x => k))
  (at level 10, x pattern, m at level 100, k at level 200) : prog_scope.
Notation "m >> k" := (bind m (fun _ => k))
  (at level 100, k at level 200, right associativity) : prog_scope.
Open Scope prog_scope.

Definition sys_exit {A} (code : Z) : M A := fun st => (Exit code, st, []).
Definition raise {A} (e : exn) : M A := fun st => (Raise e, st, []).
Definition out_of_fuel {A} : M A := fun st => (OutOfFuel, st, []).
Definition emit (e : event) : M unit := fun st => (Ret tt, st, [e]).

(** [try: m  except ...: handler e]; the handler says which exceptions it
    catches. [sys.exit] is not an [Exception] and passes through. *)
Definition try_except {A} (m : M A) (handler : exn -> option (M A)) : M A :=
  fun st =>
    match m st with
    | (Raise e, st1, evs1) =>
        match handler e with
        | Some h =>
            match h st1 with (r, st2, evs2) => (r, st2, (evs1 ++ evs2)%list) end
        | None => (Raise e, st1, evs1)
        end
    | other => other
    end.

(** [for x in l: body x]. *)
Fixpoint for_each {A} (l : list A) (body : A -> M unit) : M unit :=
  match l with
  | [] => ret tt
  | x :: rest => body x >> for_each rest body
  end.

(** A [for] loop that updates a local variable [acc]. *)
Fixpoint for_acc {A S} (l : list A) (acc : S) (body : S -> A -> M S) : M S :=
  match l with
  | [] => ret acc
  | x :: rest => let* acc' := body acc x in for_acc rest acc' body
  end.

(** Projections of a run. *)
Definition result_of {A} (r : outcome A * state * list event) : outcome A :=
  fst (fst r).
Definition state_of {A} (r : outcome A * state * list event) : state :=
  snd (fst r).
Definition events_of {A} (r : outcome A * state * list event) : list event :=
  snd r.

(** A Python [dict] whose order of insertion matters: [d[k] = v]. *)
Fixpoint dict_set (k v : string) (d : list (string * string))
  : list (string * string) :=
  match d with
  | [] => [(k, v)]
  | (k', v') :: rest =>
      if String.eqb k' k then (k, v) :: rest else (k', v') :: dict_set k v rest
  end.

Fixpoint dict_get (k : string) (d : list (string * string)) : option string :=
  match d with
  | [] => None
  | (k', v') :: rest => if String.eqb k' k then Some v' else dict_get k rest
  end.

Definition nl : string := String "010" EmptyString.
Definition dquote : string := String "034" EmptyString.

Section Script.

Variable w : world.

(** [json.loads] followed by reading string fields: the parsed object as a
    map from keys to the text of their values, or the decoder's message. *)
Variable json_loads : string -> string + gmap string string.
(** [time.strftime('%Y-%m-%d %H:%M:%S')] at a given clock reading. *)
Variable strftime : Q -> string.
(** [str.upper]. *)
Variable upper : string -> string.

(** *** Primitives *)

Definition print_status (message : string) : M unit := emit (EvPrint Info message).
Definition print_success (message : string) : M unit := emit (EvPrint Success message).
Definition print_warning (message : string) : M unit := emit (EvPrint Warning message).
Definition print_error (message : string) : M unit := emit (EvPrint Error message).
Definition print (message : string) : M unit := emit (EvPrint Plain message).

Definition time_time : M Q := fun st => (Ret (clock st), st, []).

(** The state after a sleep of [seconds] and after a subprocess. *)
Definition after_sleep (seconds : Q) (st : state) : state :=
  {| calls := calls st;
     sleeps := S (sleeps st);
     clock := clock st + seconds + oversleep w (sleeps st);
     files := files st |}.

Definition after_call (st : state) : state :=
  {| calls := S (calls st);
     sleeps := sleeps st;
     clock := clock st + elapsed w (calls st);
     files := files st |}.

Definition time_sleep (seconds : Q) : M unit := fun st =>
  (Ret tt, after_sleep seconds st, [EvSleep seconds]).

(** [subprocess.run(command, capture_output=True, text=True, check=check)]. *)
Definition subprocess_run (command : list string) (check : bool)
  : M CompletedProcess := fun st =>
  let result := respond w (calls st) command in
  if check && negb (returncode result =? 0)%Z
  then (Raise (CalledProcessError command result), after_call st,
        [EvCmd command result])
  else (Ret result, after_call st, [EvCmd command result]).

Definition path_exists (path : string) : M bool := fun st =>
  (Ret (bool_decide (is_Some (files st !! path))), st, []).

Definition read_file (path : string) : M string := fun st =>
  match files st !! path with
  | Some content => (Ret content, st, [EvRead path])
  | None => (Raise (FileNotFoundError path), st, [])
  end.

Definition write_file (path content : string) : M unit := fun st =>
  (Ret tt,
   {| calls := calls st;
      sleeps := sleeps st;
      clock := clock st;
      files := <[path := content]> (files st) |},
   [EvWrite path content]).

Definition mkdir (path : string) : M unit := emit (EvMkdir path).

(** [d[key]] on a parsed object or a result dictionary. *)
Definition getitem (d : gmap string string) (key : string) : M string :=
  match d !! key with
  | Some v => ret v
  | None => raise (KeyError key)
  end.

(** *** run_command *)

Definition run_command (command : list string) (check : bool)
  : M CompletedProcess :=
  try_except (subprocess_run command check)
    (fun e =>
       match e with
       | CalledProcessError _ r =>
           Some (print_error ("Command failed: " ++ Py.join " " command) >>
                 print_error ("Error: " ++ stderr r) >>
                 if check then sys_exit 1 else ret r)
       | _ => None
       end).

(** *** check_and_register_providers *)

Definition required_providers : list string :=
  [ "Microsoft.ContainerService";
    "Microsoft.ContainerRegistry";
    "Microsoft.ContainerInstance";
    "Microsoft.Network";
    "Microsoft.Compute";
    "Microsoft.Storage";
    "Microsoft.KeyVault";
    "Microsoft.Authorization";
    "Microsoft.Resources";
    "Microsoft.ManagedIdentity" ].

Definition provider_show (provider : string) : list string :=
  [ "az"; "provider"; "show"; "--namespace"; provider;
    "--query"; "registrationState"; "--output"; "tsv" ].

Definition provider_register (provider : string) : list string :=
  [ "az"; "provider"; "register"; "--namespace"; provider ].

(** The body of the first loop: query one provider and append it to
    [unregistered_providers] unless it reports Registered. *)
Definition query_provider (unregistered_providers : list string)
    (provider : string) : M (list string) :=
  let* result := run_command (provider_show provider) false in
  if (returncode result =? 0)%Z then
    let state := Py.strip (stdout result) in
    if negb (String.eqb state "Registered") then
      print_status ("Provider " ++ provider ++ ": " ++ state) >>
      ret (unregistered_providers ++ [provider])%list
    else
      print_status ("Provider " ++ provider ++ ": Registered") >>
      ret unregistered_providers
  else
    print_warning ("Could not check provider " ++ provider) >>
    ret (unregistered_providers ++ [provider])%list.

Definition query_providers (providers : list string) : M (list string) :=
  for_acc providers [] query_provider.

(** The body of the second loop: one register call. *)
Definition register_provider (provider : string) : M unit :=
  print_status ("Registering " ++ provider ++ "...") >>
  let* result := run_command (provider_register provider) false in
  if (returncode result =? 0)%Z then
    print_success ("Registration initiated for " ++ provider)
  else
    print_error ("Failed to register " ++ provider) >>
    sys_exit 1.

Definition register_providers (unregistered_providers : list string) : M unit :=
  for_each unregistered_providers register_provider.

(** The inner [for] of the polling loop; its value is [all_registered]. *)
Fixpoint poll_providers (unregistered_providers : list string) : M bool :=
  match unregistered_providers with
  | [] => ret true
  | provider :: rest =>
      let* result := run_command (provider_show provider) false in
      if negb (returncode result =? 0)%Z
         || negb (String.eqb (Py.strip (stdout result)) "Registered")
      then ret false
      else poll_providers rest
  end.

Definition max_wait_time : Q := 300.

(** The [while ... else] loop. [fuel] bounds the number of times the body
    may run; the loop test itself needs none. *)
Fixpoint wait_for_registration (fuel : nat) (start_time : Q)
    (unregistered_providers : list string) : M unit :=
  let* now := time_time in
  if Qlt_le_dec (now - start_time) max_wait_time then
    match fuel with
    | O => out_of_fuel
    | S fuel' =>
        let* all_registered := poll_providers unregistered_providers in
        if all_registered then
          print_success "All resource providers registered successfully"
        else
          print_status "Still waiting for provider registration..." >>
          time_sleep 10 >>
          wait_for_registration fuel' start_time unregistered_providers
    end
  else
    print_warning "Provider registration is taking longer than expected" >>
    print_status
      "Continuing with setup - providers will complete registration in background".

Definition check_and_register_providers (fuel : nat) : M unit :=
  print_status "Checking Azure resource providers..." >>
  let* unregistered_providers := query_providers required_providers in
  match unregistered_providers with
  | _ :: _ =>
      print_status ("Registering "
                    ++ Py.str_of_nat (length unregistered_providers)
                    ++ " resource providers...") >>
      register_providers unregistered_providers >>
      print_status "Waiting for provider registration to complete..." >>
      let* start_time := time_time in
      wait_for_registration fuel start_time unregistered_providers
  | [] =>
      print_success "All required resource providers are already registered"
  end.

(** *** check_prerequisites *)

Definition check_prerequisites (fuel : nat) : M unit :=
  print_status "Checking prerequisites..." >>
  for_each ["az"; "jq"] (fun tool =>
    let* result := run_command ["which"; tool] false in
    if negb (returncode result =? 0)%Z then
      print_error (tool ++ " is not installed. Please install it first.") >>
      sys_exit 1
    else ret tt) >>
  let* result := run_command ["az"; "account"; "show"] false in
  (if negb (returncode result =? 0)%Z then
     print_error "Not logged in to Azure. Please run 'az login' first." >>
     sys_exit 1
   else ret tt) >>
  check_and_register_providers fuel >>
  print_success "Prerequisites check passed".

(** *** get_subscription_info *)

Record subscription := {
  subscription_id : string;
  subscription_name : string;
  tenant_id : string
}.

Definition loads (text : string) : M (gmap string string) :=
  match json_loads text with
  | inr obj => ret obj
  | inl message => raise (JSONDecodeError message)
  end.

Definition get_subscription_info : M subscription :=
  print_status "Getting Azure subscription information..." >>
  let* result := run_command ["az"; "account"; "show"; "--output"; "json"] true in
  let* account_info := loads (stdout result) in
  let* id := getitem account_info "id" in
  let* name := getitem account_info "name" in
  let* tenant := getitem account_info "tenantId" in
  print_success ("Using subscription: " ++ name ++ " (" ++ id ++ ")") >>
  print_success ("Tenant ID: " ++ tenant) >>
  ret {| subscription_id := id; subscription_name := name; tenant_id := tenant |}.

(** *** create_state_resource_group *)

Definition group_show (rg_name : string) : list string :=
  [ "az"; "group"; "show"; "--name"; rg_name ].

Definition group_create (rg_name location project_name : string) : list string :=
  [ "az"; "group"; "create"; "--name"; rg_name; "--location"; location;
    "--tags"; "Purpose=TerraformState"; "Project=" ++ project_name ].

Definition create_state_resource_group (project_name location : string)
  : M string :=
  print_status "Creating resource group for Terraform state..." >>
  let rg_name := project_name ++ "-terraform-state-rg" in
  let* result := run_command (group_show rg_name) false in
  (if (returncode result =? 0)%Z then
     print_warning ("Resource group " ++ rg_name ++ " already exists")
   else
     run_command (group_create rg_name location project_name) true >>
     print_success ("Created resource group: " ++ rg_name)) >>
  ret rg_name.

(** *** create_storage_accounts *)

(** [str(int(time.time()))[-6:]]. *)
Definition timestamp_suffix (now : Q) : string :=
  Py.suffix 6 (Py.str_of_Z (Py.int_of_float now)).

(** [project_name.replace('-', '').replace('_', '')[:8]]. *)
Definition short_project (project_name : string) : string :=
  Py.prefix 8 (Py.remove_char "_" (Py.remove_char "-" project_name)).

(** [f"{short_project}tf{env}{timestamp}"]. *)
Definition storage_name (project_name env timestamp : string) : string :=
  short_project project_name ++ "tf" ++ env ++ timestamp.

Definition storage_account_create
    (storage_name rg_name location env project_name : string) : list string :=
  [ "az"; "storage"; "account"; "create"; "--name"; storage_name;
    "--resource-group"; rg_name; "--location"; location;
    "--sku"; "Standard_LRS"; "--encryption-services"; "blob";
    "--https-only"; "true"; "--min-tls-version"; "TLS1_2";
    "--tags"; "Environment=" ++ env; "Purpose=TerraformState";
    "Project=" ++ project_name ].

Definition storage_container_create (storage_name : string) : list string :=
  [ "az"; "storage"; "container"; "create"; "--name"; "tfstate";
    "--account-name"; storage_name; "--auth-mode"; "login" ].

Definition create_storage_accounts
    (project_name rg_name location : string) (environments : list string)
  : M (list (string * string)) :=
  print_status "Creating storage accounts for Terraform state..." >>
  let* now := time_time in
  let timestamp := timestamp_suffix now in
  for_acc environments [] (fun storage_accounts env =>
    let storage_name := storage_name project_name env timestamp in
    print_status ("Creating storage account for " ++ env ++ " environment...") >>
    run_command
      (storage_account_create storage_name rg_name location env project_name)
      true >>
    run_command (storage_container_create storage_name) true >>
    print_success ("Created storage account: " ++ storage_name) >>
    ret (dict_set env storage_name storage_accounts)).

(** *** create_service_principal *)

Definition sp_name (project_name sp_type : string) : string :=
  project_name ++ "-" ++ sp_type ++ "-sp".

Definition sp_list (sp_name : string) : list string :=
  [ "az"; "ad"; "sp"; "list"; "--display-name"; sp_name;
    "--query"; "[0].appId"; "--output"; "tsv" ].

Definition sp_create (sp_name subscription_id : string) : list string :=
  [ "az"; "ad"; "sp"; "create-for-rbac"; "--name"; sp_name;
    "--role"; "Contributor";
    "--scopes"; "/subscriptions/" ++ subscription_id; "--sdk-auth" ].

Definition role_assignment_create (app_id role subscription_id : string)
  : list string :=
  [ "az"; "role"; "assignment"; "create"; "--assignee"; app_id;
    "--role"; role; "--scope"; "/subscriptions/" ++ subscription_id ].

Definition additional_roles : list string :=
  [ "User Access Administrator"; "Key Vault Administrator" ].

Definition create_service_principal
    (project_name subscription_id sp_type : string) : M (gmap string string) :=
  let sp_name := sp_name project_name sp_type in
  print_status ("Creating service principal for " ++ sp_type ++ "...") >>
  let* result := run_command (sp_list sp_name) false in
  if negb (String.eqb (Py.strip (stdout result)) EmptyString) then
    print_warning ("Service principal " ++ sp_name ++ " already exists") >>
    let app_id := Py.strip (stdout result) in
    ret {[ "app_id" := app_id ]}
  else
    let* result := run_command (sp_create sp_name subscription_id) true in
    let* sp_info := loads (stdout result) in
    let* app_id := getitem sp_info "clientId" in
    let* client_secret := getitem sp_info "clientSecret" in
    print_success ("Created service principal: " ++ sp_name) >>
    print_success ("Application ID: " ++ app_id) >>
    print_status "Assigning additional roles..." >>
    for_each additional_roles (fun role =>
      run_command (role_assignment_create app_id role subscription_id) false >>
      ret tt) >>
    ret (<[ "app_id" := app_id ]>
         (<[ "client_secret" := client_secret ]>
          {[ "sp_output" := stdout result ]})).

(** *** generate_env_file *)

Definition generate_env_file (project_name : string) (azure_info : subscription)
    (terraform_sp : gmap string string)
    (storage_accounts : list (string * string)) : M unit :=
  print_status "Generating .env file..." >>
  let* now := time_time in
  let* app_id := getitem terraform_sp "app_id" in
  let env_content :=
    "# Azure credentials for " ++ project_name ++ nl ++
    "# Generated on " ++ strftime now ++ nl ++
    nl ++
    "# Azure subscription info" ++ nl ++
    "ARM_CLIENT_ID=" ++ app_id ++ nl ++
    "ARM_TENANT_ID=" ++ tenant_id azure_info ++ nl ++
    "ARM_SUBSCRIPTION_ID=" ++ subscription_id azure_info ++ nl in
  let env_content :=
    match terraform_sp !! "client_secret" with
    | Some secret => env_content ++ "ARM_CLIENT_SECRET=" ++ secret ++ nl
    | None => env_content
    end in
  let env_content := env_content ++ nl ++ "# Storage accounts" ++ nl in
  let env_content :=
    fold_left (fun content '(env, storage_name) =>
                 content ++ "STORAGE_ACCOUNT_NAME_" ++ upper env ++ "="
                         ++ storage_name ++ nl)
              storage_accounts env_content in
  write_file ".env" env_content >>
  print_success "Generated .env file".

(** *** generate_backend_configs *)

Definition env_dir (env : string) : string := "terraform/environments/" ++ env.

Definition lookup_env (storage_accounts : list (string * string)) (env : string)
  : M string :=
  match dict_get env storage_accounts with
  | Some v => ret v
  | None => raise (KeyError env)
  end.

Definition generate_backend_configs (project_name rg_name : string)
    (storage_accounts : list (string * string)) (environments : list string)
  : M unit :=
  print_status "Generating backend configuration files..." >>
  for_each environments (fun env =>
    mkdir (env_dir env) >>
    let* account := lookup_env storage_accounts env in
    let backend_config :=
      "resource_group_name  = " ++ dquote ++ rg_name ++ dquote ++ nl ++
      "storage_account_name = " ++ dquote ++ account ++ dquote ++ nl ++
      "container_name       = " ++ dquote ++ "tfstate" ++ dquote ++ nl ++
      "key                  = " ++ dquote ++ env ++ "/terraform.tfstate"
                                ++ dquote ++ nl in
    write_file (env_dir env ++ "/backend.conf") backend_config >>
    print_success ("Generated backend config for " ++ env ++ " environment")).

(** *** generate_terraform_tfvars *)

Definition generate_terraform_tfvars (project_name location : string)
    (environments : list string) : M unit :=
  print_status "Generating terraform.tfvars files..." >>
  for_each environments (fun env =>
    let tfvars_file := env_dir env ++ "/terraform.tfvars" in
    let example_file := env_dir env ++ "/terraform.tfvars.example" in
    let* example_exists := path_exists example_file in
    let* tfvars_exists := path_exists tfvars_file in
    if example_exists && negb tfvars_exists then
      let* content := read_file example_file in
      let content :=
        Py.replace ("project_name = " ++ dquote ++ "aks-platform" ++ dquote)
                   ("project_name = " ++ dquote ++ project_name ++ dquote)
                   content in
      let content :=
        Py.replace ("location    = " ++ dquote ++ "East US" ++ dquote)
                   ("location    = " ++ dquote ++ location ++ dquote)
                   content in
      write_file tfvars_file content >>
      print_success ("Generated terraform.tfvars for " ++ env ++ " environment")
    else if tfvars_exists then
      print_warning ("terraform.tfvars already exists for " ++ env ++ " environment")
    else
      print_warning ("terraform.tfvars.example not found for " ++ env
                     ++ " environment")).

(** *** main *)

(** The arguments [argparse] hands to [main]. *)
Record args := {
  project_name : string;
  location : string;
  environment : option string;
  environments : option (list string);
  all_environments : bool
}.

(** The environment selection at the top of [main]; [None] is the branch
    that prints the usage errors and exits. An empty string and an empty
    list are false in a Python condition. *)
Definition select_environments (a : args) : option (list string) :=
  if all_environments a then Some ["dev"; "staging"; "prod"]
  else
    match environment a with
    | Some (String c s) => Some [String c s]
    | _ =>
        match environments a with
        | Some (e :: es) => Some (e :: es)
        | _ => None
        end
    end.

(** [str(e)] for the exceptions of the model. *)
Definition str_of_exn (e : exn) : string :=
  match e with
  | CalledProcessError command result =>
      "Command '" ++ Py.join " " command ++ "' returned non-zero exit status "
      ++ Py.str_of_Z (returncode result) ++ "."
  | JSONDecodeError message => message
  | KeyError key => "'" ++ key ++ "'"
  | FileNotFoundError path =>
      "[Errno 2] No such file or directory: '" ++ path ++ "'"
  end.

(** The body of the [try] in [main]. *)
Definition setup (fuel : nat) (project_name location : string)
    (environments : list string) : M unit :=
  check_prerequisites fuel >>
  let* azure_info := get_subscription_info in
  let* rg_name := create_state_resource_group project_name location in
  let* storage_accounts :=
    create_storage_accounts project_name rg_name location environments in
  let* terraform_sp :=
    create_service_principal project_name (subscription_id azure_info)
      "terraform" in
  let* github_sp :=
    create_service_principal project_name (subscription_id azure_info)
      "github-actions" in
  generate_env_file project_name azure_info terraform_sp storage_accounts >>
  generate_backend_configs project_name rg_name storage_accounts environments >>
  generate_terraform_tfvars project_name location environments >>
  (match github_sp !! "sp_output" with
   | Some sp_output =>
       write_file "github-actions-credentials.json" sp_output >>
       print_success
         "GitHub Actions credentials saved to github-actions-credentials.json"
   | None => ret tt
   end) >>
  print_success "Azure credentials setup completed!" >>
  print_status "Next steps:" >>
  print "  1. Review and update terraform.tfvars files for each environment" >>
  print "  2. Run ./scripts/setup-github-secrets.sh to configure GitHub secrets" >>
  print "  3. Source the .env file: source .env".

Definition usage_errors : list string :=
  [ "Environment must be specified explicitly for security.";
    "Use one of:";
    "  --environment dev                    # Setup single environment";
    "  --environment staging                # Setup single environment";
    "  --environment prod                   # Setup single environment";
    "  --environments dev staging           # Setup multiple environments";
    "  --all-environments                   # Setup all environments";
    EmptyString;
    "This prevents accidentally creating resources in unintended environments." ].

(** [main], from the environment selection on. The report on the Python
    interpreter that precedes the [try] only prints and is left out. *)
Definition main (fuel : nat) (a : args) : M unit :=
  match select_environments a with
  | None => for_each usage_errors print_error >> sys_exit 1
  | Some envs =>
      print_status ("Starting Azure credentials setup for "
                    ++ project_name a ++ "...") >>
      print_status ("Target environments: " ++ Py.join ", " envs) >>
      print EmptyString >>
      try_except (setup fuel (project_name a) (location a) envs)
        (fun e =>
           Some (print_error ("Setup failed: " ++ str_of_exn e) >> sys_exit 1))
  end.

End Script.

(** ** Observing a run *)

(** [starts_with p cmd]: the command vector [cmd] begins with the words [p]. *)
Fixpoint starts_with (p cmd : list string) : bool :=
  match p, cmd with
  | [], _ => true
  | a :: p', b :: cmd' => String.eqb a b && starts_with p' cmd'
  | _ :: _, [] => false
  end.

Definition is_cmd (p : list string) (e : event) : bool :=
  match e with
  | EvCmd cmd _ => starts_with p cmd
  | _ => false
  end.

Definition is_sleep (e : event) : bool :=
  match e with
  | EvSleep _ => true
  | _ => false
  end.

Definition level_eqb (a b : level) : bool :=
  match a, b with
  | Info, Info | Success, Success | Warning, Warning
  | Error, Error | Plain, Plain => true
  | _, _ => false
  end.

Definition is_print (l : level) (message : string) (e : event) : bool :=
  match e with
  | EvPrint l' m => level_eqb l' l && String.eqb m message
  | _ => false
  end.

(** How many events of a run satisfy [f]. *)
Definition count (f : event -> bool) (evs : list event) : nat :=
  length (List.filter f evs).

(** The commands of a run, in the order they were started. *)
Fixpoint commands (evs : list event) : list (list string) :=
  match evs with
  | [] => []
  | EvCmd cmd _ :: rest => cmd :: commands rest
  | _ :: rest => commands rest
  end.

(** The paths of the files a run wrote, in order. *)
Fixpoint written (evs : list event) : list string :=
  match evs with
  | [] => []
  | EvWrite path _ :: rest => path :: written rest
  | _ :: rest => written rest
  end.

(** The words that follow [--tags] in a command vector. *)
Fixpoint tags_of (cmd : list string) : list string :=
  match cmd with
  | [] => []
  | a :: rest => if String.eqb a "--tags" then rest else tags_of rest
  end.

Definition has_project_tag (project_name : string) (cmd : list string) : Prop :=
  In ("Project=" ++ project_name) (tags_of cmd).

(** A state query that succeeded and answered Registered. *)
Definition registered (result : CompletedProcess) : bool :=
  (returncode result =? 0)%Z && String.eqb (Py.strip (stdout result)) "Registered".

(** The providers of [providers] whose query, the first of them being the
    [n]-th subprocess of the run, does not answer Registered. *)
Fixpoint unregistered_from (w : world) (n : nat) (providers : list string)
  : list string :=
  match providers with
  | [] => []
  | p :: rest =>
      if registered (respond w n (provider_show p))
      then unregistered_from w (S n) rest
      else p :: unregistered_from w (S n) rest
  end.

(** The rounds of the polling loop seen in a run: a round ends with the
    message of success or with the message that precedes the sleep. *)
Definition poll_rounds (evs : list event) : nat :=
  count (is_print Success "All resource providers registered successfully") evs
  + count (is_print Info "Still waiting for provider registration...") evs.

(** The clock of the world never runs backwards. *)
Definition monotone_clock (w : world) : Prop :=
  (forall n, 0 <= elapsed w n)%Q /\ (forall k, 0 <= oversleep w k)%Q.

(** The last character of a string. *)
Fixpoint last_char (s : string) : option ascii :=
  match s with
  | EmptyString => None
  | String c EmptyString => Some c
  | String _ t => last_char t
  end.

(** [occurs c s]: the character [c] occurs in [s]. *)
Fixpoint occurs (c : ascii) (s : string) : Prop :=
  match s with
  | EmptyString => False
  | String a t => a = c \/ occurs c t
  end.

(** The commands that create an entity: a resource group, a storage
    account, a blob container, a service principal. *)
Definition is_creation (cmd : list string) : bool :=
  starts_with ["az"; "group"; "create"] cmd
  || starts_with ["az"; "storage"; "account"; "create"] cmd
  || starts_with ["az"; "storage"; "container"; "create"] cmd
  || starts_with ["az"; "ad"; "sp"; "create-for-rbac"] cmd.

(** How the script tags what it creates: resource groups and storage
    accounts get the tag [Project=<project name>]; blob containers and
    service principals get no tag at all, and a service principal is named
    after the project. *)
Definition tagging (project_name : string) (e : event) : Prop :=
  match e with
  | EvCmd cmd _ =>
      (starts_with ["az"; "group"; "create"] cmd = true ->
       has_project_tag project_name cmd) /\
      (starts_with ["az"; "storage"; "account"; "create"] cmd = true ->
       has_project_tag project_name cmd) /\
      (starts_with ["az"; "storage"; "container"; "create"] cmd = true ->
       tags_of cmd = []) /\
      (starts_with ["az"; "ad"; "sp"; "create-for-rbac"] cmd = true ->
       tags_of cmd = [] /\
       exists sp_type subscription,
         cmd = sp_create (sp_name project_name sp_type) subscription)
  | _ => True
  end.

(** Events that create an entity, and events that write a file. *)
Definition creates (e : event) : bool :=
  match e with
  | EvCmd cmd _ => is_creation cmd
  | _ => false
  end.

Definition is_write (e : event) : bool :=
  match e with
  | EvWrite _ _ => true
  | _ => false
  end.

(** An event that neither creates an entity nor writes a file. *)
Definition silent (e : event) : Prop := creates e = false /\ is_write e = false.

(** A subscription on which nothing of [project_name] is provisioned yet:
    the tools are installed and logged in, every required provider answers
    Registered, the resource group and the service principals of the project
    do not exist, and the provider accepts every creation. *)
Record fresh_deployment (w : world)
    (json_loads : string -> string + gmap string string)
    (project_name : string) : Prop := {
  tools_installed :
    forall n tool, returncode (respond w n ["which"; tool]) = 0%Z;
  logged_in :
    forall n, returncode (respond w n ["az"; "account"; "show"]) = 0%Z;
  providers_registered :
    forall n p, In p required_providers ->
      registered (respond w n (provider_show p)) = true;
  account_shown :
    forall n,
      let result := respond w n ["az"; "account"; "show"; "--output"; "json"] in
      returncode result = 0%Z /\
      exists account_info,
        json_loads (stdout result) = inr account_info /\
        is_Some (account_info !! "id") /\
        is_Some (account_info !! "name") /\
        is_Some (account_info !! "tenantId");
  no_resource_group :
    forall n,
      returncode
        (respond w n (group_show (project_name ++ "-terraform-state-rg")))
      <> 0%Z;
  no_service_principal :
    forall n sp_type,
      Py.strip (stdout (respond w n (sp_list (sp_name project_name sp_type))))
      = EmptyString;
  group_created :
    forall n rg_name location,
      returncode (respond w n (group_create rg_name location project_name))
      = 0%Z;
  account_created :
    forall n name rg_name location env,
      returncode
        (respond w n
           (storage_account_create name rg_name location env project_name))
      = 0%Z;
  container_created :
    forall n name,
      returncode (respond w n (storage_container_create name)) = 0%Z;
  principal_created :
    forall n name subscription,
      let result := respond w n (sp_create name subscription) in
      returncode result = 0%Z /\
      exists sp_info,
        json_loads (stdout result) = inr sp_info /\
        is_Some (sp_info !! "clientId") /\
        is_Some (sp_info !! "clientSecret")
}.

(** [emits P m]: in every state, every event of [m] satisfies [P]. *)
Definition emits {A} (P : event -> Prop) (m : M A) : Prop :=
  forall st, Forall P (events_of (m st)).

(** An event that is not a failed command. *)
Definition cmd_ok (e : event) : Prop :=
  forall cmd r, e = EvCmd cmd r -> returncode r = 0%Z.

(** What [run_command] leaves behind when a checked command fails. *)
Definition failure_report (cmd : list string) (r : CompletedProcess)
  : list event :=
  [ EvCmd cmd r;
    EvPrint Error ("Command failed: " ++ Py.join " " cmd);
    EvPrint Error ("Error: " ++ stderr r) ].

(** [checked m]: [m] returns after commands that all succeeded, or exits
    with code 1 right after the report of its first failed command. *)
Definition checked {A} (m : M A) : Prop :=
  forall st,
    (exists a, result_of (m st) = Ret a /\ Forall cmd_ok (events_of (m st)))
    \/
    (result_of (m st) = Exit 1 /\
     exists pre cmd r,
       events_of (m st) = (pre ++ failure_report cmd r)%list /\
       returncode r <> 0%Z /\
       Forall cmd_ok pre).

(** The storage accounts of a run: the name of each environment at the
    clock reading [now], and the two commands that create it. *)
Definition account_name (project_name : string) (now : Q) (env : string)
  : string :=
  storage_name project_name env (timestamp_suffix now).

Definition account_commands (project_name rg_name location : string) (now : Q)
    (env : string) : list (list string) :=
  [ storage_account_create (account_name project_name now env) rg_name
      location env project_name;
    storage_container_create (account_name project_name now env) ].

(** The path of the backend configuration of an environment. *)
Definition backend_conf (env : string) : string := env_dir env ++ "/backend.conf".

(** The variable files of an environment: the one the script writes and
    the example it copies. *)
Definition tfvars_file (env : string) : string :=
  env_dir env ++ "/terraform.tfvars".

Definition tfvars_example (env : string) : string :=
  env_dir env ++ "/terraform.tfvars.example".

(** [settled fs env]: [generate_terraform_tfvars] has nothing to write for
    [env], because there is no example or the variable file exists. *)
Definition settled (fs : gmap string string) (env : string) : Prop :=
  fs !! tfvars_example env = None \/ is_Some (fs !! tfvars_file env).

(** The text of the backend configuration of an environment. *)
Definition backend_config_text (rg_name account env : string) : string :=
  "resource_group_name  = " ++ dquote ++ rg_name ++ dquote ++ nl ++
  "storage_account_name = " ++ dquote ++ account ++ dquote ++ nl ++
  "container_name       = " ++ dquote ++ "tfstate" ++ dquote ++ nl ++
  "key                  = " ++ dquote ++ env ++ "/terraform.tfstate"
                            ++ dquote ++ nl.

(** How a computation ends, whatever it returns. *)
Definition ending {A} (r : outcome A) : outcome unit :=
  match r with
  | Ret _ => Ret tt
  | Exit c => Exit c
  | Raise e => Raise e
  | OutOfFuel => OutOfFuel
  end.

(** [ends_in Q m]: in every state, the way [m] ends satisfies [Q]. *)
Definition ends_in {A} (Q : outcome unit -> Prop) (m : M A) : Prop :=
  forall st, Q (ending (result_of (m st))).

(** A property of endings that returning, exiting with code 1 and raising
    all satisfy. *)
Definition admits_failures (Q : outcome unit -> Prop) : Prop :=
  Q (Ret tt) /\ Q (Exit 1) /\ forall e, Q (Raise e).

(** The only exit code is 1. *)
Definition exits_with_one (r : outcome unit) : Prop :=
  match r with
  | Exit c => c = 1%Z
  | _ => True
  end.

(** The only exit code is 1 and the loop budget of the model is not used
    up. *)
Definition orderly (r : outcome unit) : Prop :=
  match r with
  | Exit c => c = 1%Z
  | OutOfFuel => False
  | _ => True
  end.

(** What a run on existing service principals never does: it creates no
    service principal, requests no role, and does not write the credentials
    file of GitHub Actions. *)
Definition reuses_principals (e : event) : Prop :=
  is_cmd ["az"; "ad"; "sp"; "create-for-rbac"] e = false /\
  is_cmd ["az"; "role"; "assignment"] e = false /\
  match e with
  | EvWrite path _ => path <> "github-actions-credentials.json"
  | _ => True
  end.

(** The two ways the polling loop ends after a round of queries. Either the
    last query answered Registered and the message of success follows it; or
    the last query did not, the loop announced that it waits and slept, and
    then the warning and the notice that the setup continues are printed. *)
Definition ends_registered (w : world) (evs : list event) : Prop :=
  exists pre p n,
    evs
    = (pre ++ [ EvCmd (provider_show p) (respond w n (provider_show p));
                EvPrint Success
                  "All resource providers registered successfully" ])%list /\
    registered (respond w n (provider_show p)) = true.

Definition ends_timed_out (w : world) (evs : list event) : Prop :=
  exists pre p n,
    evs
    = (pre ++ [ EvCmd (provider_show p) (respond w n (provider_show p));
                EvPrint Info "Still waiting for provider registration...";
                EvSleep 10;
                EvPrint Warning
                  "Provider registration is taking longer than expected";
                EvPrint Info
                  "Continuing with setup - providers will complete registration in background" ])%list /\
    registered (respond w n (provider_show p)) = false.

(** [advances m]: [m] never leaves the clock behind where it found it. *)
Definition advances {A} (m : M A) : Prop :=
  forall st, (clock st <= clock (state_of (m st)))%Q.

(** An environment label that is one ordinary path component: the path
    library then leaves [terraform/environments/<label>] as it is written. *)
Definition plain_label (env : string) : Prop :=
  env <> EmptyString /\ env <> "." /\ env <> ".." /\ ~ occurs "/" env.

(** No regular file stands where the directory of [env], or one of the
    directories above it, has to be. *)
Definition directories_free (fs : gmap string string) (env : string) : Prop :=
  fs !! "terraform" = None /\
  fs !! "terraform/environments" = None /\
  fs !! env_dir env = None.

(** ** Concrete worlds, for running the model *)

Definition completed (code : Z) (out err : string) : CompletedProcess :=
  {| returncode := code; stdout := out; stderr := err |}.

(** A world whose answers depend on the command only; every subprocess
    takes one second and sleeps are exact. *)
Definition world_of (answer : list string -> CompletedProcess) : world :=
  {| respond := fun _ command => answer command;
     elapsed := fun _ => 1%Q;
     oversleep := fun _ => 0%Q |}.

(** All providers registered, nothing provisioned yet. *)
Definition fresh_world : world :=
  world_of (fun command =>
    match command with
    | "az" :: "group" :: "show" :: _ =>
        completed 3 EmptyString "ResourceGroupNotFound"
    | "az" :: "provider" :: "show" :: _ =>
        completed 0 ("Registered" ++ nl) EmptyString
    | "az" :: "ad" :: "sp" :: "list" :: _ =>
        completed 0 EmptyString EmptyString
    | "az" :: "ad" :: "sp" :: "create-for-rbac" :: _ =>
        completed 0 "SP-JSON" EmptyString
    | "az" :: "account" :: "show" :: "--output" :: _ =>
        completed 0 "ACCOUNT-JSON" EmptyString
    | _ => completed 0 EmptyString EmptyString
    end).

(** The resource group and the service principals already exist. *)
Definition provisioned_world : world :=
  world_of (fun command =>
    match command with
    | "az" :: "provider" :: "show" :: _ =>
        completed 0 ("Registered" ++ nl) EmptyString
    | "az" :: "ad" :: "sp" :: "list" :: _ =>
        completed 0 ("11111111-2222-3333-4444-555555555555" ++ nl) EmptyString
    | "az" :: "account" :: "show" :: "--output" :: _ =>
        completed 0 "ACCOUNT-JSON" EmptyString
    | _ => completed 0 EmptyString EmptyString
    end).

(** Every command fails. *)
Definition down_world : world :=
  world_of (fun _ => completed 1 EmptyString "network unreachable").

(** Providers stay in the Registering state for ever; register calls
    succeed. *)
Definition pending_world : world :=
  world_of (fun command =>
    match command with
    | "az" :: "provider" :: "show" :: _ =>
        completed 0 ("Registering" ++ nl) EmptyString
    | _ => completed 0 EmptyString EmptyString
    end).

(** Register calls are refused; state queries answer NotRegistered. *)
Definition refusing_world : world :=
  world_of (fun command =>
    match command with
    | "az" :: "provider" :: "show" :: _ =>
        completed 0 ("NotRegistered" ++ nl) EmptyString
    | "az" :: "provider" :: "register" :: _ =>
        completed 1 EmptyString "AuthorizationFailed"
    | _ => completed 0 EmptyString EmptyString
    end).

(** A decoder that knows the two documents of the concrete worlds. *)
Definition demo_json (text : string) : string + gmap string string :=
  if String.eqb text "ACCOUNT-JSON" then
    inr (<[ "id" := "0000-sub" ]>
         (<[ "name" := "Demo" ]> {[ "tenantId" := "0000-tenant" ]}))
  else if String.eqb text "SP-JSON" then
    inr (<[ "clientId" := "0000-app" ]> {[ "clientSecret" := "s3cret" ]})
  else inl "Expecting value: line 1 column 1 (char 0)".

Definition demo_strftime (_ : Q) : string := "2023-11-14 22:13:20".

Definition demo_upper (s : string) : string :=
  if String.eqb s "dev" then "DEV" else s.

Definition initial_state : state :=
  {| calls := 0; sleeps := 0; clock := 1700000000; files := ∅ |}.

(** The arguments of [--environment dev --project-name acme]. *)
Definition acme_dev_args : args :=
  {| project_name := "acme"; location := "East US";
     environment := Some "dev"; environments := None;
     all_environments := false |}.

(** The answer of a provider that refuses a register call. *)
Definition refused : CompletedProcess :=
  completed 1 EmptyString "AuthorizationFailed".

(** The run of the whole setup for [acme] and [dev] on the fresh world. *)
Definition acme_dev_setup : outcome unit * state * list event :=
  setup fresh_world demo_json demo_strftime demo_upper 30
    "acme" "East US" ["dev"] initial_state.

(** Arguments that select no environment. *)
Definition bare_args : args :=
  {| project_name := "acme"; location := "East US";
     environment := None; environments := None;
     all_environments := false |}.

(** A decoder for which the output of [az ad sp create-for-rbac] has no
    [clientSecret] field. *)
Definition secretless_json (text : string) : string + gmap string string :=
  if String.eqb text "SP-JSON" then inr {[ "clientId" := "0000-app" ]}
  else demo_json text.

(** The storage account of [dev] in the concrete runs, and the answer of a
    command when the network is down. *)
Definition dev_accounts : list (string * string) := [("dev", "acmetfdev000000")].

Definition unreachable : CompletedProcess :=
  completed 1 EmptyString "network unreachable".

(** Providers stay in the Registering state, and the wall clock is set back
    by one hour once, while the 26th subprocess runs: [time.time()] follows
    the system clock, which an administrator or a time service may correct. *)
Definition setback_world : world :=
  {| respond := fun _ command =>
       match command with
       | "az" :: "provider" :: "show" :: _ =>
           completed 0 ("Registering" ++ nl) EmptyString
       | _ => completed 0 EmptyString EmptyString
       end;
     elapsed := fun n => if Nat.eqb n 25 then (-3600)%Q else 1%Q;
     oversleep := fun _ => 0%Q |}.

(** The poller on providers that stay in the Registering state, with a
    steady clock and with the clock that is set back. *)
Definition pending_run : outcome unit * state * list event :=
  check_and_register_providers pending_world 30 initial_state.

Definition setback_run : outcome unit * state * list event :=
  check_and_register_providers setback_world 400 initial_state.

(** A tree that holds the example of the variable file of [dev]. *)
Definition example_state : state :=
  {| calls := 0; sleeps := 0; clock := 1700000000;
     files := {[ "terraform/environments/dev/terraform.tfvars.example"
                 := "project_name = " ++ dquote ++ "aks-platform" ++ dquote
                    ++ nl ]} |}.

(** ** Properties *)

(** *** The string operations on examples *)

Example remove_char_ex : Py.remove_char "-" "aks-platform" = "aksplatform".
Proof. reflexivity. Qed.

Example suffix_ex : Py.suffix 6 (Py.str_of_Z 1700000123) = "000123".
Proof. reflexivity. Qed.

Example suffix_short_ex : Py.suffix 6 (Py.str_of_Z 42) = "42".
Proof. reflexivity. Qed.

Example strip_ex :
  Py.strip (" Registered" ++ String "010" EmptyString) = "Registered".
Proof. reflexivity. Qed.

Example replace_ex : Py.replace "ab" "X" "cababd" = "cXXd".
Proof. reflexivity. Qed.

Example int_of_float_ex : Py.int_of_float (17 # 5) = 3%Z.
Proof. reflexivity. Qed.

(** *** The command runner *)

Section RunCommand.

Variable w : world.

(** With [check=False] the runner hands back whatever the process did. *)
Lemma run_command_unchecked (command : list string) (st : state) :
  run_command w command false st
  = (Ret (respond w (calls st) command), after_call w st,
     [EvCmd command (respond w (calls st) command)]).
Proof. reflexivity. Qed.

Lemma run_command_checked_ok (command : list string) (st : state) :
  returncode (respond w (calls st) command) = 0%Z ->
  run_command w command true st
  = (Ret (respond w (calls st) command), after_call w st,
     [EvCmd command (respond w (calls st) command)]).
Proof.
  intros Hrc. unfold run_command, try_except, subprocess_run.
  rewrite Hrc. reflexivity.
Qed.

Lemma run_command_checked_fail (command : list string) (st : state) :
  returncode (respond w (calls st) command) <> 0%Z ->
  run_command w command true st
  = (Exit 1, after_call w st,
     [ EvCmd command (respond w (calls st) command);
       EvPrint Error ("Command failed: " ++ Py.join " " command);
       EvPrint Error ("Error: " ++ stderr (respond w (calls st) command)) ]).
Proof.
  intros Hrc. unfold run_command, try_except, subprocess_run.
  apply Z.eqb_neq in Hrc. rewrite Hrc. reflexivity.
Qed.

(** C8. With [check] set, a command that exits non-zero ends the process
    with exit code 1 after an error report that carries the captured
    standard error; without [check], the runner returns the completed
    process, exit code included, and reports nothing. *)
Theorem run_command_check_semantics (command : list string) (st : state) :
  let result := respond w (calls st) command in
  (returncode result <> 0%Z ->
   result_of (run_command w command true st) = Exit 1 /\
   events_of (run_command w command true st)
   = [ EvCmd command result;
       EvPrint Error ("Command failed: " ++ Py.join " " command);
       EvPrint Error ("Error: " ++ stderr result) ]) /\
  result_of (run_command w command false st) = Ret result /\
  events_of (run_command w command false st) = [EvCmd command result].
Proof.
  intros result. split.
  - intros Hrc. rewrite (run_command_checked_fail _ _ Hrc). split; reflexivity.
  - rewrite run_command_unchecked. split; reflexivity.
Qed.

End RunCommand.

(** *** The resource group *)

(** Whenever the routine returns, it returns the name derived from the
    project name. *)
Lemma create_state_resource_group_name (w : world)
    (project_name location : string) (st : state) (name : string) :
  result_of (create_state_resource_group w project_name location st) = Ret name ->
  name = project_name ++ "-terraform-state-rg".
Proof.
  unfold create_state_resource_group, bind, print_status, emit.
  rewrite run_command_unchecked.
  destruct (returncode _ =? 0)%Z.
  - cbn. congruence.
  - destruct (Z.eq_dec
      (returncode (respond w (calls (after_call w st))
         (group_create (project_name ++ "-terraform-state-rg") location
            project_name))) 0%Z) as [Hrc | Hrc].
    + rewrite (run_command_checked_ok _ _ _ Hrc). cbn. congruence.
    + rewrite (run_command_checked_fail _ _ _ Hrc). cbn. discriminate.
Qed.

Section ResourceGroup.

Variable w : world.

(** C7. When the lookup of the resource group succeeds, the routine starts
    no other command (so no creation call), prints no error, and returns the
    name a fresh run returns. *)
Theorem create_state_resource_group_idempotent
    (project_name location : string) (st : state) :
  let rg_name := project_name ++ "-terraform-state-rg" in
  let lookup := respond w (calls st) (group_show rg_name) in
  returncode lookup = 0%Z ->
  result_of (create_state_resource_group w project_name location st)
  = Ret rg_name /\
  events_of (create_state_resource_group w project_name location st)
  = [ EvPrint Info "Creating resource group for Terraform state...";
      EvCmd (group_show rg_name) lookup;
      EvPrint Warning ("Resource group " ++ rg_name ++ " already exists") ] /\
  forall (w' : world) (st' : state) (name : string),
    result_of (create_state_resource_group w' project_name location st')
    = Ret name ->
    name = rg_name.
Proof.
  intros rg_name lookup Hrc. split; [| split].
  - unfold create_state_resource_group, bind, print_status, emit.
    rewrite run_command_unchecked. fold rg_name lookup. rewrite Hrc.
    reflexivity.
  - unfold create_state_resource_group, bind, print_status, emit.
    rewrite run_command_unchecked. fold rg_name lookup. rewrite Hrc.
    reflexivity.
  - intros w' st' name. apply create_state_resource_group_name.
Qed.

End ResourceGroup.

(** *** Storage-account names *)

Lemma prefix_length (n : nat) (s : string) :
  String.length (Py.prefix n s) <= n.
Proof.
  revert s. induction n as [| n IH]; intros [| a s]; cbn; try lia.
  specialize (IH s). lia.
Qed.

Lemma drop_length (k : nat) (s : string) :
  String.length (Py.drop k s) = String.length s - k.
Proof.
  revert s. induction k as [| k IH]; intros [| a s]; cbn; try lia.
  apply IH.
Qed.

Lemma suffix_length (n : nat) (s : string) :
  String.length (Py.suffix n s) <= n.
Proof. unfold Py.suffix. rewrite drop_length. lia. Qed.

Lemma append_length (a b : string) :
  String.length (a ++ b) = String.length a + String.length b.
Proof. induction a as [| c a IH]; simpl; [reflexivity | now f_equal]. Qed.

Lemma short_project_length (project_name : string) :
  String.length (short_project project_name) <= 8.
Proof. apply prefix_length. Qed.

Lemma timestamp_suffix_length (now : Q) :
  String.length (timestamp_suffix now) <= 6.
Proof. apply suffix_length. Qed.

(** The generated name is at most sixteen characters longer than the
    environment label. *)
Lemma storage_name_length (project_name env : string) (now : Q) :
  String.length (storage_name project_name env (timestamp_suffix now))
  <= 16 + String.length env.
Proof.
  unfold storage_name. rewrite !append_length.
  pose proof (short_project_length project_name).
  pose proof (timestamp_suffix_length now).
  cbn [String.length]. lia.
Qed.

(** X8. For labels of at most eight characters, [dev], [staging] and [prod]
    among them, the name respects the limit of 24 characters. *)
Lemma storage_name_fits (project_name env : string) (now : Q) :
  String.length env <= 8 ->
  String.length (storage_name project_name env (timestamp_suffix now)) <= 24.
Proof. intros Henv. pose proof (storage_name_length project_name env now). lia. Qed.

(** C1. The name given to the storage account of an environment called
    [production] has 26 characters: the project name is cut to eight
    characters, the environment label is not cut at all. *)
Theorem storage_name_exceeds_limit :
  commands
    (events_of
       (create_storage_accounts fresh_world "aks-platform"
          "aks-platform-terraform-state-rg" "East US" ["production"]
          initial_state))
  = [ storage_account_create "aksplatftfproduction000000"
        "aks-platform-terraform-state-rg" "East US" "production" "aks-platform";
      storage_container_create "aksplatftfproduction000000" ] /\
  storage_name "aks-platform" "production" (timestamp_suffix 1700000000)
  = "aksplatftfproduction000000" /\
  String.length "aksplatftfproduction000000" = 26.
Proof. repeat split; vm_compute; reflexivity. Qed.

(** *** Counting and the shape of runs *)

Lemma count_app (f : event -> bool) (a b : list event) :
  count f (a ++ b)%list = count f a + count f b.
Proof. unfold count. rewrite List.filter_app, length_app. reflexivity. Qed.

Lemma count_cons (f : event -> bool) (e : event) (evs : list event) :
  count f (e :: evs) = (if f e then 1 else 0) + count f evs.
Proof. unfold count. cbn. destruct (f e); reflexivity. Qed.

Lemma count_zero (f : event -> bool) (evs : list event) :
  Forall (fun e => f e = false) evs -> count f evs = 0.
Proof.
  induction 1 as [| e evs He _ IH]; [reflexivity |].
  rewrite count_cons, He, IH. reflexivity.
Qed.

Lemma commands_app (a b : list event) :
  commands (a ++ b)%list = (commands a ++ commands b)%list.
Proof.
  induction a as [| [] a IH]; cbn; rewrite ?IH; reflexivity.
Qed.

Lemma written_app (a b : list event) :
  written (a ++ b)%list = (written a ++ written b)%list.
Proof.
  induction a as [| [] a IH]; cbn; rewrite ?IH; reflexivity.
Qed.

(** Running a sequence: the first part decides whether the second runs. *)
Lemma bind_run {A B} (m : M A) (f : A -> M B) (st : state) :
  bind m f st
  = match m st with
    | (Ret a, st1, evs1) =>
        (result_of (f a st1), state_of (f a st1),
         (evs1 ++ events_of (f a st1))%list)
    | (Exit c, st1, evs1) => (Exit c, st1, evs1)
    | (Raise e, st1, evs1) => (Raise e, st1, evs1)
    | (OutOfFuel, st1, evs1) => (OutOfFuel, st1, evs1)
    end.
Proof.
  unfold bind, result_of, state_of, events_of.
  destruct (m st) as [[[a | c | e |] st1] evs1]; try reflexivity.
  destruct (f a st1) as [[r st2] evs2]. reflexivity.
Qed.

Lemma bind_returns {A B} (m : M A) (f : A -> M B) (st st1 : state)
    (a : A) (evs1 : list event) :
  m st = (Ret a, st1, evs1) ->
  bind m f st
  = (result_of (f a st1), state_of (f a st1),
     (evs1 ++ events_of (f a st1))%list).
Proof. intros Hm. rewrite bind_run, Hm. reflexivity. Qed.

Lemma run_eta {A} (r : outcome A * state * list event) :
  r = (result_of r, state_of r, events_of r).
Proof. destruct r as [[? ?] ?]. reflexivity. Qed.

Section Emits.

Context {A B : Type} (P : event -> Prop).

Lemma emits_ret (a : A) : emits P (ret a).
Proof. intros st. constructor. Qed.

Lemma emits_sys_exit (code : Z) : emits P (@sys_exit A code).
Proof. intros st. constructor. Qed.

Lemma emits_raise (e : exn) : emits P (@raise A e).
Proof. intros st. constructor. Qed.

Lemma emits_out_of_fuel : emits P (@out_of_fuel A).
Proof. intros st. constructor. Qed.

Lemma emits_emit (e : event) : P e -> emits P (emit e).
Proof. intros He st. repeat constructor. exact He. Qed.

Lemma emits_bind (m : M A) (f : A -> M B) :
  emits P m -> (forall a, emits P (f a)) -> emits P (bind m f).
Proof.
  intros Hm Hf st. rewrite bind_run.
  specialize (Hm st). unfold events_of in Hm.
  destruct (m st) as [[[a | c | e |] st1] evs1]; cbn in *; try exact Hm.
  apply Forall_app. split; [exact Hm | apply Hf].
Qed.

Lemma emits_try_except (m : M A) (handler : exn -> option (M A)) :
  emits P m ->
  (forall e h, handler e = Some h -> emits P h) ->
  emits P (try_except m handler).
Proof.
  intros Hm Hh st. unfold try_except.
  specialize (Hm st). unfold events_of in Hm.
  destruct (m st) as [[[a | c | e |] st1] evs1]; cbn in *; try exact Hm.
  destruct (handler e) as [h |] eqn:Hhe; [| exact Hm].
  specialize (Hh e h Hhe st1). unfold events_of in Hh.
  destruct (h st1) as [[r st2] evs2]. cbn in *.
  apply Forall_app. split; assumption.
Qed.

End Emits.

Lemma emits_for_each {A} (P : event -> Prop) (l : list A) (body : A -> M unit) :
  (forall x, In x l -> emits P (body x)) -> emits P (for_each l body).
Proof.
  induction l as [| x l IH]; intros Hbody; cbn [for_each].
  - apply emits_ret.
  - apply emits_bind.
    + apply Hbody. left. reflexivity.
    + intros _. apply IH. intros y Hy. apply Hbody. right. exact Hy.
Qed.

Lemma emits_for_acc {A S} (P : event -> Prop) (l : list A) (acc : S)
    (body : S -> A -> M S) :
  (forall s x, In x l -> emits P (body s x)) -> emits P (for_acc l acc body).
Proof.
  revert acc. induction l as [| x l IH]; intros acc Hbody; cbn [for_acc].
  - apply emits_ret.
  - apply emits_bind.
    + apply Hbody. left. reflexivity.
    + intros acc'. apply IH. intros s y Hy. apply Hbody. right. exact Hy.
Qed.

Section EmitsPrimitives.

Variable w : world.
Variable P : event -> Prop.

Lemma emits_time_time : emits P time_time.
Proof. intros st. constructor. Qed.

Lemma emits_path_exists (path : string) : emits P (path_exists path).
Proof. intros st. constructor. Qed.

Lemma emits_time_sleep (seconds : Q) :
  P (EvSleep seconds) -> emits P (time_sleep w seconds).
Proof. intros H st. repeat constructor. exact H. Qed.

Lemma emits_write_file (path content : string) :
  P (EvWrite path content) -> emits P (write_file path content).
Proof. intros H st. repeat constructor. exact H. Qed.

Lemma emits_read_file (path : string) :
  P (EvRead path) -> emits P (read_file path).
Proof.
  intros H st. unfold read_file, events_of.
  destruct (files st !! path); repeat constructor. exact H.
Qed.

Lemma emits_getitem (d : gmap string string) (key : string) :
  emits P (getitem d key).
Proof. unfold getitem. destruct (d !! key); intros st; constructor. Qed.

(** A command run without [check] shows up as one event. *)
Lemma emits_run_command_unchecked (command : list string) :
  (forall r, P (EvCmd command r)) -> emits P (run_command w command false).
Proof.
  intros H st. rewrite run_command_unchecked. repeat constructor. apply H.
Qed.

(** With [check], a failure adds two error messages. *)
Lemma emits_run_command (command : list string) (check : bool) :
  (forall r, P (EvCmd command r)) ->
  (forall message, P (EvPrint Error message)) ->
  emits P (run_command w command check).
Proof.
  intros Hc He st. destruct check.
  - destruct (Z.eq_dec (returncode (respond w (calls st) command)) 0%Z) as [Hrc | Hrc].
    + rewrite (run_command_checked_ok _ _ _ Hrc). repeat constructor. apply Hc.
    + rewrite (run_command_checked_fail _ _ _ Hrc).
      repeat constructor; [apply Hc | apply He | apply He].
  - apply emits_run_command_unchecked. exact Hc.
Qed.

End EmitsPrimitives.

(** Reduces a goal [emits P m] to the events [m] can produce. *)
Ltac emits_step :=
  first
    [ apply emits_ret | apply emits_sys_exit | apply emits_raise
    | apply emits_out_of_fuel | apply emits_time_time
    | apply emits_path_exists | apply emits_getitem
    | apply emits_emit | apply emits_time_sleep
    | apply emits_write_file | apply emits_read_file
    | apply emits_run_command_unchecked; intros
    | apply emits_run_command; intros
    | apply emits_bind; [| intros]
    | apply emits_for_each; intros
    | apply emits_for_acc; intros
    | match goal with
      | |- emits _ (if ?c then _ else _) => destruct c
      | |- emits _ (match ?c with _ => _ end) => destruct c
      end ].

Ltac emits_auto :=
  unfold print_status, print_success, print_warning, print_error, print,
    mkdir, loads, lookup_env;
  repeat emits_step.

(** *** The provider registration poller *)

Section Poller.

Variable w : world.

(** The first loop returns, whatever the providers answer, and asks once
    per provider. *)
Lemma query_provider_run (acc : list string) (p : string) (st : state) :
  exists l message,
    query_provider w acc p st
    = (Ret (if registered (respond w (calls st) (provider_show p))
            then acc else (acc ++ [p])%list),
       after_call w st,
       [ EvCmd (provider_show p) (respond w (calls st) (provider_show p));
         EvPrint l message ]).
Proof.
  unfold query_provider.
  rewrite (bind_returns _ _ _ _ _ _ (run_command_unchecked w _ st)).
  unfold registered.
  destruct (returncode _ =? 0)%Z; cbn [andb].
  - destruct (String.eqb _ "Registered"); cbn [negb]; eexists _, _; reflexivity.
  - eexists _, _; reflexivity.
Qed.

Lemma query_providers_run (l acc : list string) (st : state) :
  exists st' evs,
    for_acc l acc (query_provider w) st
    = (Ret (acc ++ unregistered_from w (calls st) l)%list, st', evs) /\
    commands evs = map provider_show l /\
    calls st' = calls st + length l /\
    sleeps st' = sleeps st.
Proof.
  revert acc st. induction l as [| p l IH]; intros acc st.
  - exists st, []. cbn. rewrite app_nil_r. repeat split; lia.
  - cbn [for_acc unregistered_from].
    destruct (query_provider_run acc p st) as (lv & msg & Hq).
    rewrite (bind_returns _ _ _ _ _ _ Hq).
    destruct (IH (if registered (respond w (calls st) (provider_show p))
                  then acc else (acc ++ [p])%list) (after_call w st))
      as (st' & evs & Hrun & Hcmds & Hcalls & Hsleeps).
    rewrite Hrun. cbn [result_of state_of events_of fst snd].
    eexists _, _. split; [| split; [| split]].
    + f_equal. f_equal. f_equal. cbn [calls after_call].
      destruct (registered _); [reflexivity |].
      rewrite <- app_assoc. reflexivity.
    + cbn. rewrite Hcmds. reflexivity.
    + rewrite Hcalls. cbn. lia.
    + rewrite Hsleeps. reflexivity.
Qed.

Lemma unregistered_from_none (n : nat) (l : list string) :
  (forall i p, l !! i = Some p ->
               registered (respond w (n + i) (provider_show p)) = true) ->
  unregistered_from w n l = [].
Proof.
  revert n. induction l as [| p l IH]; intros n H; [reflexivity |].
  cbn [unregistered_from].
  pose proof (H 0 p eq_refl) as H0. rewrite Nat.add_0_r in H0. rewrite H0.
  apply IH. intros i q Hq. specialize (H (S i) q Hq).
  rewrite Nat.add_succ_r in H. exact H.
Qed.

Lemma emits_query_providers (P : event -> Prop) (l : list string) :
  (forall p r, P (EvCmd (provider_show p) r)) ->
  (forall p s, P (EvPrint Info ("Provider " ++ p ++ ": " ++ s))) ->
  (forall p, P (EvPrint Warning ("Could not check provider " ++ p))) ->
  emits P (query_providers w l).
Proof.
  intros Hc Hi Hw. unfold query_providers, query_provider. emits_auto;
    first [apply Hc | apply Hi | apply (Hi _ "Registered") | apply Hw].
Qed.

(** C6. When each of the ten state queries succeeds and answers
    Registered, the poller returns after exactly these ten queries: it
    starts no register call and never sleeps. *)
Theorem all_registered_returns_immediately (fuel : nat) (st : state) :
  (forall i p, required_providers !! i = Some p ->
     registered (respond w (calls st + i) (provider_show p)) = true) ->
  let run := check_and_register_providers w fuel st in
  result_of run = Ret tt /\
  commands (events_of run) = map provider_show required_providers /\
  count (is_cmd ["az"; "provider"; "register"]) (events_of run) = 0 /\
  count is_sleep (events_of run) = 0 /\
  sleeps (state_of run) = sleeps st /\
  calls (state_of run) = calls st + length required_providers.
Proof.
  intros Hreg run.
  destruct (query_providers_run required_providers [] st)
    as (st' & evs & Hrun & Hcmds & Hcalls & Hsleeps).
  rewrite (unregistered_from_none _ _ Hreg) in Hrun.
  pose proof (emits_query_providers
                (fun e => is_cmd ["az"; "provider"; "register"] e = false
                          /\ is_sleep e = false)
                required_providers) as Hem.
  specialize (Hem ltac:(intros; split; reflexivity)
                  ltac:(intros; split; reflexivity)
                  ltac:(intros; split; reflexivity) st).
  unfold query_providers in Hem. rewrite Hrun in Hem.
  cbn [events_of snd] in Hem.
  assert (Hrun' : run = (Ret tt, st',
            (EvPrint Info "Checking Azure resource providers..." :: evs
             ++ [EvPrint Success
                   "All required resource providers are already registered"])%list)).
  { subst run. unfold check_and_register_providers.
    unfold print_status at 1. unfold emit at 1. rewrite bind_run.
    unfold query_providers.
    rewrite (bind_returns _ _ _ _ _ _ Hrun). reflexivity. }
  rewrite Hrun'. cbn [result_of state_of events_of fst snd].
  split; [reflexivity |]. split.
  { cbn [commands]. rewrite commands_app, Hcmds. cbn. reflexivity. }
  split.
  { rewrite count_cons, count_app. cbn.
    rewrite count_zero; [reflexivity |].
    eapply Forall_impl; [exact Hem |]. intros e [He _]. exact He. }
  split.
  { rewrite count_cons, count_app. cbn.
    rewrite count_zero; [reflexivity |].
    eapply Forall_impl; [exact Hem |]. intros e [_ He]. exact He. }
  split; assumption.
Qed.

End Poller.

Lemma count_is_cmd (p : list string) (evs : list event) :
  count (is_cmd p) evs = length (List.filter (starts_with p) (commands evs)).
Proof.
  induction evs as [| e evs IH]; [reflexivity |].
  rewrite count_cons, IH.
  destruct e; cbn; try reflexivity.
  destruct (starts_with p command); reflexivity.
Qed.

Section Registration.

Variable w : world.

Lemma register_provider_run (p : string) (st : state) :
  let r := respond w (calls st) (provider_register p) in
  register_provider w p st
  = if (returncode r =? 0)%Z
    then (Ret tt, after_call w st,
          [ EvPrint Info ("Registering " ++ p ++ "...");
            EvCmd (provider_register p) r;
            EvPrint Success ("Registration initiated for " ++ p) ])
    else (Exit 1, after_call w st,
          [ EvPrint Info ("Registering " ++ p ++ "...");
            EvCmd (provider_register p) r;
            EvPrint Error ("Failed to register " ++ p) ]).
Proof.
  intros r. unfold register_provider, print_status.
  unfold emit at 1. rewrite bind_run.
  rewrite (bind_returns _ _ _ _ _ _ (run_command_unchecked w _ st)).
  fold r. destruct (returncode r =? 0)%Z; reflexivity.
Qed.

(** The second loop either gets through, every register call having
    succeeded, or stops right after the first register call that failed. *)
Lemma register_providers_run (l : list string) (st : state) :
  let run := register_providers w l st in
  (result_of run = Ret tt /\
   Forall (fun e => forall p r, e = EvCmd (provider_register p) r ->
                                returncode r = 0%Z) (events_of run))
  \/
  (result_of run = Exit 1 /\
   exists pre q r,
     events_of run
     = (pre ++ [ EvCmd (provider_register q) r;
                 EvPrint Error ("Failed to register " ++ q) ])%list /\
     returncode r <> 0%Z /\
     Forall (fun e => forall p r, e = EvCmd (provider_register p) r ->
                                  returncode r = 0%Z) pre).
Proof.
  revert st. induction l as [| p l IH]; intros st run; subst run.
  - left. split; [reflexivity | constructor].
  - unfold register_providers. cbn [for_each]. rewrite bind_run.
    rewrite register_provider_run.
    destruct (returncode _ =? 0)%Z eqn:Hrc.
    + cbn [result_of state_of events_of fst snd].
      destruct (IH (after_call w st)) as [[Hres Hall] | [Hres Hex]].
      * left. unfold register_providers in *. split; [exact Hres |].
        repeat constructor; try discriminate.
        -- intros p' r' [= _ <-]. apply Z.eqb_eq. exact Hrc.
        -- exact Hall.
      * right. unfold register_providers in *. split; [exact Hres |].
        destruct Hex as (pre & q & r & Hev & Hr & Hpre).
        eexists (_ :: _ :: _ :: pre), q, r. rewrite Hev.
        split; [reflexivity |]. split; [exact Hr |].
        repeat constructor; try discriminate; [| exact Hpre].
        intros p' r' [= _ <-]. apply Z.eqb_eq. exact Hrc.
    + right. cbn [result_of state_of events_of fst snd].
      split; [reflexivity |].
      eexists [_], p, _. split; [reflexivity |].
      split; [apply Z.eqb_neq; exact Hrc |].
      repeat constructor. discriminate.
Qed.

(** A register call is started for every provider of the list, unless the
    register call of another provider failed first. *)
Lemma register_providers_attempts (l : list string) (st : state) (p : string) :
  In p l ->
  let run := register_providers w l st in
  (exists r, In (EvCmd (provider_register p) r) (events_of run))
  \/
  (result_of run = Exit 1 /\
   exists q r, q <> p /\ In (EvCmd (provider_register q) r) (events_of run)
               /\ returncode r <> 0%Z).
Proof.
  revert st. induction l as [| a l IH]; intros st Hin run; subst run;
    [destruct Hin |].
  unfold register_providers. cbn [for_each]. rewrite bind_run.
  rewrite register_provider_run.
  destruct (decide (a = p)) as [-> | Hne].
  - left. destruct (returncode _ =? 0)%Z; eexists;
      cbn [events_of snd]; right; left; reflexivity.
  - destruct Hin as [-> | Hin]; [congruence |].
    destruct (returncode _ =? 0)%Z eqn:Hrc.
    + cbn [result_of state_of events_of fst snd].
      destruct (IH (after_call w st) Hin) as [[r Hr] | (Hres & q & r & Hq & Hr & Hrc')].
      * left. exists r. unfold register_providers in Hr.
        do 3 right. exact Hr.
      * right. unfold register_providers in *. split; [exact Hres |].
        exists q, r. split; [exact Hq |]. split; [| exact Hrc'].
        do 3 right. exact Hr.
    + right. cbn [result_of state_of events_of fst snd].
      split; [reflexivity |]. eexists a, _. split; [exact Hne |].
      split; [right; left; reflexivity |]. apply Z.eqb_neq. exact Hrc.
Qed.

Lemma emits_register_providers (P : event -> Prop) (l : list string) :
  (forall p r, P (EvCmd (provider_register p) r)) ->
  (forall p, P (EvPrint Info ("Registering " ++ p ++ "..."))) ->
  (forall p, P (EvPrint Success ("Registration initiated for " ++ p))) ->
  (forall p, P (EvPrint Error ("Failed to register " ++ p))) ->
  emits P (register_providers w l).
Proof.
  intros Hc Hi Hs He. unfold register_providers, register_provider.
  emits_auto; auto.
Qed.

Lemma emits_poll_providers (P : event -> Prop) (l : list string) :
  (forall p r, P (EvCmd (provider_show p) r)) ->
  emits P (poll_providers w l).
Proof.
  intros Hc. induction l as [| p l IH]; cbn [poll_providers]; emits_auto; auto.
Qed.

Lemma emits_wait_for_registration (P : event -> Prop) (fuel : nat)
    (start_time : Q) (l : list string) :
  (forall p r, P (EvCmd (provider_show p) r)) ->
  (forall lv message, P (EvPrint lv message)) ->
  (forall s, P (EvSleep s)) ->
  emits P (wait_for_registration w fuel start_time l).
Proof.
  intros Hc Hp Hs. induction fuel as [| fuel IH]; cbn [wait_for_registration].
  - emits_auto; auto.
  - apply emits_bind; [apply emits_time_time |]. intros now.
    destruct (Qlt_le_dec _ _); [| emits_auto; auto].
    apply emits_bind; [apply emits_poll_providers; exact Hc |].
    intros [|]; emits_auto; auto.
Qed.

(** The run of the poller, phase by phase. *)
Lemma check_and_register_providers_run (fuel : nat) (st : state) :
  let unreg := unregistered_from w (calls st) required_providers in
  exists stQ evQ,
    query_providers w required_providers st = (Ret unreg, stQ, evQ) /\
    commands evQ = map provider_show required_providers /\
    check_and_register_providers w fuel st
    = match unreg with
      | [] =>
          (Ret tt, stQ,
           (EvPrint Info "Checking Azure resource providers..." :: evQ ++
            [ EvPrint Success
                "All required resource providers are already registered" ])%list)
      | _ :: _ =>
          let R := register_providers w unreg stQ in
          let W := wait_for_registration w fuel (clock (state_of R)) unreg
                     (state_of R) in
          let heading :=
            EvPrint Info ("Registering " ++ Py.str_of_nat (length unreg)
                          ++ " resource providers...") in
          match result_of R with
          | Ret _ =>
              (result_of W, state_of W,
               (EvPrint Info "Checking Azure resource providers..." :: evQ ++
                heading :: events_of R ++
                EvPrint Info "Waiting for provider registration to complete..."
                :: events_of W)%list)
          | other =>
              (other, state_of R,
               (EvPrint Info "Checking Azure resource providers..." :: evQ ++
                heading :: events_of R)%list)
          end
      end.
Proof.
  intros unreg.
  destruct (query_providers_run w required_providers [] st)
    as (stQ & evQ & Hrun & Hcmds & _ & _).
  cbn [app] in Hrun. fold unreg in Hrun.
  exists stQ, evQ. split; [exact Hrun |]. split; [exact Hcmds |].
  unfold check_and_register_providers.
  unfold print_status at 1. unfold emit at 1. rewrite bind_run.
  unfold query_providers. rewrite (bind_returns _ _ _ _ _ _ Hrun).
  destruct unreg as [| u unreg']; [reflexivity |].
  set (l := u :: unreg').
  unfold print_status, emit, time_time. rewrite !bind_run.
  destruct (register_providers w l stQ) as [[[[] | c | e |] stR] evR];
    cbn [result_of state_of events_of fst snd]; try reflexivity.
  rewrite !bind_run. reflexivity.
Qed.

(** C10. A register call that exits non-zero ends the process with exit
    code 1: the failed call is followed by its error message and nothing
    else, no sleep has happened, and the only state queries of the run are
    the ten initial ones, so polling never started. *)
Theorem failed_register_is_fatal (fuel : nat) (st : state) (p : string)
    (r : CompletedProcess) :
  let run := check_and_register_providers w fuel st in
  In (EvCmd (provider_register p) r) (events_of run) ->
  returncode r <> 0%Z ->
  result_of run = Exit 1 /\
  (exists pre,
     events_of run
     = (pre ++ [ EvCmd (provider_register p) r;
                 EvPrint Error ("Failed to register " ++ p) ])%list) /\
  count is_sleep (events_of run) = 0 /\
  count (is_cmd ["az"; "provider"; "show"]) (events_of run)
  = length required_providers.
Proof.
  intros run Hin Hrc. subst run.
  destruct (check_and_register_providers_run fuel st)
    as (stQ & evQ & HQ & Hcmds & Hrun).
  pose proof (emits_query_providers w
                (fun e => (forall p r, e <> EvCmd (provider_register p) r)
                          /\ is_sleep e = false)
                required_providers
                ltac:(intros; split; [discriminate | reflexivity])
                ltac:(intros; split; [discriminate | reflexivity])
                ltac:(intros; split; [discriminate | reflexivity]) st) as HemQ.
  rewrite HQ in HemQ. cbn [events_of snd] in HemQ.
  assert (HshowQ : count (is_cmd ["az"; "provider"; "show"]) evQ
                   = length required_providers).
  { rewrite count_is_cmd, Hcmds. reflexivity. }
  rewrite Hrun in *. clear Hrun.
  destruct (unregistered_from w (calls st) required_providers) as [| u l'] eqn:Hu.
  { exfalso. cbn [events_of snd] in Hin.
    destruct Hin as [Hin | Hin]; [discriminate |].
    apply in_app_or in Hin. destruct Hin as [Hin | [Hin | []]]; [| discriminate].
    rewrite Forall_forall in HemQ. apply list_elem_of_In in Hin.
    destruct (HemQ _ Hin) as [Hne _]. exact (Hne p r eq_refl). }
  set (l := u :: l') in *.
  cbv zeta in *.
  pose proof (emits_register_providers
                (fun e => is_sleep e = false
                          /\ is_cmd ["az"; "provider"; "show"] e = false) l
                ltac:(intros; split; reflexivity)
                ltac:(intros; split; reflexivity)
                ltac:(intros; split; reflexivity)
                ltac:(intros; split; reflexivity) stQ) as HemR.
  destruct (register_providers_run l stQ) as [[Hres Hall] | [Hres Hex]].
  - exfalso. rewrite Hres in Hin. cbn [events_of snd] in Hin.
    destruct Hin as [Hin | Hin]; [discriminate |].
    apply in_app_or in Hin. destruct Hin as [Hin | Hin].
    { rewrite Forall_forall in HemQ. apply list_elem_of_In in Hin.
      destruct (HemQ _ Hin) as [Hne _]. exact (Hne p r eq_refl). }
    destruct Hin as [Hin | Hin]; [discriminate |].
    apply in_app_or in Hin. destruct Hin as [Hin | Hin].
    { rewrite Forall_forall in Hall. apply list_elem_of_In in Hin.
      apply Hrc. exact (Hall _ Hin p r eq_refl). }
    destruct Hin as [Hin | Hin]; [discriminate |].
    pose proof (emits_wait_for_registration
                  (fun e => forall p r, e <> EvCmd (provider_register p) r)
                  fuel (clock (state_of (register_providers w l stQ))) l
                  ltac:(intros; discriminate) ltac:(intros; discriminate)
                  ltac:(intros; discriminate)
                  (state_of (register_providers w l stQ))) as HemW.
    rewrite Forall_forall in HemW. apply list_elem_of_In in Hin.
    exact (HemW _ Hin p r eq_refl).
  - rewrite Hres in *. cbn [result_of state_of events_of fst snd] in *.
    destruct Hex as (pre & q & r' & Hev & Hr' & Hpre).
    assert (Hpr : p = q /\ r = r').
    { destruct Hin as [Hin | Hin]; [discriminate |].
      apply in_app_or in Hin. destruct Hin as [Hin | Hin].
      { exfalso. rewrite Forall_forall in HemQ. apply list_elem_of_In in Hin.
        destruct (HemQ _ Hin) as [Hne _]. exact (Hne p r eq_refl). }
      destruct Hin as [Hin | Hin]; [discriminate |].
      rewrite Hev in Hin. apply in_app_or in Hin. destruct Hin as [Hin | Hin].
      { exfalso. rewrite Forall_forall in Hpre. apply list_elem_of_In in Hin.
        apply Hrc. exact (Hpre _ Hin p r eq_refl). }
      destruct Hin as [Hin | [Hin | []]]; [| discriminate].
      injection Hin as Hp Hr. split; congruence. }
    destruct Hpr as [<- <-].
    split; [reflexivity |]. split.
    { rewrite Hev. eexists (_ :: evQ ++ _ :: pre)%list.
      cbn [app]. f_equal. rewrite <- app_assoc. reflexivity. }
    split.
    { rewrite count_cons, count_app, count_cons. cbn.
      rewrite (count_zero is_sleep evQ), (count_zero is_sleep);
        [reflexivity | |].
      - eapply Forall_impl; [exact HemR |]. intros e [He _]. exact He.
      - eapply Forall_impl; [exact HemQ |]. intros e [_ He]. exact He. }
    { rewrite count_cons, count_app, count_cons. cbn.
      rewrite HshowQ, count_zero; [cbn; lia |].
      eapply Forall_impl; [exact HemR |]. intros e [_ He]. exact He. }
Qed.

End Registration.

Section Polling.

Variable w : world.
Hypothesis clock_monotone : monotone_clock w.

Lemma after_call_clock (st : state) : (clock st <= clock (after_call w st))%Q.
Proof.
  destruct clock_monotone as [He _]. specialize (He (calls st)).
  cbn [after_call clock]. lra.
Qed.

Lemma after_sleep_clock (seconds : Q) (st : state) :
  (clock st + seconds <= clock (after_sleep w seconds st))%Q.
Proof.
  destruct clock_monotone as [_ Hs]. specialize (Hs (sleeps st)).
  cbn [after_sleep clock]. lra.
Qed.

(** One round of queries returns and does not turn the clock back. *)
Lemma poll_providers_returns (l : list string) (st : state) :
  exists b,
    result_of (poll_providers w l st) = Ret b /\
    (clock st <= clock (state_of (poll_providers w l st)))%Q.
Proof.
  revert st. induction l as [| p l IH]; intros st; cbn [poll_providers].
  - exists true. split; [reflexivity | cbn; lra].
  - rewrite (bind_returns _ _ _ _ _ _ (run_command_unchecked w _ st)).
    cbn [result_of state_of fst snd].
    pose proof (after_call_clock st) as Hclk.
    destruct (negb _ || negb _).
    + exists false. split; [reflexivity | exact Hclk].
    + destruct (IH (after_call w st)) as (b & Hb & Hclk').
      exists b. split; [exact Hb | lra].
Qed.

Lemma budget_succ (k : nat) :
  (inject_Z (Z.of_nat (S k)) == inject_Z (Z.of_nat k) + 1)%Q.
Proof. rewrite Nat2Z.inj_succ, <- Z.add_1_r, inject_Z_plus. reflexivity. Qed.

(** The loop, with [k] rounds of ten seconds left in the budget. *)
Lemma wait_for_registration_bounded (k fuel : nat) (start_time : Q)
    (l : list string) (st : state) :
  k <= fuel ->
  (max_wait_time <= clock st - start_time + 10 * inject_Z (Z.of_nat k))%Q ->
  let run := wait_for_registration w fuel start_time l st in
  result_of run = Ret tt /\
  poll_rounds (events_of run) <= k /\
  count is_sleep (events_of run) <= k /\
  ((exists pre,
      events_of run
      = (pre ++ [ EvPrint Success
                    "All resource providers registered successfully" ])%list)
   \/
   (exists pre,
      events_of run
      = (pre ++ [ EvPrint Warning
                    "Provider registration is taking longer than expected";
                  EvPrint Info
                    "Continuing with setup - providers will complete registration in background" ])%list)).
Proof.
  unfold max_wait_time.
  cbv zeta.
  revert fuel st. induction k as [| k IH]; intros fuel st Hfuel Hbudget.
  - assert (Hexit : wait_for_registration w fuel start_time l st
             = (Ret tt, st,
                [ EvPrint Warning
                    "Provider registration is taking longer than expected";
                  EvPrint Info
                    "Continuing with setup - providers will complete registration in background" ])).
    { destruct fuel; cbn [wait_for_registration]; unfold time_time;
        rewrite bind_run; cbn [result_of state_of events_of fst snd];
        (destruct (Qlt_le_dec _ _) as [Hlt | Hge];
         [exfalso; change (inject_Z (Z.of_nat 0)) with 0%Q in Hbudget;
          unfold max_wait_time in *; lra
         | reflexivity]). }
    rewrite Hexit. cbn [result_of events_of fst snd].
    split; [reflexivity |]. split; [cbn; lia |]. split; [cbn; lia |].
    right. exists []. reflexivity.
  - destruct (Qlt_le_dec (clock st - start_time) 300) as [Hlt | Hge].
    + destruct fuel as [| fuel]; [lia |].
      cbn [wait_for_registration]. unfold time_time. rewrite bind_run.
      cbn [result_of state_of events_of fst snd].
      destruct (Qlt_le_dec _ _) as [_ | Hge];
        [| exfalso; unfold max_wait_time in *; lra].
      destruct (poll_providers_returns l st) as (b & Hb & Hclk).
      pose proof (emits_poll_providers w
                    (fun e => is_sleep e = false /\
                       is_print Success
                         "All resource providers registered successfully" e
                       = false /\
                       is_print Info
                         "Still waiting for provider registration..." e = false)
                    l ltac:(intros; repeat split; reflexivity) st) as Hem.
      rewrite bind_run.
      destruct (poll_providers w l st) as [[rP stP] evP].
      cbn [result_of state_of events_of fst snd] in *. subst rP.
      assert (HsleepP : count is_sleep evP = 0).
      { apply count_zero. eapply Forall_impl; [exact Hem |].
        intros e (H1 & H2 & H3). assumption. }
      assert (HroundsP : poll_rounds evP = 0).
      { unfold poll_rounds. rewrite !count_zero; [reflexivity | |];
          (eapply Forall_impl; [exact Hem |];
           intros e (H1 & H2 & H3); assumption). }
      destruct b.
      * cbn [app result_of state_of events_of fst snd].
        split; [reflexivity |]. split.
        { unfold poll_rounds in *. rewrite !count_app. cbn. lia. }
        split; [rewrite count_app; cbn; lia |].
        left. exists evP. reflexivity.
      * unfold print_status, emit, time_sleep. rewrite !bind_run.
        cbn [result_of state_of events_of fst snd app].
        pose proof (after_sleep_clock 10 stP) as Hsleep.
        pose proof (budget_succ k) as Hk.
        destruct (IH fuel (after_sleep w 10 stP)) as (Hres & Hrounds & Hsleeps & Hend).
        { lia. }
        { lra. }
        split; [exact Hres |]. split.
        { unfold poll_rounds in *. rewrite !count_app, !count_cons.
          cbn [is_print level_eqb andb String.eqb]. cbn. cbn in Hrounds. lia. }
        split.
        { rewrite !count_app, !count_cons. cbn. lia. }
        destruct Hend as [[pre Hpre] | [pre Hpre]]; [left | right];
          rewrite Hpre;
          eexists (evP ++ _ :: _ :: pre)%list;
          rewrite <- app_assoc; reflexivity.
    + assert (Hexit : wait_for_registration w fuel start_time l st
               = (Ret tt, st,
                  [ EvPrint Warning
                      "Provider registration is taking longer than expected";
                    EvPrint Info
                      "Continuing with setup - providers will complete registration in background" ])).
      { destruct fuel; cbn [wait_for_registration]; unfold time_time;
          rewrite bind_run; cbn [result_of state_of events_of fst snd];
          (destruct (Qlt_le_dec _ _) as [Hlt | _];
           [exfalso; unfold max_wait_time in *; lra | reflexivity]). }
      rewrite Hexit. cbn [result_of events_of fst snd].
      split; [reflexivity |]. split; [cbn; lia |]. split; [cbn; lia |].
      right. exists []. reflexivity.
Qed.

End Polling.

Section PollerBounds.

Variable w : world.

(** The counts of a run of the poller, and the message it ends with. *)
Lemma check_and_register_providers_bounded (fuel : nat) (st : state) :
  monotone_clock w ->
  30 <= fuel ->
  let run := check_and_register_providers w fuel st in
  poll_rounds (events_of run) <= 30 /\
  count is_sleep (events_of run) <= 30 /\
  ((result_of run = Ret tt /\
    exists pre,
      events_of run
      = (pre ++ [ EvPrint Success
                    "All required resource providers are already registered" ])%list
      \/ events_of run
         = (pre ++ [ EvPrint Success
                       "All resource providers registered successfully" ])%list
      \/ events_of run
         = (pre ++ [ EvPrint Warning
                       "Provider registration is taking longer than expected";
                     EvPrint Info
                       "Continuing with setup - providers will complete registration in background" ])%list)
   \/
   (result_of run = Exit 1 /\
    poll_rounds (events_of run) = 0 /\
    count is_sleep (events_of run) = 0)).
Proof.
  intros Hmono Hfuel run. subst run.
  destruct (check_and_register_providers_run w fuel st)
    as (stQ & evQ & HQ & _ & Hrun).
  set (quiet := fun e =>
         is_sleep e = false /\
         is_print Success "All resource providers registered successfully" e
         = false /\
         is_print Info "Still waiting for provider registration..." e = false).
  assert (Hquiet : forall evs, Forall quiet evs ->
            poll_rounds evs = 0 /\ count is_sleep evs = 0).
  { intros evs Hall. unfold poll_rounds. rewrite !count_zero; [split; reflexivity | | |];
      (eapply Forall_impl; [exact Hall |]; intros e (H1 & H2 & H3); assumption). }
  pose proof (emits_query_providers w quiet required_providers
                ltac:(intros; repeat split; reflexivity)
                ltac:(intros; repeat split; reflexivity)
                ltac:(intros; repeat split; reflexivity) st) as HemQ.
  rewrite HQ in HemQ. cbn [events_of snd] in HemQ.
  destruct (Hquiet _ HemQ) as [HroundsQ HsleepQ].
  rewrite Hrun. clear Hrun.
  destruct (unregistered_from w (calls st) required_providers) as [| u l'].
  { cbn [result_of events_of fst snd].
    assert (Hr : poll_rounds
                   (EvPrint Info "Checking Azure resource providers..." :: evQ ++
                    [ EvPrint Success
                        "All required resource providers are already registered" ])%list = 0).
    { unfold poll_rounds in *. rewrite !count_cons, !count_app. cbn.
      cbn in HroundsQ. lia. }
    assert (Hs : count is_sleep
                   (EvPrint Info "Checking Azure resource providers..." :: evQ ++
                    [ EvPrint Success
                        "All required resource providers are already registered" ])%list = 0).
    { rewrite !count_cons, !count_app. cbn. lia. }
    rewrite Hr, Hs. split; [lia |]. split; [lia |].
    left. split; [reflexivity |].
    eexists (_ :: evQ). left. reflexivity. }
  set (l := u :: l') in *. cbv zeta.
  pose proof (emits_register_providers w quiet l
                ltac:(intros; repeat split; reflexivity)
                ltac:(intros; repeat split; reflexivity)
                ltac:(intros; repeat split; reflexivity)
                ltac:(intros; repeat split; reflexivity) stQ) as HemR.
  destruct (Hquiet _ HemR) as [HroundsR HsleepR].
  destruct (register_providers_run w l stQ) as [[Hres _] | [Hres _]];
    rewrite Hres; cbn [result_of state_of events_of fst snd].
  - destruct (wait_for_registration_bounded w Hmono 30 fuel
                (clock (state_of (register_providers w l stQ))) l
                (state_of (register_providers w l stQ)) Hfuel)
      as (HresW & HroundsW & HsleepW & HendW).
    { unfold max_wait_time. change (inject_Z (Z.of_nat 30)) with 30%Q. lra. }
    set (evW := events_of (wait_for_registration w fuel _ l _)) in *.
    set (evR := events_of (register_providers w l stQ)) in *.
    assert (Hr : poll_rounds
                   (EvPrint Info "Checking Azure resource providers..." :: evQ ++
                    EvPrint Info ("Registering " ++ Py.str_of_nat (length l)
                                  ++ " resource providers...") :: evR ++
                    EvPrint Info "Waiting for provider registration to complete..."
                    :: evW)%list = poll_rounds evW).
    { unfold poll_rounds in *.
      rewrite !count_cons, !count_app, !count_cons, !count_app, !count_cons.
      cbn [is_print level_eqb andb]. cbn in HroundsQ, HroundsR.
      replace (String.eqb ("Registering " ++ Py.str_of_nat (length l)
                           ++ " resource providers...")
                          "Still waiting for provider registration...")
        with false by reflexivity.
      cbn. lia. }
    assert (Hs : count is_sleep
                   (EvPrint Info "Checking Azure resource providers..." :: evQ ++
                    EvPrint Info ("Registering " ++ Py.str_of_nat (length l)
                                  ++ " resource providers...") :: evR ++
                    EvPrint Info "Waiting for provider registration to complete..."
                    :: evW)%list = count is_sleep evW).
    { rewrite !count_cons, !count_app, !count_cons, !count_app, !count_cons.
      cbn [is_sleep]. lia. }
    rewrite Hr, Hs. split; [exact HroundsW |]. split; [exact HsleepW |].
    left. split; [exact HresW |].
    destruct HendW as [[pre Hpre] | [pre Hpre]]; rewrite Hpre;
      eexists (_ :: evQ ++ _ :: evR ++ _ :: pre)%list;
      [right; left | right; right];
      cbn [app]; f_equal; rewrite <- app_assoc; cbn [app]; f_equal; f_equal;
      rewrite <- app_assoc; reflexivity.
  - set (evR := events_of (register_providers w l stQ)) in *.
    assert (Hr : poll_rounds
                   (EvPrint Info "Checking Azure resource providers..." :: evQ ++
                    EvPrint Info ("Registering " ++ Py.str_of_nat (length l)
                                  ++ " resource providers...") :: evR)%list = 0).
    { unfold poll_rounds in *.
      rewrite !count_cons, !count_app, !count_cons.
      cbn [is_print level_eqb andb]. cbn in HroundsQ, HroundsR.
      replace (String.eqb ("Registering " ++ Py.str_of_nat (length l)
                           ++ " resource providers...")
                          "Still waiting for provider registration...")
        with false by reflexivity.
      cbn. lia. }
    assert (Hs : count is_sleep
                   (EvPrint Info "Checking Azure resource providers..." :: evQ ++
                    EvPrint Info ("Registering " ++ Py.str_of_nat (length l)
                                  ++ " resource providers...") :: evR)%list = 0).
    { rewrite !count_cons, !count_app, !count_cons. cbn [is_sleep]. lia. }
    rewrite Hr, Hs. split; [lia |]. split; [lia |].
    right. repeat split; reflexivity.
Qed.

(** A provider whose query does not answer Registered is in the list the
    first loop builds. *)
Lemma unregistered_from_In (n i : nat) (l : list string) (p : string) :
  l !! i = Some p ->
  registered (respond w (n + i) (provider_show p)) = false ->
  In p (unregistered_from w n l).
Proof.
  revert n i. induction l as [| a l IH]; intros n i Hi Hreg; [discriminate |].
  cbn [unregistered_from]. destruct i as [| i].
  - injection Hi as ->. rewrite Nat.add_0_r in Hreg. rewrite Hreg.
    left. reflexivity.
  - cbn in Hi. rewrite Nat.add_succ_r in Hreg.
    specialize (IH (S n) i Hi Hreg).
    destruct (registered (respond w n (provider_show a)));
      [exact IH | right; exact IH].
Qed.

(** C5, as the script has it. A provider whose state query exits non-zero
    is put on the list of unregistered providers, and the run goes on to the
    register calls: a register call is started for it, unless the register
    call of another provider failed first and ended the process. *)
Theorem failed_query_needs_registration (fuel : nat) (st : state) (i : nat)
    (p : string) :
  required_providers !! i = Some p ->
  returncode (respond w (calls st + i) (provider_show p)) <> 0%Z ->
  let run := check_and_register_providers w fuel st in
  (exists unregistered,
     result_of (query_providers w required_providers st) = Ret unregistered /\
     In p unregistered) /\
  ((exists r, In (EvCmd (provider_register p) r) (events_of run))
   \/
   (result_of run = Exit 1 /\
    exists q r, q <> p /\ In (EvCmd (provider_register q) r) (events_of run)
                /\ returncode r <> 0%Z)).
Proof.
  intros Hi Hrc run. subst run.
  assert (Hreg : registered (respond w (calls st + i) (provider_show p)) = false).
  { unfold registered. apply Z.eqb_neq in Hrc. rewrite Hrc. reflexivity. }
  pose proof (unregistered_from_In (calls st) i required_providers p Hi Hreg) as Hin.
  destruct (check_and_register_providers_run w fuel st)
    as (stQ & evQ & HQ & _ & Hrun).
  split.
  { eexists. rewrite HQ. split; [reflexivity | exact Hin]. }
  rewrite Hrun. clear Hrun.
  destruct (unregistered_from w (calls st) required_providers) as [| u l'];
    [destruct Hin |].
  set (l := u :: l') in *. cbv zeta.
  destruct (register_providers_attempts w l stQ p Hin)
    as [[r Hr] | (Hres & q & r & Hq & Hr & Hrc')].
  - left. exists r.
    destruct (result_of (register_providers w l stQ));
      cbn [events_of snd]; right; apply in_or_app; right; right;
      try (apply in_or_app; left); exact Hr.
  - right. rewrite Hres. cbn [result_of events_of fst snd].
    split; [reflexivity |]. exists q, r. split; [exact Hq |].
    split; [| exact Hrc'].
    right. apply in_or_app. right. right. exact Hr.
Qed.

End PollerBounds.

Section PollerEndings.

Variable w : world.
Hypothesis clock_monotone : monotone_clock w.

Lemma advances_ret {A} (a : A) : advances (ret a).
Proof. intros st. cbn. lra. Qed.

Lemma advances_emit (e : event) : advances (emit e).
Proof. intros st. cbn. lra. Qed.

Lemma advances_sys_exit {A} (c : Z) : advances (@sys_exit A c).
Proof. intros st. cbn. lra. Qed.

Lemma advances_bind {A B} (m : M A) (f : A -> M B) :
  advances m -> (forall a, advances (f a)) -> advances (bind m f).
Proof.
  intros Hm Hf st. rewrite bind_run. specialize (Hm st).
  destruct (m st) as [[[a | c | e |] st1] evs1];
    cbn [result_of state_of events_of fst snd] in *; try exact Hm.
  specialize (Hf a st1). lra.
Qed.

Lemma advances_for_each {A} (l : list A) (body : A -> M unit) :
  (forall x, advances (body x)) -> advances (for_each l body).
Proof.
  intros Hbody. induction l as [| x l IH]; cbn [for_each].
  - apply advances_ret.
  - apply advances_bind; [apply Hbody | intros _; exact IH].
Qed.

Lemma advances_for_acc {A S} (l : list A) (acc : S) (body : S -> A -> M S) :
  (forall s x, advances (body s x)) -> advances (for_acc l acc body).
Proof.
  intros Hbody. revert acc. induction l as [| x l IH]; intros acc;
    cbn [for_acc].
  - apply advances_ret.
  - apply advances_bind; [apply Hbody | intros acc'; apply IH].
Qed.

Lemma advances_run_command_unchecked (command : list string) :
  advances (run_command w command false).
Proof.
  intros st. rewrite run_command_unchecked. cbn [state_of fst snd].
  apply (after_call_clock w clock_monotone).
Qed.

Lemma advances_query_providers (l : list string) :
  advances (query_providers w l).
Proof.
  unfold query_providers. apply advances_for_acc. intros acc p.
  unfold query_provider, print_status, print_warning.
  apply advances_bind; [apply advances_run_command_unchecked |].
  intros result. destruct (returncode result =? 0)%Z.
  - destruct (negb _);
      (apply advances_bind; [apply advances_emit | intros _; apply advances_ret]).
  - apply advances_bind; [apply advances_emit | intros _; apply advances_ret].
Qed.

Lemma advances_register_providers (l : list string) :
  advances (register_providers w l).
Proof.
  unfold register_providers. apply advances_for_each. intros p.
  unfold register_provider, print_status, print_success, print_error.
  apply advances_bind; [apply advances_emit |]. intros _.
  apply advances_bind; [apply advances_run_command_unchecked |].
  intros result. destruct (returncode result =? 0)%Z.
  - apply advances_emit.
  - apply advances_bind; [apply advances_emit | intros _; apply advances_sys_exit].
Qed.

(** A round of queries over a list that is not empty ends with the query
    that decided it. *)
Lemma poll_providers_last (l : list string) (st : state) :
  l <> [] ->
  exists b pre p n,
    result_of (poll_providers w l st) = Ret b /\
    events_of (poll_providers w l st)
    = (pre ++ [EvCmd (provider_show p) (respond w n (provider_show p))])%list /\
    registered (respond w n (provider_show p)) = b.
Proof.
  revert st. induction l as [| p l IH]; intros st Hne; [contradiction |].
  cbn [poll_providers].
  rewrite (bind_returns _ _ _ _ _ _ (run_command_unchecked w _ st)).
  cbn [result_of state_of events_of fst snd].
  destruct (negb (returncode (respond w (calls st) (provider_show p)) =? 0)%Z
            || negb (String.eqb
                       (Py.strip (stdout (respond w (calls st) (provider_show p))))
                       "Registered")) eqn:Hcond.
  - exists false, [], p, (calls st). repeat split.
    unfold registered. apply orb_true_iff in Hcond.
    destruct Hcond as [H | H]; apply negb_true_iff in H; rewrite H;
      [reflexivity | apply andb_false_r].
  - apply orb_false_iff in Hcond. destruct Hcond as [H1 H2].
    apply negb_false_iff in H1. apply negb_false_iff in H2.
    destruct l as [| q l].
    + exists true, [], p, (calls st). repeat split.
      unfold registered. rewrite H1, H2. reflexivity.
    + destruct (IH (after_call w st)) as (b & pre & p' & n & Hres & Hev & Hreg);
        [discriminate |].
      exists b, (EvCmd (provider_show p) (respond w (calls st) (provider_show p))
                 :: pre), p', n.
      split; [exact Hres |]. split; [| exact Hreg].
      rewrite Hev. reflexivity.
Qed.

(** How the loop ends, with [k] rounds of ten seconds left in the budget:
    with the message of success after a query that answered Registered, or
    with the warning once the budget is spent; the warning follows a round
    that failed and its sleep, unless the budget was spent on entry. *)
Lemma wait_for_registration_endings (k fuel : nat) (start_time : Q)
    (l : list string) (st : state) :
  l <> [] ->
  k <= fuel ->
  (max_wait_time <= clock st - start_time + 10 * inject_Z (Z.of_nat k))%Q ->
  let run := wait_for_registration w fuel start_time l st in
  ends_registered w (events_of run)
  \/
  ((ends_timed_out w (events_of run)
    \/ ((max_wait_time <= clock st - start_time)%Q /\
        events_of run
        = [ EvPrint Warning
              "Provider registration is taking longer than expected";
            EvPrint Info
              "Continuing with setup - providers will complete registration in background" ]))
   /\ (max_wait_time <= clock (state_of run) - start_time)%Q).
Proof.
  intros Hne. cbv zeta.
  revert fuel st. induction k as [| k IH]; intros fuel st Hfuel Hbudget.
  - right.
    assert (Hge : (max_wait_time <= clock st - start_time)%Q).
    { change (inject_Z (Z.of_nat 0)) with 0%Q in Hbudget. lra. }
    assert (Hexit : wait_for_registration w fuel start_time l st
             = (Ret tt, st,
                [ EvPrint Warning
                    "Provider registration is taking longer than expected";
                  EvPrint Info
                    "Continuing with setup - providers will complete registration in background" ])).
    { destruct fuel; cbn [wait_for_registration]; unfold time_time;
        rewrite bind_run; cbn [result_of state_of events_of fst snd];
        (destruct (Qlt_le_dec _ _) as [Hlt | _]; [exfalso; lra | reflexivity]). }
    rewrite Hexit. cbn [state_of events_of fst snd].
    split; [right; split; [exact Hge | reflexivity] | exact Hge].
  - destruct (Qlt_le_dec (clock st - start_time) max_wait_time) as [Hlt | Hge].
    + destruct fuel as [| fuel]; [lia |].
      cbn [wait_for_registration]. unfold time_time. rewrite bind_run.
      cbn [result_of state_of events_of fst snd].
      destruct (Qlt_le_dec _ _) as [_ | Hge]; [| exfalso; lra].
      destruct (poll_providers_returns w clock_monotone l st) as (_ & _ & Hclk).
      destruct (poll_providers_last l st Hne)
        as (b & pre & p & n & Hb & Hev & Hreg).
      rewrite bind_run.
      destruct (poll_providers w l st) as [[rP stP] evP].
      cbn [result_of state_of events_of fst snd] in *. subst rP evP.
      destruct b.
      * left. cbn [app result_of state_of events_of fst snd].
        exists pre, p, n. split; [| exact Hreg].
        unfold print_success, emit. cbn [events_of snd].
        rewrite <- app_assoc. reflexivity.
      * unfold print_status, emit, time_sleep. rewrite !bind_run.
        cbn [result_of state_of events_of fst snd app].
        pose proof (after_sleep_clock w clock_monotone 10 stP) as Hsleep.
        pose proof (budget_succ k) as Hk.
        destruct (IH fuel (after_sleep w 10 stP)) as [Hend | [Hend Hclock]].
        { lia. }
        { lra. }
        -- left. destruct Hend as (pre' & p' & n' & Hev' & Hreg').
           rewrite Hev'.
           exists ((pre ++ [EvCmd (provider_show p)
                              (respond w n (provider_show p))])
                   ++ EvPrint Info "Still waiting for provider registration..."
                   :: EvSleep 10 :: pre')%list, p', n'.
           split; [| exact Hreg'].
           rewrite <- !app_assoc. cbn [app]. reflexivity.
        -- right. split; [| exact Hclock]. left.
           destruct Hend as [(pre' & p' & n' & Hev' & Hreg') | [_ Hev']];
             rewrite Hev'.
           ++ exists ((pre ++ [EvCmd (provider_show p)
                                 (respond w n (provider_show p))])
                      ++ EvPrint Info "Still waiting for provider registration..."
                      :: EvSleep 10 :: pre')%list, p', n'.
              split; [| exact Hreg'].
              rewrite <- !app_assoc. cbn [app]. reflexivity.
           ++ exists pre, p, n. split; [| exact Hreg].
              rewrite <- !app_assoc. cbn [app]. reflexivity.
    + right.
      assert (Hexit : wait_for_registration w fuel start_time l st
               = (Ret tt, st,
                  [ EvPrint Warning
                      "Provider registration is taking longer than expected";
                    EvPrint Info
                      "Continuing with setup - providers will complete registration in background" ])).
      { destruct fuel; cbn [wait_for_registration]; unfold time_time;
          rewrite bind_run; cbn [result_of state_of events_of fst snd];
          (destruct (Qlt_le_dec _ _) as [Hlt | _]; [exfalso; lra | reflexivity]). }
      rewrite Hexit. cbn [state_of events_of fst snd].
      split; [right; split; [exact Hge | reflexivity] | exact Hge].
Qed.

End PollerEndings.

Section PollerOutcome.

Variable w : world.

Lemma ends_registered_cons (e : event) (evs : list event) :
  ends_registered w evs -> ends_registered w (e :: evs).
Proof.
  intros (pre & p & n & -> & Hreg). exists (e :: pre), p, n.
  split; [reflexivity | exact Hreg].
Qed.

Lemma ends_registered_app (evs1 evs : list event) :
  ends_registered w evs -> ends_registered w (evs1 ++ evs)%list.
Proof.
  intros H. induction evs1 as [| e evs1 IH]; [exact H |].
  cbn [app]. apply ends_registered_cons. exact IH.
Qed.

Lemma ends_timed_out_cons (e : event) (evs : list event) :
  ends_timed_out w evs -> ends_timed_out w (e :: evs).
Proof.
  intros (pre & p & n & -> & Hreg). exists (e :: pre), p, n.
  split; [reflexivity | exact Hreg].
Qed.

Lemma ends_timed_out_app (evs1 evs : list event) :
  ends_timed_out w evs -> ends_timed_out w (evs1 ++ evs)%list.
Proof.
  intros H. induction evs1 as [| e evs1 IH]; [exact H |].
  cbn [app]. apply ends_timed_out_cons. exact IH.
Qed.

Lemma register_providers_succeed (l : list string) (st : state) :
  (forall n p, returncode (respond w n (provider_register p)) = 0%Z) ->
  result_of (register_providers w l st) = Ret tt.
Proof.
  intros Hok. revert st. induction l as [| p l IH]; intros st; [reflexivity |].
  unfold register_providers. cbn [for_each]. rewrite bind_run.
  rewrite register_provider_run, Hok. cbn [Z.eqb].
  cbn [result_of state_of events_of fst snd]. apply IH.
Qed.


End PollerOutcome.

(** *** Service principals *)

Section ServicePrincipal.

Variable w : world.
Variable json_loads : string -> string + gmap string string.

(** C2, as the script has it. When the lookup by display name prints an
    application id, the routine starts no other command, so it creates
    nothing and generates no secret, and it returns a dictionary whose only
    entry is that application id: no secret and no marker of any kind. *)
Theorem existing_service_principal_reused
    (project_name subscription_id sp_type : string) (st : state) :
  let name := sp_name project_name sp_type in
  let lookup := respond w (calls st) (sp_list name) in
  let app_id := Py.strip (stdout lookup) in
  app_id <> EmptyString ->
  let run :=
    create_service_principal w json_loads project_name subscription_id
      sp_type st in
  result_of run = Ret {[ "app_id" := app_id ]} /\
  events_of run
  = [ EvPrint Info ("Creating service principal for " ++ sp_type ++ "...");
      EvCmd (sp_list name) lookup;
      EvPrint Warning ("Service principal " ++ name ++ " already exists") ] /\
  ({[ "app_id" := app_id ]} : gmap string string) !! "client_secret" = None /\
  ({[ "app_id" := app_id ]} : gmap string string) !! "existing" = None /\
  dom ({[ "app_id" := app_id ]} : gmap string string) = {[ "app_id" ]}.
Proof.
  intros name lookup app_id Hid run. subst run.
  unfold create_service_principal, print_status, print_warning, emit.
  rewrite bind_run. cbn [result_of state_of events_of fst snd].
  rewrite (bind_returns _ _ _ _ _ _ (run_command_unchecked w _ st)).
  fold name lookup app_id.
  destruct (String.eqb_spec app_id EmptyString) as [Heq | _]; [contradiction |].
  cbn [negb]. rewrite bind_run.
  cbn [result_of state_of events_of fst snd app ret].
  split; [reflexivity |]. split; [reflexivity |].
  split; [apply lookup_singleton_ne; discriminate |].
  split; [apply lookup_singleton_ne; discriminate |].
  apply dom_singleton_L.
Qed.

End ServicePrincipal.

(** *** Tags *)

Lemma occurs_remove_char (c d : ascii) (s : string) :
  occurs c (Py.remove_char d s) -> occurs c s /\ c <> d.
Proof.
  induction s as [| a s IH]; cbn; [tauto |].
  destruct (Ascii.eqb_spec a d) as [-> | Hne].
  - intros H. destruct (IH H). tauto.
  - cbn. intros [<- | H]; [split; [left; reflexivity | exact Hne] |].
    destruct (IH H). tauto.
Qed.

Lemma occurs_prefix (c : ascii) (n : nat) (s : string) :
  occurs c (Py.prefix n s) -> occurs c s.
Proof.
  revert s. induction n as [| n IH]; intros [| a s]; cbn; try tauto.
  intros [H | H]; [left; exact H | right; apply IH; exact H].
Qed.

(** The shortened project name holds no hyphen. *)
Lemma short_project_no_hyphen (project_name : string) :
  ~ occurs "-" (short_project project_name).
Proof.
  unfold short_project. intros H.
  apply occurs_prefix, occurs_remove_char in H. destruct H as [H _].
  apply occurs_remove_char in H. destruct H as [_ H]. apply H. reflexivity.
Qed.

Lemma storage_name_not_option (project_name env timestamp : string) :
  String.eqb (storage_name project_name env timestamp) "--tags" = false.
Proof.
  apply String.eqb_neq. unfold storage_name. intros H.
  pose proof (short_project_no_hyphen project_name) as Hno.
  destruct (short_project project_name) as [| c t]; cbn in H.
  - discriminate H.
  - injection H as -> _. apply Hno. left. reflexivity.
Qed.

Lemma last_char_append (x y : string) :
  y <> EmptyString -> last_char (x ++ y) = last_char y.
Proof.
  intros Hy. induction x as [| a x IH]; [reflexivity |].
  change (String a x ++ y) with (String a (x ++ y)).
  remember (x ++ y) as z eqn:Hz. destruct z as [| b z].
  - destruct x; simpl in Hz; [symmetry in Hz; contradiction | discriminate Hz].
  - exact IH.
Qed.

Lemma sp_name_not_option (project_name sp_type : string) :
  String.eqb (sp_name project_name sp_type) "--tags" = false.
Proof.
  apply String.eqb_neq. unfold sp_name. intros H.
  apply (f_equal last_char) in H.
  rewrite last_char_append in H by discriminate.
  change ("-" ++ sp_type ++ "-sp") with (String "-" (sp_type ++ "-sp")) in H.
  assert (Hne : sp_type ++ "-sp" <> EmptyString)
    by (destruct sp_type; discriminate).
  cbn [last_char] in H. destruct (sp_type ++ "-sp") eqn:Ht; [congruence |].
  rewrite <- Ht, last_char_append in H by discriminate.
  discriminate H.
Qed.

Lemma has_project_tag_group_create (rg_name location project_name : string) :
  has_project_tag project_name (group_create rg_name location project_name).
Proof.
  unfold has_project_tag, group_create. cbn.
  destruct (String.eqb rg_name "--tags"); [cbn; tauto |].
  destruct (String.eqb location "--tags"); cbn; tauto.
Qed.

Lemma has_project_tag_storage_account_create
    (name rg_name location env project_name : string) :
  has_project_tag project_name
    (storage_account_create name rg_name location env project_name).
Proof.
  unfold has_project_tag, storage_account_create. cbn.
  destruct (String.eqb name "--tags"); [cbn; tauto |].
  destruct (String.eqb rg_name "--tags"); [cbn; tauto |].
  destruct (String.eqb location "--tags"); cbn; tauto.
Qed.

Lemma tagging_other (project_name : string) (cmd : list string)
    (r : CompletedProcess) :
  is_creation cmd = false -> tagging project_name (EvCmd cmd r).
Proof.
  unfold is_creation. intros H.
  apply orb_false_elim in H as [H H4].
  apply orb_false_elim in H as [H H3].
  apply orb_false_elim in H as [H1 H2].
  unfold tagging. rewrite H1, H2, H3, H4. repeat split; discriminate.
Qed.

Lemma tagging_group_create (rg_name location project_name : string)
    (r : CompletedProcess) :
  tagging project_name (EvCmd (group_create rg_name location project_name) r).
Proof.
  cbn -[has_project_tag tags_of]. repeat split; try discriminate.
  intros _. apply has_project_tag_group_create.
Qed.

Lemma tagging_storage_account_create
    (name rg_name location env project_name : string) (r : CompletedProcess) :
  tagging project_name
    (EvCmd (storage_account_create name rg_name location env project_name) r).
Proof.
  cbn -[has_project_tag tags_of]. repeat split; try discriminate.
  intros _. apply has_project_tag_storage_account_create.
Qed.

Lemma tagging_storage_container_create
    (project_name env timestamp : string) (r : CompletedProcess) :
  tagging project_name
    (EvCmd (storage_container_create (storage_name project_name env timestamp)) r).
Proof.
  cbn -[has_project_tag tags_of storage_name]. repeat split; try discriminate.
  intros _. unfold storage_container_create. cbn -[storage_name].
  rewrite storage_name_not_option. reflexivity.
Qed.

Lemma tagging_sp_create (project_name sp_type subscription : string)
    (r : CompletedProcess) :
  tagging project_name
    (EvCmd (sp_create (sp_name project_name sp_type) subscription) r).
Proof.
  cbn -[has_project_tag tags_of sp_name sp_create].
  repeat split; try discriminate.
  - unfold sp_create. cbn -[sp_name]. rewrite sp_name_not_option. reflexivity.
  - eexists _, _. reflexivity.
Qed.

Section Tagging.

Variable w : world.
Variable json_loads : string -> string + gmap string string.
Variable strftime : Q -> string.
Variable upper : string -> string.

Lemma emits_check_and_register_providers (P : event -> Prop) (fuel : nat) :
  (forall p r, P (EvCmd (provider_show p) r)) ->
  (forall p r, P (EvCmd (provider_register p) r)) ->
  (forall lv message, P (EvPrint lv message)) ->
  (forall s, P (EvSleep s)) ->
  emits P (check_and_register_providers w fuel).
Proof.
  intros Hshow Hreg Hprint Hsleep. unfold check_and_register_providers.
  apply emits_bind; [apply emits_emit, Hprint |]. intros _.
  apply emits_bind; [apply emits_query_providers; auto |].
  intros [| u l]; [apply emits_emit, Hprint |].
  apply emits_bind; [apply emits_emit, Hprint |]. intros _.
  apply emits_bind; [apply emits_register_providers; auto |]. intros _.
  apply emits_bind; [apply emits_emit, Hprint |]. intros _.
  apply emits_bind; [apply emits_time_time |]. intros start_time.
  apply emits_wait_for_registration; auto.
Qed.

Ltac tagging_event :=
  first
    [ exact I
    | apply tagging_group_create
    | apply tagging_storage_account_create
    | apply tagging_storage_container_create
    | apply tagging_sp_create
    | apply tagging_other; reflexivity ].

(** C3, as the script has it. In a whole provisioning run, every command
    that creates a resource group or a storage account carries the tag
    [Project=<project name>]; the commands that create a blob container or
    a service principal carry no tag, the service principal being named
    [<project name>-<purpose>-sp]. *)
Theorem project_tag_on_groups_and_accounts (fuel : nat)
    (project_name location : string) (environments : list string)
    (st : state) :
  Forall (tagging project_name)
    (events_of
       (setup w json_loads strftime upper fuel project_name location
          environments st)).
Proof.
  revert st. change (emits (tagging project_name)
    (setup w json_loads strftime upper fuel project_name location environments)).
  unfold setup.
  apply emits_bind.
  { unfold check_prerequisites.
    apply emits_bind; [apply emits_emit; exact I |]. intros _.
    apply emits_bind; [emits_auto; tagging_event |]. intros _.
    apply emits_bind; [emits_auto; tagging_event |]. intros result.
    apply emits_bind; [emits_auto; tagging_event |]. intros _.
    apply emits_bind; [| intros _; apply emits_emit; exact I].
    apply emits_check_and_register_providers; intros; tagging_event. }
  intros _.
  apply emits_bind.
  { unfold get_subscription_info. emits_auto; tagging_event. }
  intros azure_info.
  apply emits_bind.
  { unfold create_state_resource_group. emits_auto; tagging_event. }
  intros rg_name.
  apply emits_bind.
  { unfold create_storage_accounts. emits_auto; tagging_event. }
  intros storage_accounts.
  apply emits_bind.
  { unfold create_service_principal. emits_auto; tagging_event. }
  intros terraform_sp.
  apply emits_bind.
  { unfold create_service_principal. emits_auto; tagging_event. }
  intros github_sp.
  apply emits_bind.
  { unfold generate_env_file. emits_auto; tagging_event. }
  intros _.
  apply emits_bind.
  { unfold generate_backend_configs. emits_auto; tagging_event. }
  intros _.
  apply emits_bind.
  { unfold generate_terraform_tfvars. emits_auto; tagging_event. }
  intros _.
  emits_auto; tagging_event.
Qed.

End Tagging.

(** C3, as the specification has it, fails: in the run for project [acme]
    and environment [dev] the commands that create the blob container and
    the service principal carry no [Project] tag. *)
Lemma container_and_principal_untagged :
  result_of acme_dev_setup = Ret tt /\
  In (storage_container_create "acmetfdev000016")
     (commands (events_of acme_dev_setup)) /\
  ~ has_project_tag "acme" (storage_container_create "acmetfdev000016") /\
  In (sp_create "acme-terraform-sp" "0000-sub")
     (commands (events_of acme_dev_setup)) /\
  ~ has_project_tag "acme" (sp_create "acme-terraform-sp" "0000-sub").
Proof.
  split; [vm_compute; reflexivity |].
  split; [vm_compute; tauto |].
  split; [vm_compute; tauto |].
  split; [vm_compute; tauto |].
  vm_compute; tauto.
Qed.

(** *** The theorems at work on concrete worlds *)

Lemma run_command_check_semantics_witness :
  returncode (respond down_world 0 ["az"; "account"; "show"]) <> 0%Z /\
  result_of (run_command down_world ["az"; "account"; "show"] true initial_state)
  = Exit 1.
Proof.
  split; [cbn; lia |].
  apply (proj1 (run_command_check_semantics down_world
                  ["az"; "account"; "show"] initial_state)).
  cbn; lia.
Defined.

Lemma create_state_resource_group_idempotent_witness :
  returncode
    (respond provisioned_world (calls initial_state)
       (group_show "acme-terraform-state-rg")) = 0%Z /\
  result_of
    (create_state_resource_group provisioned_world "acme" "East US"
       initial_state)
  = Ret "acme-terraform-state-rg".
Proof.
  split; [reflexivity |].
  apply (create_state_resource_group_idempotent provisioned_world
           "acme" "East US" initial_state).
  reflexivity.
Defined.

Lemma all_registered_returns_immediately_witness :
  (forall i p, required_providers !! i = Some p ->
     registered (respond fresh_world (calls initial_state + i)
                   (provider_show p)) = true) /\
  result_of (check_and_register_providers fresh_world 30 initial_state)
  = Ret tt.
Proof.
  split; [intros i p _; reflexivity |].
  apply (all_registered_returns_immediately fresh_world 30 initial_state).
  intros i p _. reflexivity.
Defined.

Lemma failed_register_is_fatal_witness :
  In (EvCmd (provider_register "Microsoft.ContainerService") refused)
     (events_of (check_and_register_providers refusing_world 30 initial_state))
  /\ returncode refused <> 0%Z
  /\ result_of (check_and_register_providers refusing_world 30 initial_state)
     = Exit 1.
Proof.
  assert (Hin : In (EvCmd (provider_register "Microsoft.ContainerService")
                      refused)
                   (events_of (check_and_register_providers refusing_world 30
                                 initial_state))).
  { vm_compute. repeat (try (left; reflexivity); right). }
  split; [exact Hin |]. split; [cbn; lia |].
  apply (failed_register_is_fatal refusing_world 30 initial_state
           "Microsoft.ContainerService" refused Hin).
  cbn; lia.
Defined.



Lemma failed_query_needs_registration_witness :
  required_providers !! 1 = Some "Microsoft.ContainerRegistry" /\
  returncode
    (respond down_world (calls initial_state + 1)
       (provider_show "Microsoft.ContainerRegistry")) <> 0%Z /\
  exists unregistered,
    result_of (query_providers down_world required_providers initial_state)
    = Ret unregistered /\
    In "Microsoft.ContainerRegistry" unregistered.
Proof.
  split; [reflexivity |]. split; [cbn; lia |].
  apply (failed_query_needs_registration down_world 30 initial_state 1
           "Microsoft.ContainerRegistry").
  - reflexivity.
  - cbn; lia.
Defined.

(** C5, as the specification has it, fails: when the network is down the
    query of every provider fails, the register call of the first provider
    fails as well and ends the process, and no register call is started for
    the second provider. *)
Lemma failed_query_without_register_call :
  required_providers !! 1 = Some "Microsoft.ContainerRegistry" /\
  returncode
    (respond down_world (calls initial_state + 1)
       (provider_show "Microsoft.ContainerRegistry")) <> 0%Z /\
  result_of (check_and_register_providers down_world 30 initial_state)
  = Exit 1 /\
  ~ exists r,
      In (EvCmd (provider_register "Microsoft.ContainerRegistry") r)
         (events_of (check_and_register_providers down_world 30 initial_state)).
Proof.
  split; [reflexivity |]. split; [cbn; lia |]. split; [reflexivity |].
  intros [r Hin]. vm_compute in Hin.
  repeat (destruct Hin as [Hin | Hin]; [discriminate Hin |]).
  exact Hin.
Qed.

Lemma existing_service_principal_reused_witness :
  Py.strip
    (stdout (respond provisioned_world (calls initial_state)
               (sp_list (sp_name "acme" "terraform")))) <> EmptyString /\
  events_of
    (create_service_principal provisioned_world demo_json "acme" "0000-sub"
       "terraform" initial_state)
  = [ EvPrint Info "Creating service principal for terraform...";
      EvCmd (sp_list "acme-terraform-sp")
        (completed 0 ("11111111-2222-3333-4444-555555555555" ++ nl)
           EmptyString);
      EvPrint Warning "Service principal acme-terraform-sp already exists" ].
Proof.
  split; [vm_compute; discriminate |].
  apply (existing_service_principal_reused provisioned_world demo_json
           "acme" "0000-sub" "terraform" initial_state).
  vm_compute; discriminate.
Defined.

(** C2, as the specification has it, fails: the dictionary returned for an
    existing service principal holds the application id and nothing else,
    so there is no entry that marks it as existing. *)
Lemma existing_service_principal_unmarked :
  Py.strip
    (stdout (respond provisioned_world (calls initial_state)
               (sp_list (sp_name "acme" "terraform")))) <> EmptyString /\
  exists d : gmap string string,
    result_of
      (create_service_principal provisioned_world demo_json "acme" "0000-sub"
         "terraform" initial_state)
    = Ret d /\
    d = {[ "app_id" := "11111111-2222-3333-4444-555555555555" ]} /\
    d !! "existing" = None /\
    dom d = {[ "app_id" ]}.
Proof.
  split; [vm_compute; discriminate |].
  eexists. split; [reflexivity |]. split; [reflexivity |].
  split; [apply lookup_singleton_ne; discriminate | apply dom_singleton_L].
Qed.

(** *** The end-to-end scenario *)

Lemma result_of_bind {A B} (m : M A) (f : A -> M B) (st : state) :
  result_of (bind m f st)
  = match result_of (m st) with
    | Ret a => result_of (f a (state_of (m st)))
    | Exit c => Exit c
    | Raise e => Raise e
    | OutOfFuel => OutOfFuel
    end.
Proof.
  rewrite bind_run. unfold result_of, state_of.
  destruct (m st) as [[[a | c | e |] st1] evs1]; reflexivity.
Qed.

Lemma bind_ret_intro {A B} (m : M A) (f : A -> M B) (st st1 st2 : state)
    (a : A) (r : outcome B) (evs1 evs2 : list event) :
  m st = (Ret a, st1, evs1) ->
  f a st1 = (r, st2, evs2) ->
  bind m f st = (r, st2, (evs1 ++ evs2)%list).
Proof. intros Hm Hf. rewrite (bind_returns _ _ _ _ _ _ Hm), Hf. reflexivity. Qed.

Lemma try_except_returns {A} (m : M A) (handler : exn -> option (M A))
    (st st1 : state) (a : A) (evs : list event) :
  m st = (Ret a, st1, evs) -> try_except m handler st = (Ret a, st1, evs).
Proof. intros Hm. unfold try_except. rewrite Hm. reflexivity. Qed.

(** Silent events leave no creation command and no written file. *)
Lemma silent_events (evs : list event) :
  Forall silent evs ->
  List.filter is_creation (commands evs) = [] /\ written evs = [].
Proof.
  induction 1 as [| e evs [Hc Hw] _ [IHc IHw]]; [split; reflexivity |].
  destruct e; cbn in *; try discriminate; try (split; assumption).
  rewrite Hc. split; assumption.
Qed.

Section EndToEnd.

Variable w : world.
Variable json_loads : string -> string + gmap string string.
Variable strftime : Q -> string.
Variable upper : string -> string.
Variable project : string.
Hypothesis fresh : fresh_deployment w json_loads project.

Lemma check_and_register_providers_fresh (fuel : nat) (st : state) :
  result_of (check_and_register_providers w fuel st) = Ret tt.
Proof.
  destruct (check_and_register_providers_run w fuel st)
    as (stQ & evQ & _ & _ & Hrun).
  rewrite Hrun, unregistered_from_none; [reflexivity |].
  intros i p Hp. apply (providers_registered _ _ _ fresh).
  apply list_elem_of_In, list_elem_of_lookup. exists i. exact Hp.
Qed.

Lemma check_prerequisites_fresh (fuel : nat) (st : state) :
  result_of (check_prerequisites w fuel st) = Ret tt.
Proof.
  pose proof (check_and_register_providers_fresh fuel) as Hproviders.
  assert (Hrun : exists st' evs,
            check_prerequisites w fuel st = (Ret tt, st', evs)).
  { eexists _, _. unfold check_prerequisites. cbn [for_each].
    eapply bind_ret_intro; [reflexivity |].
    eapply bind_ret_intro.
    { eapply bind_ret_intro.
      { eapply bind_ret_intro; [apply run_command_unchecked |].
        cbv beta. rewrite (tools_installed _ _ _ fresh). reflexivity. }
      eapply bind_ret_intro; [| reflexivity].
      eapply bind_ret_intro; [apply run_command_unchecked |].
      cbv beta. rewrite (tools_installed _ _ _ fresh). reflexivity. }
    eapply bind_ret_intro; [apply run_command_unchecked |].
    cbv beta. rewrite (logged_in _ _ _ fresh). cbn [Z.eqb negb].
    eapply bind_ret_intro; [reflexivity |].
    eapply bind_ret_intro; [| reflexivity].
    rewrite (run_eta (check_and_register_providers w fuel _)), Hproviders.
    reflexivity. }
  destruct Hrun as (st' & evs & ->). reflexivity.
Qed.

Lemma get_subscription_info_fresh (st : state) :
  exists info, result_of (get_subscription_info w json_loads st) = Ret info.
Proof.
  destruct (account_shown _ _ _ fresh (calls st))
    as (Hrc & account_info & Hjson & [id Hid] & [name Hname] & [tenant Htenant]).
  assert (Hrun : exists st' evs,
            get_subscription_info w json_loads st
            = (Ret {| subscription_id := id; subscription_name := name;
                      tenant_id := tenant |}, st', evs)).
  { eexists _, _. unfold get_subscription_info.
    eapply bind_ret_intro; [reflexivity |].
    eapply bind_ret_intro; [apply run_command_checked_ok; exact Hrc |].
    cbv beta. unfold loads. rewrite Hjson.
    eapply bind_ret_intro; [reflexivity |].
    unfold getitem. rewrite Hid, Hname, Htenant.
    eapply bind_ret_intro; [reflexivity |].
    eapply bind_ret_intro; [reflexivity |].
    eapply bind_ret_intro; [reflexivity |].
    eapply bind_ret_intro; [reflexivity |].
    eapply bind_ret_intro; [reflexivity |].
    reflexivity. }
  destruct Hrun as (st' & evs & Hrun). eexists. rewrite Hrun. reflexivity.
Qed.

Lemma emits_silent_check_prerequisites (fuel : nat) :
  emits silent (check_prerequisites w fuel).
Proof.
  unfold check_prerequisites.
  apply emits_bind; [apply emits_emit; split; reflexivity |]. intros _.
  apply emits_bind; [emits_auto; split; reflexivity |]. intros _.
  apply emits_bind; [emits_auto; split; reflexivity |]. intros result.
  apply emits_bind; [emits_auto; split; reflexivity |]. intros _.
  apply emits_bind; [| intros _; apply emits_emit; split; reflexivity].
  apply emits_check_and_register_providers; intros; split; reflexivity.
Qed.

Lemma emits_silent_get_subscription_info :
  emits silent (get_subscription_info w json_loads).
Proof. unfold get_subscription_info. emits_auto; split; reflexivity. Qed.

(** What each step of the run does on a fresh subscription: its result,
    the creation commands among its events, and the files it writes. *)
Lemma check_prerequisites_summary (fuel : nat) (st : state) :
  exists st' evs,
    check_prerequisites w fuel st = (Ret tt, st', evs) /\
    List.filter is_creation (commands evs) = [] /\ written evs = [].
Proof.
  exists (state_of (check_prerequisites w fuel st)),
         (events_of (check_prerequisites w fuel st)).
  split.
  - rewrite <- (check_prerequisites_fresh fuel st). apply run_eta.
  - apply silent_events, emits_silent_check_prerequisites.
Qed.

Lemma get_subscription_info_summary (st : state) :
  exists info st' evs,
    get_subscription_info w json_loads st = (Ret info, st', evs) /\
    List.filter is_creation (commands evs) = [] /\ written evs = [].
Proof.
  destruct (get_subscription_info_fresh st) as [info Hinfo].
  exists info, (state_of (get_subscription_info w json_loads st)),
         (events_of (get_subscription_info w json_loads st)).
  split.
  - rewrite <- Hinfo. apply run_eta.
  - apply silent_events, emits_silent_get_subscription_info.
Qed.

Lemma create_state_resource_group_summary (location : string) (st : state) :
  let rg_name := project ++ "-terraform-state-rg" in
  exists st' evs,
    create_state_resource_group w project location st = (Ret rg_name, st', evs) /\
    List.filter is_creation (commands evs)
    = [group_create rg_name location project] /\
    written evs = [].
Proof.
  intros rg_name. eexists _, _. split.
  - unfold create_state_resource_group. fold rg_name.
    eapply bind_ret_intro; [reflexivity |].
    eapply bind_ret_intro; [apply run_command_unchecked |].
    cbv beta.
    rewrite (proj2 (Z.eqb_neq _ _) (no_resource_group _ _ _ fresh _)).
    eapply bind_ret_intro; [| reflexivity].
    eapply bind_ret_intro; [| reflexivity].
    apply run_command_checked_ok. apply (group_created _ _ _ fresh).
  - split; reflexivity.
Qed.

Lemma create_storage_accounts_summary (rg_name location : string) (st : state) :
  let account := storage_name project "dev" (timestamp_suffix (clock st)) in
  exists st' evs,
    create_storage_accounts w project rg_name location ["dev"] st
    = (Ret [("dev", account)], st', evs) /\
    List.filter is_creation (commands evs)
    = [ storage_account_create account rg_name location "dev" project;
        storage_container_create account ] /\
    written evs = [].
Proof.
  intros account. eexists _, _. split.
  - unfold create_storage_accounts.
    eapply bind_ret_intro; [reflexivity |].
    eapply bind_ret_intro; [reflexivity |].
    cbv beta. fold account. cbn [for_acc].
    eapply bind_ret_intro; [| reflexivity].
    eapply bind_ret_intro; [reflexivity |].
    eapply bind_ret_intro;
      [apply run_command_checked_ok; apply (account_created _ _ _ fresh) |].
    eapply bind_ret_intro;
      [apply run_command_checked_ok; apply (container_created _ _ _ fresh) |].
    eapply bind_ret_intro; [reflexivity |].
    reflexivity.
  - split; reflexivity.
Qed.

Lemma create_service_principal_summary (subscription sp_type : string)
    (st : state) :
  exists d st' evs,
    create_service_principal w json_loads project subscription sp_type st
    = (Ret d, st', evs) /\
    is_Some (d !! "app_id") /\
    is_Some (d !! "sp_output") /\
    List.filter is_creation (commands evs)
    = [sp_create (sp_name project sp_type) subscription] /\
    written evs = [].
Proof.
  destruct (principal_created _ _ _ fresh (calls (after_call w st))
              (sp_name project sp_type) subscription)
    as (Hrc & sp_info & Hjson & [app_id Hid] & [secret Hsecret]).
  eexists _, _, _. split; [| split; [| split]].
  - unfold create_service_principal.
    eapply bind_ret_intro; [reflexivity |].
    eapply bind_ret_intro; [apply run_command_unchecked |].
    cbv beta. rewrite (no_service_principal _ _ _ fresh). cbn [String.eqb negb].
    eapply bind_ret_intro; [apply run_command_checked_ok; exact Hrc |].
    cbv beta. unfold loads. rewrite Hjson.
    eapply bind_ret_intro; [reflexivity |].
    unfold getitem. rewrite Hid, Hsecret.
    eapply bind_ret_intro; [reflexivity |].
    eapply bind_ret_intro; [reflexivity |].
    eapply bind_ret_intro; [reflexivity |].
    eapply bind_ret_intro; [reflexivity |].
    eapply bind_ret_intro; [reflexivity |].
    eapply bind_ret_intro; [| reflexivity].
    unfold additional_roles. cbn [for_each].
    eapply bind_ret_intro.
    { eapply bind_ret_intro; [apply run_command_unchecked | reflexivity]. }
    eapply bind_ret_intro; [| reflexivity].
    eapply bind_ret_intro; [apply run_command_unchecked | reflexivity].
  - rewrite lookup_insert_eq. eauto.
  - rewrite lookup_insert_ne, lookup_insert_ne, lookup_singleton_eq by discriminate.
    eauto.
  - split; reflexivity.
Qed.

Lemma generate_env_file_summary (azure_info : subscription)
    (terraform_sp : gmap string string)
    (storage_accounts : list (string * string)) (st : state) :
  is_Some (terraform_sp !! "app_id") ->
  exists st' evs,
    generate_env_file strftime upper project azure_info terraform_sp
      storage_accounts st
    = (Ret tt, st', evs) /\
    List.filter is_creation (commands evs) = [] /\
    written evs = [".env"].
Proof.
  intros [app_id Hid]. eexists _, _. split.
  - unfold generate_env_file.
    eapply bind_ret_intro; [reflexivity |].
    eapply bind_ret_intro; [reflexivity |].
    cbv beta. unfold getitem. rewrite Hid.
    eapply bind_ret_intro; [reflexivity |].
    cbv beta zeta.
    eapply bind_ret_intro; [reflexivity |].
    reflexivity.
  - split; reflexivity.
Qed.

Lemma generate_backend_configs_summary (rg_name account : string) (st : state) :
  exists st' evs,
    generate_backend_configs project rg_name [("dev", account)] ["dev"] st
    = (Ret tt, st', evs) /\
    List.filter is_creation (commands evs) = [] /\
    written evs = ["terraform/environments/dev/backend.conf"].
Proof.
  eexists _, _. split.
  - unfold generate_backend_configs. cbn [for_each].
    eapply bind_ret_intro; [reflexivity |].
    eapply bind_ret_intro; [| reflexivity].
    eapply bind_ret_intro; [reflexivity |].
    eapply bind_ret_intro; [reflexivity |].
    cbv beta zeta.
    eapply bind_ret_intro; [reflexivity |].
    reflexivity.
  - split; reflexivity.
Qed.

Lemma generate_terraform_tfvars_summary (location : string) (st : state) :
  exists st' evs,
    generate_terraform_tfvars project location ["dev"] st = (Ret tt, st', evs) /\
    List.filter is_creation (commands evs) = [] /\
    (written evs = [] \/
     written evs = ["terraform/environments/dev/terraform.tfvars"]).
Proof.
  unfold generate_terraform_tfvars. cbn [for_each].
  destruct (files st !! (env_dir "dev" ++ "/terraform.tfvars.example"))
    as [content |] eqn:Hexample;
  destruct (files st !! (env_dir "dev" ++ "/terraform.tfvars"))
    as [present |] eqn:Htfvars.
  - eexists _, _. split.
    + eapply bind_ret_intro; [reflexivity |].
      eapply bind_ret_intro; [| reflexivity].
      eapply bind_ret_intro; [reflexivity |].
      eapply bind_ret_intro; [reflexivity |].
      cbv beta. rewrite Hexample, Htfvars.
      rewrite !bool_decide_eq_true_2 by eauto. reflexivity.
    + split; [reflexivity | left; reflexivity].
  - eexists _, _. split.
    + eapply bind_ret_intro; [reflexivity |].
      eapply bind_ret_intro; [| reflexivity].
      eapply bind_ret_intro; [reflexivity |].
      eapply bind_ret_intro; [reflexivity |].
      cbv beta. rewrite Hexample, Htfvars.
      rewrite bool_decide_eq_true_2 by eauto.
      rewrite bool_decide_eq_false_2 by (intros [? ?]; discriminate).
      cbn [andb negb].
      eapply bind_ret_intro.
      { unfold read_file. rewrite Hexample. reflexivity. }
      cbv beta zeta.
      eapply bind_ret_intro; [reflexivity |]. reflexivity.
    + split; [reflexivity | right; reflexivity].
  - eexists _, _. split.
    + eapply bind_ret_intro; [reflexivity |].
      eapply bind_ret_intro; [| reflexivity].
      eapply bind_ret_intro; [reflexivity |].
      eapply bind_ret_intro; [reflexivity |].
      cbv beta. rewrite Hexample, Htfvars.
      rewrite bool_decide_eq_false_2 by (intros [? ?]; discriminate).
      rewrite bool_decide_eq_true_2 by eauto.
      reflexivity.
    + split; [reflexivity | left; reflexivity].
  - eexists _, _. split.
    + eapply bind_ret_intro; [reflexivity |].
      eapply bind_ret_intro; [| reflexivity].
      eapply bind_ret_intro; [reflexivity |].
      eapply bind_ret_intro; [reflexivity |].
      cbv beta. rewrite Hexample, Htfvars.
      rewrite !bool_decide_eq_false_2 by (intros [? ?]; discriminate).
      reflexivity.
    + split; [reflexivity | left; reflexivity].
Qed.

End EndToEnd.

Section Scenario.

Variable w : world.
Variable json_loads : string -> string + gmap string string.
Variable strftime : Q -> string.
Variable upper : string -> string.
Variable project : string.
Hypothesis fresh : fresh_deployment w json_loads project.

(** The body of the [try] on a fresh subscription, for the environment
    [dev] alone. *)
Lemma setup_fresh (fuel : nat) (location : string) (st : state) :
  exists account subscription tfvars st' evs,
    setup w json_loads strftime upper fuel project location ["dev"] st
    = (Ret tt, st', evs) /\
    List.filter is_creation (commands evs)
    = [ group_create (project ++ "-terraform-state-rg") location project;
        storage_account_create account (project ++ "-terraform-state-rg")
          location "dev" project;
        storage_container_create account;
        sp_create (sp_name project "terraform") subscription;
        sp_create (sp_name project "github-actions") subscription ] /\
    written evs
    = (".env" :: "terraform/environments/dev/backend.conf"
       :: tfvars ++ ["github-actions-credentials.json"])%list /\
    (tfvars = [] \/ tfvars = ["terraform/environments/dev/terraform.tfvars"]).
Proof.
  destruct (check_prerequisites_summary w json_loads project fresh fuel st)
    as (st1 & e1 & H1 & C1 & W1).
  destruct (get_subscription_info_summary w json_loads project fresh st1)
    as (info & st2 & e2 & H2 & C2 & W2).
  pose proof (create_state_resource_group_summary w json_loads project fresh
                location st2) as H3.
  cbv zeta in H3. destruct H3 as (st3 & e3 & H3 & C3 & W3).
  pose proof (create_storage_accounts_summary w json_loads project fresh
                (project ++ "-terraform-state-rg") location st3) as H4.
  cbv zeta in H4. destruct H4 as (st4 & e4 & H4 & C4 & W4).
  destruct (create_service_principal_summary w json_loads project fresh
              (subscription_id info) "terraform" st4)
    as (terraform_sp & st5 & e5 & H5 & Hid & _ & C5 & W5).
  destruct (create_service_principal_summary w json_loads project fresh
              (subscription_id info) "github-actions" st5)
    as (github_sp & st6 & e6 & H6 & _ & [sp_output Hout] & C6 & W6).
  destruct (generate_env_file_summary strftime upper project info terraform_sp
              [("dev", storage_name project "dev" (timestamp_suffix (clock st3)))]
              st6 Hid)
    as (st7 & e7 & H7 & C7 & W7).
  destruct (generate_backend_configs_summary project
              (project ++ "-terraform-state-rg")
              (storage_name project "dev" (timestamp_suffix (clock st3))) st7)
    as (st8 & e8 & H8 & C8 & W8).
  destruct (generate_terraform_tfvars_summary project location st8)
    as (st9 & e9 & H9 & C9 & W9).
  exists (storage_name project "dev" (timestamp_suffix (clock st3))),
         (subscription_id info), (written e9).
  eexists _, _. split; [| split; [| split]].
  - unfold setup.
    eapply bind_ret_intro; [exact H1 |].
    eapply bind_ret_intro; [exact H2 |].
    eapply bind_ret_intro; [exact H3 |].
    eapply bind_ret_intro; [exact H4 |].
    eapply bind_ret_intro; [exact H5 |].
    eapply bind_ret_intro; [exact H6 |].
    eapply bind_ret_intro; [exact H7 |].
    eapply bind_ret_intro; [exact H8 |].
    eapply bind_ret_intro; [exact H9 |].
    cbv beta. rewrite Hout.
    eapply bind_ret_intro.
    { eapply bind_ret_intro; [reflexivity |]. reflexivity. }
    eapply bind_ret_intro; [reflexivity |].
    eapply bind_ret_intro; [reflexivity |].
    eapply bind_ret_intro; [reflexivity |].
    eapply bind_ret_intro; [reflexivity |].
    reflexivity.
  - rewrite !commands_app, !List.filter_app.
    rewrite C1, C2, C3, C4, C5, C6, C7, C8, C9. reflexivity.
  - rewrite !written_app.
    rewrite W1, W2, W3, W4, W5, W6, W7, W8. reflexivity.
  - exact W9.
Qed.

End Scenario.

Section Acme.

Variable w : world.
Variable json_loads : string -> string + gmap string string.
Variable strftime : Q -> string.
Variable upper : string -> string.


End Acme.

Lemma fresh_world_is_fresh : fresh_deployment fresh_world demo_json "acme".
Proof.
  constructor.
  - intros n tool. reflexivity.
  - intros n. reflexivity.
  - intros n p _. reflexivity.
  - intros n. split; [reflexivity |].
    eexists. split; [reflexivity |].
    repeat split; eexists; vm_compute; reflexivity.
  - intros n. cbn. lia.
  - intros n sp_type. reflexivity.
  - intros n rg_name location. reflexivity.
  - intros n name rg_name location env. reflexivity.
  - intros n name. reflexivity.
  - intros n name subscription. split; [reflexivity |].
    eexists. split; [reflexivity |].
    repeat split; eexists; vm_compute; reflexivity.
Qed.


(** ** Further properties of the script *)

(** *** Argument handling and prerequisites *)

Section Gatekeeping.

Variable w : world.
Variable json_loads : string -> string + gmap string string.
Variable strftime : Q -> string.
Variable upper : string -> string.

(** X1. Without [--all-environments], without a non-empty [--environment] and
    without a non-empty [--environments], [main] prints the usage errors
    and exits with code 1: it starts no subprocess and writes no file. *)
Theorem main_requires_environment (fuel : nat) (a : args) (st : state) :
  all_environments a = false ->
  environment a = None \/ environment a = Some EmptyString ->
  environments a = None \/ environments a = Some [] ->
  let run := main w json_loads strftime upper fuel a st in
  result_of run = Exit 1 /\
  events_of run = map (EvPrint Error) usage_errors /\
  commands (events_of run) = [] /\
  written (events_of run) = [] /\
  state_of run = st.
Proof.
  intros Hall Henv Henvs run. subst run.
  assert (Hsel : select_environments a = None).
  { unfold select_environments. rewrite Hall.
    destruct Henv as [-> | ->], Henvs as [-> | ->]; reflexivity. }
  unfold main. rewrite Hsel. repeat split; reflexivity.
Qed.

(** X2. [check_prerequisites] stops at the first check that fails and exits
    with code 1. When [which az] exits non-zero, that command is the only
    one run; when it succeeds and [which jq] exits non-zero, these two are;
    when both succeed and [az account show] exits non-zero, these three
    are. In each case the message of that check is the last thing printed
    and no provider is queried or registered. *)
Theorem prerequisite_failure_stops_early (fuel : nat) (st : state) :
  let az := respond w (calls st) ["which"; "az"] in
  let jq := respond w (S (calls st)) ["which"; "jq"] in
  let account := respond w (S (S (calls st))) ["az"; "account"; "show"] in
  let run := check_prerequisites w fuel st in
  (returncode az <> 0%Z ->
   result_of run = Exit 1 /\
   events_of run
   = [ EvPrint Info "Checking prerequisites...";
       EvCmd ["which"; "az"] az;
       EvPrint Error "az is not installed. Please install it first." ]) /\
  (returncode az = 0%Z -> returncode jq <> 0%Z ->
   result_of run = Exit 1 /\
   events_of run
   = [ EvPrint Info "Checking prerequisites...";
       EvCmd ["which"; "az"] az;
       EvCmd ["which"; "jq"] jq;
       EvPrint Error "jq is not installed. Please install it first." ]) /\
  (returncode az = 0%Z -> returncode jq = 0%Z -> returncode account <> 0%Z ->
   result_of run = Exit 1 /\
   events_of run
   = [ EvPrint Info "Checking prerequisites...";
       EvCmd ["which"; "az"] az;
       EvCmd ["which"; "jq"] jq;
       EvCmd ["az"; "account"; "show"] account;
       EvPrint Error "Not logged in to Azure. Please run 'az login' first." ]).
Proof.
  intros az jq account run. subst az jq account run.
  unfold check_prerequisites, print_status, print_error, emit.
  cbn [for_each]. rewrite !bind_run.
  cbn [result_of state_of events_of fst snd app].
  rewrite (run_command_unchecked w ["which"; "az"] st).
  cbn [result_of state_of events_of fst snd app calls after_call].
  destruct (returncode (respond w (calls st) ["which"; "az"]) =? 0)%Z eqn:Haz;
    cbn [negb].
  2:{ apply Z.eqb_neq in Haz. rewrite !bind_run. cbn.
      repeat split; try reflexivity; intros; contradiction. }
  apply Z.eqb_eq in Haz. rewrite !bind_run.
  cbn [result_of state_of events_of fst snd app calls after_call ret].
  rewrite (run_command_unchecked w ["which"; "jq"] (after_call w st)).
  cbn [result_of state_of events_of fst snd app calls after_call].
  destruct (returncode (respond w (S (calls st)) ["which"; "jq"]) =? 0)%Z eqn:Hjq;
    cbn [negb].
  2:{ apply Z.eqb_neq in Hjq. rewrite !bind_run. cbn.
      repeat split; try reflexivity; intros; contradiction. }
  apply Z.eqb_eq in Hjq. rewrite !bind_run.
  cbn [result_of state_of events_of fst snd app calls after_call ret].
  rewrite (run_command_unchecked w ["az"; "account"; "show"]
             (after_call w (after_call w st))).
  cbn [result_of state_of events_of fst snd app calls after_call].
  destruct (returncode (respond w (S (S (calls st))) ["az"; "account"; "show"])
            =? 0)%Z eqn:Hlogin; cbn [negb].
  2:{ apply Z.eqb_neq in Hlogin. rewrite !bind_run. cbn.
      repeat split; try reflexivity; intros; contradiction. }
  apply Z.eqb_eq in Hlogin.
  repeat split; intros; contradiction.
Qed.

End Gatekeeping.

(** *** More on the provider registration poller *)

Lemma filter_commands_none (p : list string) (evs : list event) :
  Forall (fun e => is_cmd p e = false) evs ->
  List.filter (starts_with p) (commands evs) = [].
Proof.
  induction 1 as [| e evs He _ IH]; [reflexivity |].
  destruct e; cbn in *; try exact IH. rewrite He. exact IH.
Qed.

Section PollerDetails.

Variable w : world.

Lemma poll_providers_result (l : list string) (st : state) :
  exists b, result_of (poll_providers w l st) = Ret b.
Proof.
  revert st. induction l as [| p l IH]; intros st; cbn [poll_providers].
  - exists true. reflexivity.
  - rewrite (bind_returns _ _ _ _ _ _ (run_command_unchecked w _ st)).
    cbn [result_of fst]. destruct (negb _ || negb _).
    + exists false. reflexivity.
    + apply IH.
Qed.

(** A round of polling queries providers of the pending list only. *)
Lemma poll_providers_commands (l : list string) (st : state) :
  Forall (fun cmd => exists p, In p l /\ cmd = provider_show p)
    (commands (events_of (poll_providers w l st))).
Proof.
  revert st. induction l as [| p l IH]; intros st; cbn [poll_providers].
  - constructor.
  - rewrite (bind_returns _ _ _ _ _ _ (run_command_unchecked w _ st)).
    cbn [events_of snd app commands]. constructor.
    + exists p. split; [left; reflexivity | reflexivity].
    + destruct (negb _ || negb _); [constructor |].
      eapply Forall_impl; [apply IH |].
      intros cmd (q & Hq & ->). exists q. split; [right; exact Hq | reflexivity].
Qed.


(** X4. The loop gives up only when the budget is spent: a run of the loop
    that returns has ended with the message of success, or with the warning
    and at least [max_wait_time] seconds on the clock since [start_time]. *)
Theorem polling_gives_up_after_budget (fuel : nat) (start_time : Q)
    (l : list string) (st : state) :
  let run := wait_for_registration w fuel start_time l st in
  result_of run = Ret tt ->
  (exists pre,
     events_of run
     = (pre ++ [ EvPrint Success
                   "All resource providers registered successfully" ])%list)
  \/
  ((exists pre,
      events_of run
      = (pre ++ [ EvPrint Warning
                    "Provider registration is taking longer than expected";
                  EvPrint Info
                    "Continuing with setup - providers will complete registration in background" ])%list)
   /\ (max_wait_time <= clock (state_of run) - start_time)%Q).
Proof.
  cbv zeta. revert st. induction fuel as [| fuel IH]; intros st;
    cbn [wait_for_registration]; unfold time_time; rewrite bind_run;
    cbn [result_of state_of events_of fst snd app];
    destruct (Qlt_le_dec _ _) as [Hlt | Hge].
  - discriminate.
  - intros _. right. split; [exists []; reflexivity | exact Hge].
  - rewrite bind_run.
    destruct (poll_providers_result l st) as [b Hb].
    destruct (poll_providers w l st) as [[rP stP] evP].
    cbn [result_of state_of events_of fst snd] in *. subst rP.
    destruct b.
    + intros _. left. exists evP. reflexivity.
    + unfold print_status, emit, time_sleep. rewrite !bind_run.
      cbn [result_of state_of events_of fst snd].
      intros Hret. destruct (IH _ Hret) as [[pre Hpre] | [[pre Hpre] Hbudget]].
      * left. rewrite Hpre. eexists (evP ++ _ :: _ :: pre)%list.
        rewrite <- app_assoc. reflexivity.
      * right. split; [| exact Hbudget].
        rewrite Hpre. eexists (evP ++ _ :: _ :: pre)%list.
        rewrite <- app_assoc. reflexivity.
  - intros _. right. split; [exists []; reflexivity | exact Hge].
Qed.

Lemma register_providers_all_succeed (l : list string) (st : state) :
  (forall n p, returncode (respond w n (provider_register p)) = 0%Z) ->
  result_of (register_providers w l st) = Ret tt /\
  commands (events_of (register_providers w l st)) = map provider_register l.
Proof.
  intros Hok. revert st. induction l as [| p l IH]; intros st.
  - split; reflexivity.
  - unfold register_providers. cbn [for_each]. rewrite bind_run.
    rewrite register_provider_run, Hok. cbn [Z.eqb].
    cbn [result_of state_of events_of fst snd].
    destruct (IH (after_call w st)) as [Hres Hcmds].
    unfold register_providers in *. split; [exact Hres |].
    cbn [app commands map]. rewrite Hcmds. reflexivity.
Qed.

Lemma filter_all {A} (f : A -> bool) (l : list A) :
  (forall x, In x l -> f x = true) -> List.filter f l = l.
Proof.
  induction l as [| x l IH]; intros H; [reflexivity |].
  cbn. rewrite (H x (or_introl eq_refl)). f_equal.
  apply IH. intros y Hy. apply H. right. exact Hy.
Qed.

Lemma filter_register_map (l : list string) :
  List.filter (starts_with ["az"; "provider"; "register"])
    (map provider_register l)
  = map provider_register l.
Proof.
  apply filter_all. intros cmd Hin. apply in_map_iff in Hin.
  destruct Hin as (p & <- & _). reflexivity.
Qed.

(** X5. When no register call fails, the register calls of a run are those of
    the providers whose first query did not answer Registered, one each and
    in the order of the list: a provider that answered Registered is never
    registered again. *)
Theorem registers_exactly_the_unregistered (fuel : nat) (st : state) :
  (forall n p, returncode (respond w n (provider_register p)) = 0%Z) ->
  List.filter (starts_with ["az"; "provider"; "register"])
    (commands (events_of (check_and_register_providers w fuel st)))
  = map provider_register
      (unregistered_from w (calls st) required_providers).
Proof.
  intros Hok.
  destruct (check_and_register_providers_run w fuel st)
    as (stQ & evQ & HQ & Hcmds & Hrun).
  rewrite Hrun. clear Hrun.
  assert (HfQ : List.filter (starts_with ["az"; "provider"; "register"])
                  (commands evQ) = []).
  { rewrite Hcmds. reflexivity. }
  destruct (unregistered_from w (calls st) required_providers) as [| u l'].
  { cbn [events_of snd commands]. rewrite commands_app, List.filter_app, HfQ.
    reflexivity. }
  set (l := u :: l') in *. cbv zeta.
  destruct (register_providers_all_succeed l stQ Hok) as [HresR HcmdsR].
  rewrite HresR. cbn [events_of snd commands].
  rewrite !commands_app. cbn [commands]. rewrite !commands_app. cbn [commands].
  rewrite !List.filter_app, HfQ, HcmdsR, filter_register_map.
  rewrite filter_commands_none; [cbn [app]; apply app_nil_r |].
  apply emits_wait_for_registration; intros; reflexivity.
Qed.

End PollerDetails.

(** *** Storage accounts *)

Lemma dict_get_set_eq (k v : string) (d : list (string * string)) :
  dict_get k (dict_set k v d) = Some v.
Proof.
  induction d as [| [k' v'] d IH]; cbn.
  - rewrite String.eqb_refl. reflexivity.
  - destruct (String.eqb k' k) eqn:Hk; cbn; rewrite ?Hk, ?String.eqb_refl;
      [reflexivity | exact IH].
Qed.

Lemma dict_get_set_ne (k k' v : string) (d : list (string * string)) :
  k <> k' -> dict_get k' (dict_set k v d) = dict_get k' d.
Proof.
  intros Hne. induction d as [| [a b] d IH]; cbn.
  - destruct (String.eqb_spec k k'); [contradiction | reflexivity].
  - destruct (String.eqb_spec a k) as [-> | Ha]; cbn.
    + destruct (String.eqb_spec k k'); [contradiction | reflexivity].
    + destruct (String.eqb a k'); [reflexivity | exact IH].
Qed.

(** After a loop that stores [f env] under every [env] it visits, every
    visited key holds its value. *)
Lemma dict_fold_lookup (f : string -> string) (envs : list string)
    (acc : list (string * string)) (env : string) :
  In env envs \/ dict_get env acc = Some (f env) ->
  dict_get env (fold_left (fun d e => dict_set e (f e) d) envs acc)
  = Some (f env).
Proof.
  revert acc. induction envs as [| e envs IH]; intros acc H; cbn [fold_left].
  - destruct H as [[] | H]. exact H.
  - apply IH. destruct (String.eqb_spec e env) as [-> | Hne].
    + right. apply dict_get_set_eq.
    + destruct H as [[He | Hin] | Hacc]; [contradiction | left; exact Hin |].
      right. rewrite dict_get_set_ne by exact Hne. exact Hacc.
Qed.

(** A loop with an accumulator that returns has run its body to the end
    for every element. *)
Lemma for_acc_returns {A S} (body : S -> A -> M S) (step : S -> A -> S)
    (cmds : A -> list (list string)) :
  (forall acc x st acc',
     result_of (body acc x st) = Ret acc' ->
     acc' = step acc x /\ commands (events_of (body acc x st)) = cmds x) ->
  forall l acc st accs,
    result_of (for_acc l acc body st) = Ret accs ->
    accs = fold_left step l acc /\
    commands (events_of (for_acc l acc body st)) = flat_map cmds l.
Proof.
  intros Hbody l. induction l as [| x l IH]; intros acc st accs;
    cbn [for_acc fold_left flat_map].
  - cbn. intros [= <-]. split; reflexivity.
  - rewrite bind_run. specialize (Hbody acc x st).
    destruct (body acc x st) as [[[acc' | c | e |] st1] evs1];
      cbn [result_of state_of events_of fst snd] in *; try discriminate.
    destruct (Hbody acc' eq_refl) as [-> Hcmds].
    intros Hres. destruct (IH _ _ _ Hres) as [-> Hrest].
    split; [reflexivity |]. rewrite commands_app, Hcmds, Hrest. reflexivity.
Qed.

Section CheckedRuns.

Variable w : world.

Lemma checked_ret {A} (a : A) : checked (ret a).
Proof. intros st. left. exists a. split; [reflexivity | constructor]. Qed.

Lemma checked_print (l : level) (message : string) :
  checked (emit (EvPrint l message)).
Proof.
  intros st. left. exists tt. split; [reflexivity |].
  repeat constructor. intros cmd r H. discriminate H.
Qed.

Lemma checked_time_time : checked time_time.
Proof. intros st. left. eexists. split; [reflexivity | constructor]. Qed.

Lemma checked_run_command (cmd : list string) :
  checked (run_command w cmd true).
Proof.
  intros st.
  destruct (Z.eq_dec (returncode (respond w (calls st) cmd)) 0%Z) as [Hrc | Hrc].
  - left. rewrite (run_command_checked_ok _ _ _ Hrc). eexists.
    split; [reflexivity |]. repeat constructor.
    intros cmd' r [= _ <-]. exact Hrc.
  - right. rewrite (run_command_checked_fail _ _ _ Hrc).
    split; [reflexivity |]. exists [], cmd, (respond w (calls st) cmd).
    split; [reflexivity |]. split; [exact Hrc | constructor].
Qed.

Lemma checked_bind {A B} (m : M A) (f : A -> M B) :
  checked m -> (forall a, checked (f a)) -> checked (bind m f).
Proof.
  intros Hm Hf st. rewrite bind_run. specialize (Hm st).
  destruct (m st) as [[rm st1] evs1].
  cbn [result_of state_of events_of fst snd] in Hm.
  destruct Hm as [(a & -> & Hok) | (-> & pre & cmd & r & -> & Hr & Hpre)].
  - cbn [result_of state_of events_of fst snd].
    destruct (Hf a st1) as [(b & Hb & Hokf) | (Hb & pre & cmd & r & Hev & Hr & Hpre)].
    + left. exists b. split; [exact Hb |]. apply Forall_app. split; assumption.
    + right. split; [exact Hb |]. exists (evs1 ++ pre)%list, cmd, r.
      rewrite Hev, app_assoc. split; [reflexivity |]. split; [exact Hr |].
      apply Forall_app. split; assumption.
  - right. cbn [result_of events_of fst snd]. split; [reflexivity |].
    exists pre, cmd, r. repeat split; assumption.
Qed.

Lemma checked_for_acc {A S} (l : list A) (acc : S) (body : S -> A -> M S) :
  (forall s x, checked (body s x)) -> checked (for_acc l acc body).
Proof.
  intros Hbody. revert acc. induction l as [| x l IH]; intros acc;
    cbn [for_acc]; [apply checked_ret |].
  apply checked_bind; [apply Hbody | intros acc'; apply IH].
Qed.

(** In a checked computation a failed command is the last one, and the
    process has exited with code 1 after its report. *)
Lemma checked_failure {A} (m : M A) (st : state) (cmd : list string)
    (r : CompletedProcess) :
  checked m ->
  In (EvCmd cmd r) (events_of (m st)) ->
  returncode r <> 0%Z ->
  result_of (m st) = Exit 1 /\
  exists pre, events_of (m st) = (pre ++ failure_report cmd r)%list.
Proof.
  intros Hm Hin Hrc.
  destruct (Hm st) as [(a & _ & Hok) | (Hres & pre & cmd' & r' & Hev & Hr' & Hpre)].
  - exfalso. rewrite Forall_forall in Hok. apply list_elem_of_In in Hin.
    apply Hrc. exact (Hok _ Hin cmd r eq_refl).
  - split; [exact Hres |]. rewrite Hev in Hin |- *.
    apply in_app_or in Hin. destruct Hin as [Hin | Hin].
    + exfalso. rewrite Forall_forall in Hpre. apply list_elem_of_In in Hin.
      apply Hrc. exact (Hpre _ Hin cmd r eq_refl).
    + destruct Hin as [Hin | [Hin | [Hin | []]]]; try discriminate Hin.
      injection Hin as <- <-. exists pre. reflexivity.
Qed.

Lemma checked_create_storage_accounts
    (project_name rg_name location : string) (environments : list string) :
  checked (create_storage_accounts w project_name rg_name location environments).
Proof.
  unfold create_storage_accounts, print_status, print_success.
  apply checked_bind; [apply checked_print |]. intros _.
  apply checked_bind; [apply checked_time_time |]. intros now.
  apply checked_for_acc. intros accounts env.
  apply checked_bind; [apply checked_print |]. intros _.
  apply checked_bind; [apply checked_run_command |]. intros _.
  apply checked_bind; [apply checked_run_command |]. intros _.
  apply checked_bind; [apply checked_print |]. intros _.
  apply checked_ret.
Qed.

(** X6. A storage account or container command that exits non-zero ends the
    run with exit code 1: its error report is the last thing that happens,
    so no later account is attempted and nothing is rolled back. *)
Theorem failed_storage_command_is_fatal
    (project_name rg_name location : string) (environments : list string)
    (st : state) (cmd : list string) (r : CompletedProcess) :
  let run :=
    create_storage_accounts w project_name rg_name location environments st in
  In (EvCmd cmd r) (events_of run) ->
  returncode r <> 0%Z ->
  result_of run = Exit 1 /\
  exists pre, events_of run = (pre ++ failure_report cmd r)%list.
Proof.
  intros run. subst run.
  apply checked_failure, checked_create_storage_accounts.
Qed.

Lemma create_storage_accounts_run
    (project_name rg_name location : string) (environments : list string)
    (st : state) (accounts : list (string * string)) :
  result_of
    (create_storage_accounts w project_name rg_name location environments st)
  = Ret accounts ->
  commands
    (events_of
       (create_storage_accounts w project_name rg_name location environments st))
  = flat_map (account_commands project_name rg_name location (clock st))
      environments /\
  accounts
  = fold_left
      (fun d env => dict_set env (account_name project_name (clock st) env) d)
      environments [].
Proof.
  unfold create_storage_accounts.
  unfold print_status, print_success, emit, time_time. rewrite !bind_run.
  cbn [result_of state_of events_of fst snd app commands].
  intros Hres.
  eapply (for_acc_returns _
            (fun d env => dict_set env (account_name project_name (clock st) env) d)
            (account_commands project_name rg_name location (clock st)))
    in Hres.
  - destruct Hres as [-> Hcmds]. split; [exact Hcmds | reflexivity].
  - clear. intros acc env st1 acc'.
    unfold print_status, print_success, emit. rewrite bind_run.
    cbn [result_of state_of events_of fst snd].
    fold (account_name project_name (clock st) env).
    set (name := account_name project_name (clock st) env).
    set (c1 := storage_account_create name rg_name location env project_name).
    destruct (Z.eq_dec (returncode (respond w (calls st1) c1)) 0%Z) as [H1 | H1].
    2:{ rewrite bind_run, (run_command_checked_fail _ _ _ H1). discriminate. }
    rewrite bind_run, (run_command_checked_ok _ _ _ H1).
    cbn [result_of state_of events_of fst snd].
    set (c2 := storage_container_create name).
    destruct (Z.eq_dec (returncode (respond w (calls (after_call w st1)) c2)) 0%Z)
      as [H2 | H2].
    2:{ rewrite bind_run, (run_command_checked_fail _ _ _ H2). discriminate. }
    rewrite bind_run, (run_command_checked_ok _ _ _ H2).
    cbn [result_of state_of events_of fst snd]. rewrite !bind_run.
    cbn [result_of state_of events_of fst snd ret].
    intros [= <-]. split; reflexivity.
Qed.

(** X7. Whenever [create_storage_accounts] returns, it has run, for each
    environment in order, the creation of the account and then of its
    container, every name carrying the one timestamp read at the start; and
    the dictionary it returns holds the account name of every environment. *)
Theorem create_storage_accounts_returns
    (project_name rg_name location : string) (environments : list string)
    (st : state) (accounts : list (string * string)) :
  let run :=
    create_storage_accounts w project_name rg_name location environments st in
  result_of run = Ret accounts ->
  commands (events_of run)
  = flat_map (account_commands project_name rg_name location (clock st))
      environments /\
  forall env, In env environments ->
    dict_get env accounts = Some (account_name project_name (clock st) env).
Proof.
  intros run Hres. subst run.
  destruct (create_storage_accounts_run _ _ _ _ _ _ Hres) as [Hcmds ->].
  split; [exact Hcmds |]. intros env Hin.
  apply (dict_fold_lookup (account_name project_name (clock st))).
  left. exact Hin.
Qed.

End CheckedRuns.

(** *** More on service principals *)

Section NewServicePrincipal.

Variable w : world.
Variable json_loads : string -> string + gmap string string.

(** X9. A service principal that does not exist yet is created, and the two
    supplementary roles are then requested whatever these requests answer:
    a failed role assignment neither stops the routine nor prints anything,
    and the result holds the application id, the secret and the raw
    output. *)
Theorem new_service_principal_ignores_role_failures
    (project_name subscription_id sp_type : string) (st : state)
    (sp_info : gmap string string) (app_id secret : string) :
  let name := sp_name project_name sp_type in
  let lookup := respond w (calls st) (sp_list name) in
  let created := respond w (S (calls st)) (sp_create name subscription_id) in
  Py.strip (stdout lookup) = EmptyString ->
  returncode created = 0%Z ->
  json_loads (stdout created) = inr sp_info ->
  sp_info !! "clientId" = Some app_id ->
  sp_info !! "clientSecret" = Some secret ->
  let run :=
    create_service_principal w json_loads project_name subscription_id
      sp_type st in
  result_of run
  = Ret (<[ "app_id" := app_id ]>
         (<[ "client_secret" := secret ]>
          {[ "sp_output" := stdout created ]})) /\
  events_of run
  = [ EvPrint Info ("Creating service principal for " ++ sp_type ++ "...");
      EvCmd (sp_list name) lookup;
      EvCmd (sp_create name subscription_id) created;
      EvPrint Success ("Created service principal: " ++ name);
      EvPrint Success ("Application ID: " ++ app_id);
      EvPrint Info "Assigning additional roles...";
      EvCmd (role_assignment_create app_id "User Access Administrator"
               subscription_id)
        (respond w (S (S (calls st)))
           (role_assignment_create app_id "User Access Administrator"
              subscription_id));
      EvCmd (role_assignment_create app_id "Key Vault Administrator"
               subscription_id)
        (respond w (S (S (S (calls st))))
           (role_assignment_create app_id "Key Vault Administrator"
              subscription_id)) ].
Proof.
  intros name lookup created Hlookup Hrc Hjson Hid Hsecret run. subst run.
  assert (Hrun : exists st',
    create_service_principal w json_loads project_name subscription_id
      sp_type st
    = (Ret (<[ "app_id" := app_id ]>
            (<[ "client_secret" := secret ]>
             {[ "sp_output" := stdout created ]})), st',
       ([ EvPrint Info ("Creating service principal for " ++ sp_type ++ "...") ]
        ++ [ EvCmd (sp_list name) lookup ]
        ++ [ EvCmd (sp_create name subscription_id) created ]
        ++ [] ++ [] ++ []
        ++ [ EvPrint Success ("Created service principal: " ++ name) ]
        ++ [ EvPrint Success ("Application ID: " ++ app_id) ]
        ++ [ EvPrint Info "Assigning additional roles..." ]
        ++ (([ EvCmd (role_assignment_create app_id "User Access Administrator"
                        subscription_id)
                 (respond w (S (S (calls st)))
                    (role_assignment_create app_id "User Access Administrator"
                       subscription_id)) ] ++ [])
            ++ ([ EvCmd (role_assignment_create app_id "Key Vault Administrator"
                           subscription_id)
                    (respond w (S (S (S (calls st))))
                       (role_assignment_create app_id "Key Vault Administrator"
                          subscription_id)) ] ++ [])
            ++ [])
        ++ [])%list)).
  { eexists. unfold create_service_principal. fold name.
    eapply bind_ret_intro; [reflexivity |].
    eapply bind_ret_intro; [apply run_command_unchecked |].
    cbv beta. fold lookup. rewrite Hlookup. cbn [String.eqb negb].
    eapply bind_ret_intro; [apply run_command_checked_ok; exact Hrc |].
    cbv beta. cbn [calls after_call]. fold created.
    unfold loads. rewrite Hjson.
    eapply bind_ret_intro; [reflexivity |].
    unfold getitem. rewrite Hid, Hsecret.
    eapply bind_ret_intro; [reflexivity |].
    eapply bind_ret_intro; [reflexivity |].
    eapply bind_ret_intro; [reflexivity |].
    eapply bind_ret_intro; [reflexivity |].
    eapply bind_ret_intro; [reflexivity |].
    eapply bind_ret_intro; [| reflexivity].
    unfold additional_roles. cbn [for_each].
    eapply bind_ret_intro.
    { eapply bind_ret_intro; [apply run_command_unchecked | reflexivity]. }
    eapply bind_ret_intro; [| reflexivity].
    eapply bind_ret_intro; [apply run_command_unchecked | reflexivity]. }
  destruct Hrun as [st' ->]. split; reflexivity.
Qed.

(** X10. When the creation of the service principal fails, the process exits
    with code 1 after the error report: no role is requested. *)
Theorem failed_principal_creation_is_fatal
    (project_name subscription_id sp_type : string) (st : state) :
  let name := sp_name project_name sp_type in
  let lookup := respond w (calls st) (sp_list name) in
  let created := respond w (S (calls st)) (sp_create name subscription_id) in
  Py.strip (stdout lookup) = EmptyString ->
  returncode created <> 0%Z ->
  let run :=
    create_service_principal w json_loads project_name subscription_id
      sp_type st in
  result_of run = Exit 1 /\
  events_of run
  = (EvPrint Info ("Creating service principal for " ++ sp_type ++ "...")
     :: EvCmd (sp_list name) lookup
     :: failure_report (sp_create name subscription_id) created)%list.
Proof.
  intros name lookup created Hlookup Hrc run. subst run.
  unfold create_service_principal, print_status, emit. fold name.
  rewrite bind_run. cbn [result_of state_of events_of fst snd].
  rewrite (bind_returns _ _ _ _ _ _ (run_command_unchecked w _ st)).
  fold lookup. rewrite Hlookup. cbn [String.eqb negb].
  rewrite bind_run.
  rewrite (run_command_checked_fail w (sp_create name subscription_id)
             (after_call w st) Hrc).
  split; reflexivity.
Qed.

(** X11. When the output of a successful creation holds no [clientSecret], the
    routine raises [KeyError] after the service principal has been created:
    no role is requested and nothing is returned. *)
Theorem principal_output_without_secret_raises
    (project_name subscription_id sp_type : string) (st : state)
    (sp_info : gmap string string) (app_id : string) :
  let name := sp_name project_name sp_type in
  let lookup := respond w (calls st) (sp_list name) in
  let created := respond w (S (calls st)) (sp_create name subscription_id) in
  Py.strip (stdout lookup) = EmptyString ->
  returncode created = 0%Z ->
  json_loads (stdout created) = inr sp_info ->
  sp_info !! "clientId" = Some app_id ->
  sp_info !! "clientSecret" = None ->
  let run :=
    create_service_principal w json_loads project_name subscription_id
      sp_type st in
  result_of run = Raise (KeyError "clientSecret") /\
  commands (events_of run)
  = [sp_list name; sp_create name subscription_id].
Proof.
  intros name lookup created Hlookup Hrc Hjson Hid Hsecret run. subst run.
  unfold create_service_principal, print_status, emit. fold name.
  rewrite bind_run. cbn [result_of state_of events_of fst snd].
  rewrite (bind_returns _ _ _ _ _ _ (run_command_unchecked w _ st)).
  fold lookup. rewrite Hlookup. cbn [String.eqb negb].
  rewrite (bind_returns _ _ _ _ _ _
             (run_command_checked_ok w (sp_create name subscription_id)
                (after_call w st) Hrc)).
  cbn [calls after_call]. fold created.
  unfold loads. rewrite Hjson. rewrite !bind_run.
  cbn [ret result_of state_of events_of fst snd].
  unfold getitem. rewrite Hid. rewrite !bind_run.
  cbn [ret result_of state_of events_of fst snd].
  rewrite Hsecret. rewrite !bind_run.
  split; reflexivity.
Qed.

End NewServicePrincipal.

(** *** Generated files *)

(** A loop whose body always returns, runs no command and writes one file
    per element. *)
Lemma for_each_writes {A} (body : A -> M unit) (path : A -> string)
    (l : list A) :
  (forall x, In x l -> forall st,
     result_of (body x st) = Ret tt /\
     commands (events_of (body x st)) = [] /\
     written (events_of (body x st)) = [path x]) ->
  forall st,
    result_of (for_each l body st) = Ret tt /\
    commands (events_of (for_each l body st)) = [] /\
    written (events_of (for_each l body st)) = map path l.
Proof.
  induction l as [| x l IH]; intros Hbody st; cbn [for_each map].
  - repeat split; reflexivity.
  - rewrite bind_run.
    destruct (Hbody x (or_introl eq_refl) st) as (Hres & Hcmds & Hw).
    destruct (body x st) as [[r st1] evs1].
    cbn [result_of state_of events_of fst snd] in *. subst r.
    cbn [result_of state_of events_of fst snd].
    destruct (IH (fun y Hy => Hbody y (or_intror Hy)) st1) as (Hres' & Hcmds' & Hw').
    split; [exact Hres' |]. split.
    + rewrite commands_app, Hcmds, Hcmds'. reflexivity.
    + rewrite written_app, Hw, Hw'. reflexivity.
Qed.

(** A loop over [l1 ++ l2] whose first part returns goes on with [l2]. *)
Lemma for_each_app {A} (body : A -> M unit) (l1 l2 : list A) (st : state) :
  result_of (for_each l1 body st) = Ret tt ->
  for_each (l1 ++ l2)%list body st
  = (result_of (for_each l2 body (state_of (for_each l1 body st))),
     state_of (for_each l2 body (state_of (for_each l1 body st))),
     (events_of (for_each l1 body st)
      ++ events_of (for_each l2 body (state_of (for_each l1 body st))))%list).
Proof.
  revert st. induction l1 as [| x l1 IH]; intros st; cbn [app for_each].
  - intros _. cbn. apply run_eta.
  - rewrite !bind_run. destruct (body x st) as [[[[] | c | e |] st1] evs1];
      cbn [result_of state_of events_of fst snd]; try discriminate.
    intros Hres. rewrite (IH st1 Hres).
    cbn [result_of state_of events_of fst snd]. rewrite app_assoc. reflexivity.
Qed.

Section GeneratedFiles.

Lemma backend_config_written (rg_name : string)
    (storage_accounts : list (string * string)) (env : string) (st : state) :
  is_Some (dict_get env storage_accounts) ->
  let body := fun env : string =>
    mkdir (env_dir env) >>
    let* account := lookup_env storage_accounts env in
    write_file (env_dir env ++ "/backend.conf")
      ("resource_group_name  = " ++ dquote ++ rg_name ++ dquote ++ nl ++
       "storage_account_name = " ++ dquote ++ account ++ dquote ++ nl ++
       "container_name       = " ++ dquote ++ "tfstate" ++ dquote ++ nl ++
       "key                  = " ++ dquote ++ env ++ "/terraform.tfstate"
       ++ dquote ++ nl) >>
    print_success ("Generated backend config for " ++ env ++ " environment") in
  result_of (body env st) = Ret tt /\
  commands (events_of (body env st)) = [] /\
  written (events_of (body env st)) = [backend_conf env].
Proof.
  intros [account Haccount] body. subst body. cbv beta.
  unfold mkdir, print_success, emit, lookup_env, write_file.
  rewrite Haccount. rewrite !bind_run. repeat split; reflexivity.
Qed.

(** X15. For environment labels that are single path components, in a tree
    where no regular file stands where a directory has to be made, and as
    long as every environment has its storage account: one backend
    configuration is written per environment, in order; nothing else is
    written and no command is run. *)
Theorem generate_backend_configs_writes_each
    (project_name rg_name : string) (storage_accounts : list (string * string))
    (environments : list string) (st : state) :
  (forall env, In env environments -> plain_label env) ->
  (forall env, In env environments -> directories_free (files st) env) ->
  (forall env, In env environments ->
     is_Some (dict_get env storage_accounts)) ->
  let run :=
    generate_backend_configs project_name rg_name storage_accounts
      environments st in
  result_of run = Ret tt /\
  commands (events_of run) = [] /\
  written (events_of run) = map backend_conf environments.
Proof.
  intros _ _ Hall run. subst run. unfold generate_backend_configs.
  unfold print_status, emit. rewrite bind_run.
  cbn [result_of state_of events_of fst snd app commands written].
  apply for_each_writes. intros env Hin st'.
  apply (backend_config_written rg_name storage_accounts env st' (Hall env Hin)).
Qed.

(** X16. For environment labels that are single path components, in a tree
    where no regular file stands where a directory has to be made: an
    environment without a storage account makes the routine raise
    [KeyError] when its turn comes. Its directory has been made already,
    and the configurations of the environments before it stay written. *)
Theorem generate_backend_configs_missing_account
    (project_name rg_name : string) (storage_accounts : list (string * string))
    (done : list string) (env : string) (rest : list string) (st : state) :
  (forall e, In e (done ++ [env])%list -> plain_label e) ->
  (forall e, In e (done ++ [env])%list -> directories_free (files st) e) ->
  (forall e, In e done -> is_Some (dict_get e storage_accounts)) ->
  dict_get env storage_accounts = None ->
  let run :=
    generate_backend_configs project_name rg_name storage_accounts
      (done ++ env :: rest) st in
  result_of run = Raise (KeyError env) /\
  written (events_of run) = map backend_conf done /\
  exists pre, events_of run = (pre ++ [EvMkdir (env_dir env)])%list.
Proof.
  intros _ _ Hall Hmiss run. subst run. unfold generate_backend_configs.
  unfold print_status, emit. rewrite bind_run.
  cbn [result_of state_of events_of fst snd app written].
  match goal with
  | |- context [for_each _ ?b] => set (body := b)
  end.
  destruct (for_each_writes body backend_conf done
              (fun e He st' =>
                 backend_config_written rg_name storage_accounts e st'
                   (Hall e He)) st)
    as (Hres & _ & Hw).
  rewrite (for_each_app body done (env :: rest) st Hres).
  cbn [result_of state_of events_of fst snd for_each].
  rewrite bind_run.
  assert (Hbody : forall st1,
            body env st1 = (Raise (KeyError env), st1, [EvMkdir (env_dir env)])).
  { intros st1. subst body. cbv beta. unfold mkdir, emit, lookup_env.
    rewrite Hmiss. rewrite !bind_run. reflexivity. }
  rewrite Hbody. cbn [result_of state_of events_of fst snd].
  split; [reflexivity |]. split.
  - rewrite written_app, Hw. cbn. apply app_nil_r.
  - eexists (_ :: events_of (for_each done body st)). reflexivity.
Qed.

End GeneratedFiles.

Section VariableFiles.

Variables project_name location : string.

(** The body of the loop of [generate_terraform_tfvars]. *)
Let tfvars_body : string -> M unit := fun env =>
  let tfvars_file := env_dir env ++ "/terraform.tfvars" in
  let example_file := env_dir env ++ "/terraform.tfvars.example" in
  let* example_exists := path_exists example_file in
  let* tfvars_exists := path_exists tfvars_file in
  if example_exists && negb tfvars_exists then
    let* content := read_file example_file in
    let content :=
      Py.replace ("project_name = " ++ dquote ++ "aks-platform" ++ dquote)
                 ("project_name = " ++ dquote ++ project_name ++ dquote)
                 content in
    let content :=
      Py.replace ("location    = " ++ dquote ++ "East US" ++ dquote)
                 ("location    = " ++ dquote ++ location ++ dquote)
                 content in
    write_file tfvars_file content >>
    print_success ("Generated terraform.tfvars for " ++ env ++ " environment")
  else if tfvars_exists then
    print_warning ("terraform.tfvars already exists for " ++ env ++ " environment")
  else
    print_warning ("terraform.tfvars.example not found for " ++ env
                   ++ " environment").

Lemma generate_terraform_tfvars_loop (environments : list string) (st : state) :
  generate_terraform_tfvars project_name location environments st
  = (result_of (for_each environments tfvars_body st),
     state_of (for_each environments tfvars_body st),
     EvPrint Info "Generating terraform.tfvars files..."
     :: events_of (for_each environments tfvars_body st)).
Proof.
  unfold generate_terraform_tfvars. unfold print_status at 1. unfold emit at 1.
  rewrite bind_run. reflexivity.
Qed.

Lemma tfvars_file_not_example (a b : string) : tfvars_file a <> tfvars_example b.
Proof.
  unfold tfvars_file, tfvars_example, env_dir. intros H.
  apply (f_equal last_char) in H.
  rewrite (last_char_append _ "/terraform.tfvars") in H by discriminate.
  rewrite (last_char_append _ "/terraform.tfvars.example") in H by discriminate.
  discriminate H.
Qed.

(** What one turn of the loop does: it returns, runs no command, keeps
    every file there is, writes at most the variable file of its
    environment, and leaves its environment settled. *)
Lemma tfvars_body_run (env : string) (st : state) :
  let run := tfvars_body env st in
  result_of run = Ret tt /\
  commands (events_of run) = [] /\
  files st ⊆ files (state_of run) /\
  settled (files (state_of run)) env /\
  (forall e, settled (files st) e -> settled (files (state_of run)) e) /\
  (settled (files st) env ->
   written (events_of run) = [] /\ state_of run = st).
Proof.
  cbv zeta. unfold tfvars_body, path_exists. rewrite !bind_run.
  cbn [result_of state_of events_of fst snd app].
  fold (tfvars_file env) (tfvars_example env).
  destruct (files st !! tfvars_example env) as [content |] eqn:Hexample;
  destruct (files st !! tfvars_file env) as [present |] eqn:Htfvars.
  - rewrite !bool_decide_eq_true_2 by eauto. cbn [andb negb].
    unfold print_warning, emit. cbn [result_of state_of events_of fst snd].
    repeat split; try reflexivity.
    + right. rewrite Htfvars. eauto.
    + tauto.
  - rewrite bool_decide_eq_true_2 by eauto.
    rewrite bool_decide_eq_false_2 by (intros [? ?]; discriminate).
    cbn [andb negb]. unfold read_file. rewrite !bind_run. rewrite Hexample.
    unfold write_file, print_success, emit. rewrite !bind_run.
    cbn [result_of state_of events_of fst snd files].
    split; [reflexivity |]. split; [reflexivity |].
    split; [apply insert_subseteq; exact Htfvars |].
    split; [right; rewrite lookup_insert_eq; eauto |].
    split.
    + intros e [He | He].
      * left. rewrite lookup_insert_ne by apply tfvars_file_not_example.
        exact He.
      * right. apply lookup_insert_is_Some'. right. exact He.
    + intros [He | [x He]]; congruence.
  - rewrite bool_decide_eq_false_2 by (intros [? ?]; discriminate).
    rewrite bool_decide_eq_true_2 by eauto. cbn [andb negb].
    unfold print_warning, emit. cbn [result_of state_of events_of fst snd].
    repeat split; try reflexivity.
    + left. exact Hexample.
    + tauto.
  - rewrite !bool_decide_eq_false_2 by (intros [? ?]; discriminate).
    cbn [andb negb].
    unfold print_warning, emit. cbn [result_of state_of events_of fst snd].
    repeat split; try reflexivity.
    + left. exact Hexample.
    + tauto.
Qed.

Lemma tfvars_loop_run (l : list string) (st : state) :
  let run := for_each l tfvars_body st in
  result_of run = Ret tt /\
  commands (events_of run) = [] /\
  files st ⊆ files (state_of run) /\
  (forall e, settled (files st) e \/ In e l -> settled (files (state_of run)) e) /\
  ((forall e, In e l -> settled (files st) e) ->
   written (events_of run) = [] /\ state_of run = st).
Proof.
  cbv zeta. revert st. induction l as [| env l IH]; intros st; cbn [for_each].
  - cbn. repeat split; try reflexivity; tauto.
  - rewrite bind_run.
    destruct (tfvars_body_run env st) as (Hres & Hcmds & Hsub & Henv & Hkeep & Hnone).
    destruct (tfvars_body env st) as [[r st1] evs1].
    cbn [result_of state_of events_of fst snd] in *. subst r.
    cbn [result_of state_of events_of fst snd].
    destruct (IH st1) as (Hres' & Hcmds' & Hsub' & Hkeep' & Hnone').
    split; [exact Hres' |]. split.
    { rewrite commands_app, Hcmds, Hcmds'. reflexivity. }
    split; [etrans; eassumption |]. split.
    { intros e [He | [<- | He]]; apply Hkeep'; auto. }
    intros Hall.
    destruct (Hnone (Hall env (or_introl eq_refl))) as [Hw ->].
    destruct Hnone' as [Hw' Hst'].
    { intros e He. apply Hall. right. exact He. }
    split; [rewrite written_app, Hw, Hw'; reflexivity | exact Hst'].
Qed.

(** The files one turn of the loop writes: at most the variable file of
    its environment, and only where there was none. *)
Lemma tfvars_body_writes (env : string) (st : state) :
  Forall (fun e => forall path content, e = EvWrite path content ->
            path = tfvars_file env /\ files st !! path = None)
    (events_of (tfvars_body env st)).
Proof.
  unfold tfvars_body, path_exists. rewrite !bind_run.
  cbn [result_of state_of events_of fst snd app].
  fold (tfvars_file env) (tfvars_example env).
  destruct (files st !! tfvars_example env) as [content |] eqn:Hexample;
  destruct (files st !! tfvars_file env) as [present |] eqn:Htfvars.
  - rewrite !bool_decide_eq_true_2 by eauto. cbn [andb negb].
    unfold print_warning, emit. cbn [events_of snd].
    constructor; [intros path c Heq; discriminate Heq | constructor].
  - rewrite bool_decide_eq_true_2 by eauto.
    rewrite bool_decide_eq_false_2 by (intros [? ?]; discriminate).
    cbn [andb negb]. unfold read_file. rewrite !bind_run. rewrite Hexample.
    unfold write_file, print_success, emit. rewrite !bind_run.
    cbn [result_of state_of events_of fst snd app].
    constructor; [intros path c Heq; discriminate Heq |].
    constructor.
    { intros path c [= <- _]. split; [reflexivity | exact Htfvars]. }
    constructor; [intros path c Heq; discriminate Heq | constructor].
  - rewrite bool_decide_eq_false_2 by (intros [? ?]; discriminate).
    rewrite bool_decide_eq_true_2 by eauto. cbn [andb negb].
    unfold print_warning, emit. cbn [events_of snd].
    constructor; [intros path c Heq; discriminate Heq | constructor].
  - rewrite !bool_decide_eq_false_2 by (intros [? ?]; discriminate).
    cbn [andb negb].
    unfold print_warning, emit. cbn [events_of snd].
    constructor; [intros path c Heq; discriminate Heq | constructor].
Qed.

Lemma tfvars_loop_writes (l : list string) (st : state) :
  Forall (fun e => forall path content, e = EvWrite path content ->
            files st !! path = None /\
            exists env, In env l /\ path = tfvars_file env)
    (events_of (for_each l tfvars_body st)).
Proof.
  revert st. induction l as [| env l IH]; intros st; cbn [for_each].
  - constructor.
  - rewrite bind_run.
    pose proof (tfvars_body_writes env st) as Hbody.
    destruct (tfvars_body_run env st) as (Hres & _ & Hsub & _).
    destruct (tfvars_body env st) as [[r st1] evs1].
    cbn [result_of state_of events_of fst snd] in *. subst r.
    cbn [result_of state_of events_of fst snd].
    apply Forall_app. split.
    + eapply Forall_impl; [exact Hbody |].
      intros e He path content Heq. destruct (He path content Heq) as [-> Hnone].
      split; [exact Hnone |]. exists env. split; [left |]; reflexivity.
    + eapply Forall_impl; [exact (IH st1) |].
      intros e He path content Heq.
      destruct (He path content Heq) as [Hnone (env' & Hin & ->)].
      split.
      * eapply lookup_weaken_None; eassumption.
      * exists env'. split; [right; exact Hin | reflexivity].
Qed.

(** X18. For environment labels that are single path components,
    [generate_terraform_tfvars] runs no command and never changes or removes
    a file that exists: every file it writes is the variable file of one of
    the given environments, at a path where there was no file when the
    routine began, and every file that was there keeps its content. *)
Theorem generate_terraform_tfvars_keeps_files (environments : list string)
    (st : state) :
  (forall env, In env environments -> plain_label env) ->
  let run := generate_terraform_tfvars project_name location environments st in
  commands (events_of run) = [] /\
  files st ⊆ files (state_of run) /\
  Forall (fun e => forall path content, e = EvWrite path content ->
            files st !! path = None /\
            exists env, In env environments /\ path = tfvars_file env)
    (events_of run).
Proof.
  intros _. cbv zeta. rewrite generate_terraform_tfvars_loop.
  destruct (tfvars_loop_run environments st) as (_ & Hcmds & Hsub & _).
  cbn [result_of state_of events_of fst snd commands].
  split; [exact Hcmds |]. split; [exact Hsub |].
  constructor; [intros path c Heq; discriminate Heq | apply tfvars_loop_writes].
Qed.

(** X19. Running [generate_terraform_tfvars] a second time writes nothing and
    leaves the files as the first run left them. *)
Theorem generate_terraform_tfvars_twice (environments : list string)
    (st : state) :
  let first := generate_terraform_tfvars project_name location environments st in
  let second :=
    generate_terraform_tfvars project_name location environments
      (state_of first) in
  result_of second = Ret tt /\
  written (events_of second) = [] /\
  state_of second = state_of first.
Proof.
  cbv zeta. rewrite (generate_terraform_tfvars_loop environments st).
  cbn [state_of fst snd].
  rewrite generate_terraform_tfvars_loop.
  destruct (tfvars_loop_run environments st) as (_ & _ & _ & Hsettled & _).
  destruct (tfvars_loop_run environments
              (state_of (for_each environments tfvars_body st)))
    as (Hres & _ & _ & _ & Hnone).
  destruct Hnone as [Hw Hst].
  { intros e He. apply Hsettled. right. exact He. }
  cbn [result_of state_of events_of fst snd written]. auto.
Qed.

End VariableFiles.

(** *** From storage accounts to backend configurations *)

Lemma for_each_write_events {A} (body : A -> M unit) (ev : A -> event)
    (l : list A) :
  (forall x, In x l -> forall st,
     result_of (body x st) = Ret tt /\
     List.filter is_write (events_of (body x st)) = [ev x]) ->
  forall st,
    result_of (for_each l body st) = Ret tt /\
    List.filter is_write (events_of (for_each l body st)) = map ev l.
Proof.
  induction l as [| x l IH]; intros Hbody st; cbn [for_each map].
  - split; reflexivity.
  - rewrite bind_run.
    destruct (Hbody x (or_introl eq_refl) st) as (Hres & Hw).
    destruct (body x st) as [[r st1] evs1].
    cbn [result_of state_of events_of fst snd] in *. subst r.
    cbn [result_of state_of events_of fst snd].
    destruct (IH (fun y Hy => Hbody y (or_intror Hy)) st1) as (Hres' & Hw').
    split; [exact Hres' |]. rewrite List.filter_app, Hw, Hw'. reflexivity.
Qed.

Section AccountsToConfigs.

Variable w : world.

(** X17. For environment labels that are single path components, and in a
    tree where no regular file stands where a directory has to be made, the
    dictionary that [create_storage_accounts] returns always serves
    [generate_backend_configs] for the same environments: no lookup fails,
    and the configuration written for an environment names the storage
    account that was created for it. *)
Theorem backend_configs_name_created_accounts
    (project_name rg_name location : string) (environments : list string)
    (st st' : state) (accounts : list (string * string)) :
  (forall env, In env environments -> plain_label env) ->
  (forall env, In env environments -> directories_free (files st') env) ->
  result_of
    (create_storage_accounts w project_name rg_name location environments st)
  = Ret accounts ->
  let run :=
    generate_backend_configs project_name rg_name accounts environments st' in
  result_of run = Ret tt /\
  List.filter is_write (events_of run)
  = map (fun env =>
           EvWrite (backend_conf env)
             (backend_config_text rg_name
                (account_name project_name (clock st) env) env))
      environments.
Proof.
  intros _ _ Hres run. subst run.
  destruct (create_storage_accounts_run w _ _ _ _ _ _ Hres) as [_ ->].
  unfold generate_backend_configs, print_status, emit. rewrite bind_run.
  cbn [result_of state_of events_of fst snd app List.filter is_write].
  apply for_each_write_events. intros env Hin st1.
  pose proof (dict_fold_lookup (account_name project_name (clock st))
                environments [] env (or_introl Hin)) as Hget.
  unfold mkdir, print_success, emit, lookup_env, write_file.
  rewrite Hget. rewrite !bind_run. split; reflexivity.
Qed.

End AccountsToConfigs.

(** *** How the script ends *)

Section Endings.

Variable Q : outcome unit -> Prop.
Hypothesis HQ : admits_failures Q.

Lemma ends_ret {A} (a : A) : ends_in Q (ret a).
Proof. intros st. apply HQ. Qed.

Lemma ends_emit (e : event) : ends_in Q (emit e).
Proof. intros st. apply HQ. Qed.

Lemma ends_sys_exit_one {A} : ends_in Q (@sys_exit A 1).
Proof. intros st. apply HQ. Qed.

Lemma ends_raise {A} (e : exn) : ends_in Q (@raise A e).
Proof. intros st. apply HQ. Qed.

Lemma ends_time_time : ends_in Q time_time.
Proof. intros st. apply HQ. Qed.

Lemma ends_path_exists (path : string) : ends_in Q (path_exists path).
Proof. intros st. apply HQ. Qed.

Lemma ends_write_file (path content : string) :
  ends_in Q (write_file path content).
Proof. intros st. apply HQ. Qed.

Lemma ends_read_file (path : string) : ends_in Q (read_file path).
Proof. intros st. unfold read_file. destruct (files st !! path); apply HQ. Qed.

Lemma ends_getitem (d : gmap string string) (key : string) :
  ends_in Q (getitem d key).
Proof. intros st. unfold getitem. destruct (d !! key); apply HQ. Qed.

Lemma ends_run_command (w : world) (command : list string) (check : bool) :
  ends_in Q (run_command w command check).
Proof.
  intros st. destruct check.
  - destruct (Z.eq_dec (returncode (respond w (calls st) command)) 0%Z)
      as [Hrc | Hrc].
    + rewrite (run_command_checked_ok _ _ _ Hrc). apply HQ.
    + rewrite (run_command_checked_fail _ _ _ Hrc). apply HQ.
  - rewrite run_command_unchecked. apply HQ.
Qed.

Lemma ends_bind {A B} (m : M A) (f : A -> M B) :
  ends_in Q m -> (forall a, ends_in Q (f a)) -> ends_in Q (bind m f).
Proof.
  intros Hm Hf st. rewrite bind_run. specialize (Hm st).
  destruct (m st) as [[[a | c | e |] st1] evs1];
    cbn [result_of fst ending] in *; try exact Hm.
  apply Hf.
Qed.

Lemma ends_for_each {A} (l : list A) (body : A -> M unit) :
  (forall x, ends_in Q (body x)) -> ends_in Q (for_each l body).
Proof.
  intros Hbody. induction l as [| x l IH]; cbn [for_each].
  - apply ends_ret.
  - apply ends_bind; [apply Hbody | intros _; exact IH].
Qed.

Lemma ends_for_acc {A S} (l : list A) (acc : S) (body : S -> A -> M S) :
  (forall s x, ends_in Q (body s x)) -> ends_in Q (for_acc l acc body).
Proof.
  intros Hbody. revert acc. induction l as [| x l IH]; intros acc;
    cbn [for_acc].
  - apply ends_ret.
  - apply ends_bind; [apply Hbody | intros acc'; apply IH].
Qed.

End Endings.

Ltac ends_step :=
  first
    [ apply ends_ret | apply ends_emit | apply ends_sys_exit_one
    | apply ends_raise | apply ends_time_time | apply ends_path_exists
    | apply ends_write_file | apply ends_read_file | apply ends_getitem
    | apply ends_run_command
    | apply ends_bind; [| intros]
    | apply ends_for_each; [assumption | intros]
    | apply ends_for_acc; [assumption | intros]
    | match goal with
      | |- ends_in _ (if ?c then _ else _) => destruct c
      | |- ends_in _ (match ?c with _ => _ end) => destruct c
      end ];
  try assumption.

Ltac ends_auto :=
  unfold print_status, print_success, print_warning, print_error, print,
    mkdir, loads, lookup_env;
  repeat ends_step.

Lemma exits_with_one_admits : admits_failures exits_with_one.
Proof. repeat split. Qed.

Lemma orderly_admits : admits_failures orderly.
Proof. repeat split. Qed.

Lemma try_except_result {A} (m : M A) (h : exn -> M A) (st : state) :
  result_of (try_except m (fun e => Some (h e)) st)
  = match result_of (m st) with
    | Raise e => result_of (h e (state_of (m st)))
    | r => r
    end.
Proof.
  unfold try_except. destruct (m st) as [[[a | c | e |] st1] evs1];
    try reflexivity.
  cbn [result_of state_of fst snd]. destruct (h e st1) as [[r st2] evs2].
  reflexivity.
Qed.

Section MainEnds.

Variable w : world.
Variable json_loads : string -> string + gmap string string.
Variable strftime : Q -> string.
Variable upper : string -> string.

(** Everything after the prerequisites ends by returning, by exit code 1
    or by an exception. *)
Lemma ends_provisioning (P : outcome unit -> Prop) (fuel : nat)
    (project_name location : string) (environments : list string) :
  admits_failures P ->
  ends_in P (check_prerequisites w fuel) ->
  ends_in P
    (setup w json_loads strftime upper fuel project_name location environments).
Proof.
  intros HP Hpre. unfold setup.
  apply ends_bind; [exact Hpre |]. intros _.
  unfold get_subscription_info, create_state_resource_group,
    create_storage_accounts, create_service_principal, generate_env_file,
    generate_backend_configs, generate_terraform_tfvars.
  ends_auto.
Qed.

Lemma ends_poll_providers (P : outcome unit -> Prop) (l : list string) :
  admits_failures P -> ends_in P (poll_providers w l).
Proof.
  intros HP. induction l as [| p l IH]; cbn [poll_providers]; ends_auto.
Qed.

Lemma ends_wait_for_registration (fuel : nat) (start_time : Q)
    (l : list string) :
  ends_in exits_with_one (wait_for_registration w fuel start_time l).
Proof.
  pose proof exits_with_one_admits as HP.
  induction fuel as [| fuel IH]; cbn [wait_for_registration].
  - apply ends_bind; [apply ends_time_time; assumption |].
    intros now. destruct (Qlt_le_dec _ _); [intros st; exact I | ends_auto].
  - apply ends_bind; [apply ends_time_time; assumption |].
    intros now. destruct (Qlt_le_dec _ _); [| ends_auto].
    apply ends_bind; [apply ends_poll_providers; assumption |].
    intros [|]; [ends_auto |].
    apply ends_bind; [ends_auto |]. intros _.
    apply ends_bind; [intros st; exact I |]. intros _.
    exact IH.
Qed.

Lemma ends_check_prerequisites (P : outcome unit -> Prop) (fuel : nat) :
  admits_failures P ->
  ends_in P (check_and_register_providers w fuel) ->
  ends_in P (check_prerequisites w fuel).
Proof.
  intros HP Hproviders. unfold check_prerequisites.
  apply ends_bind; [ends_auto |]. intros _.
  apply ends_bind; [ends_auto |]. intros _.
  apply ends_bind; [ends_auto |]. intros result.
  apply ends_bind; [ends_auto |]. intros _.
  apply ends_bind; [exact Hproviders | intros _; ends_auto].
Qed.

Lemma ends_check_and_register_providers_one (fuel : nat) :
  ends_in exits_with_one (check_and_register_providers w fuel).
Proof.
  pose proof exits_with_one_admits as HP.
  unfold check_and_register_providers,
    query_providers, query_provider, register_providers, register_provider.
  apply ends_bind; [ends_auto |]. intros _.
  apply ends_bind; [ends_auto |]. intros [| u l]; [ends_auto |].
  apply ends_bind; [ends_auto |]. intros _.
  apply ends_bind; [ends_auto |]. intros _.
  apply ends_bind; [ends_auto |]. intros _.
  apply ends_bind; [ends_auto |]. intros start_time.
  apply ends_wait_for_registration.
Qed.

(** How [main] ends, given how [setup] ends. *)
Lemma main_result (fuel : nat) (a : args) (st : state) :
  result_of (main w json_loads strftime upper fuel a st) = Exit 1 \/
  exists envs st',
    select_environments a = Some envs /\
    result_of (main w json_loads strftime upper fuel a st)
    = match result_of
              (setup w json_loads strftime upper fuel (project_name a)
                 (location a) envs st') with
      | Raise e => Exit 1
      | r => r
      end.
Proof.
  unfold main. destruct (select_environments a) as [envs |]; [| left; reflexivity].
  right. exists envs, st. split; [reflexivity |].
  unfold print_status, print, emit. rewrite !bind_run.
  cbn [result_of state_of events_of fst snd].
  rewrite try_except_result.
  destruct (result_of (setup _ _ _ _ _ _ _ _ _)); reflexivity.
Qed.

(** X20. Once the arguments are parsed, no exception leaves [main] and the
    only exit code is 1, in every world and for all parsed arguments. (The
    argument parser itself, which ends the process with code 2 or 0 on a
    usage error or a request for help, comes before and is not part of
    [main] as modelled here; the report on the interpreter only prints.) *)
Theorem main_exits_with_one_only (fuel : nat) (a : args) (st : state) :
  let run := main w json_loads strftime upper fuel a st in
  (forall e, result_of run <> Raise e) /\
  (forall c, result_of run = Exit c -> c = 1%Z).
Proof.
  cbv zeta.
  destruct (main_result fuel a st) as [-> | (envs & st' & _ & ->)].
  { split; [discriminate | intros c [= <-]; reflexivity]. }
  pose proof (ends_provisioning exits_with_one fuel (project_name a)
                (location a) envs exits_with_one_admits
                (ends_check_prerequisites exits_with_one fuel
                   exits_with_one_admits
                   (ends_check_and_register_providers_one fuel)) st')
    as Hsetup.
  destruct (result_of (setup _ _ _ _ _ _ _ _ _)) as [[] | c | e |];
    cbn [ending exits_with_one] in Hsetup.
  - split; discriminate.
  - split; [discriminate | intros c' [= <-]; exact Hsetup].
  - split; [discriminate | intros c' [= <-]; reflexivity].
  - split; discriminate.
Qed.

End MainEnds.

Section MainTerminates.

Variable w : world.
Variable json_loads : string -> string + gmap string string.
Variable strftime : Q -> string.
Variable upper : string -> string.
Hypothesis clock_monotone : monotone_clock w.

Lemma ends_check_and_register_providers_orderly (fuel : nat) :
  30 <= fuel -> ends_in orderly (check_and_register_providers w fuel).
Proof.
  intros Hfuel st.
  destruct (check_and_register_providers_run w fuel st)
    as (stQ & evQ & _ & _ & Hrun).
  rewrite Hrun. clear Hrun.
  destruct (unregistered_from w (calls st) required_providers) as [| u l'];
    [exact I |].
  set (l := u :: l') in *. cbv zeta.
  destruct (register_providers_run w l stQ) as [[Hres _] | [Hres _]];
    rewrite Hres; cbn [result_of fst]; [| reflexivity].
  destruct (wait_for_registration_bounded w clock_monotone 30 fuel
              (clock (state_of (register_providers w l stQ))) l
              (state_of (register_providers w l stQ)) Hfuel)
    as (HresW & _).
  { unfold max_wait_time. change (inject_Z (Z.of_nat 30)) with 30%Q. lra. }
  rewrite HresW. exact I.
Qed.


End MainTerminates.

(** *** Running again on existing service principals *)

(** A sequence whose second part depends on what the first part returns. *)
Lemma emits_bind_returned {A B} (P : event -> Prop) (R : A -> Prop)
    (m : M A) (f : A -> M B) :
  emits P m ->
  (forall st a, result_of (m st) = Ret a -> R a) ->
  (forall a, R a -> emits P (f a)) ->
  emits P (bind m f).
Proof.
  intros Hm HR Hf st. rewrite bind_run.
  specialize (Hm st). specialize (HR st). unfold events_of in Hm.
  destruct (m st) as [[[a | c | e |] st1] evs1]; cbn in *; try exact Hm.
  apply Forall_app. split; [exact Hm |]. apply Hf, HR. reflexivity.
Qed.

Section Rerun.

Variable w : world.
Variable json_loads : string -> string + gmap string string.
Variable strftime : Q -> string.
Variable upper : string -> string.
Hypothesis principals_exist :
  forall n name, Py.strip (stdout (respond w n (sp_list name))) <> EmptyString.

Lemma create_service_principal_existing
    (project_name subscription_id sp_type : string) (st : state) :
  create_service_principal w json_loads project_name subscription_id sp_type st
  = (Ret {[ "app_id" :=
              Py.strip (stdout (respond w (calls st)
                                  (sp_list (sp_name project_name sp_type)))) ]},
     after_call w st,
     [ EvPrint Info ("Creating service principal for " ++ sp_type ++ "...");
       EvCmd (sp_list (sp_name project_name sp_type))
         (respond w (calls st) (sp_list (sp_name project_name sp_type)));
       EvPrint Warning
         ("Service principal " ++ sp_name project_name sp_type
          ++ " already exists") ]).
Proof.
  unfold create_service_principal, print_status, print_warning, emit.
  rewrite bind_run. cbn [result_of state_of events_of fst snd].
  rewrite (bind_returns _ _ _ _ _ _ (run_command_unchecked w _ st)).
  destruct (String.eqb_spec
              (Py.strip (stdout (respond w (calls st)
                                   (sp_list (sp_name project_name sp_type)))))
              EmptyString) as [Heq | _].
  { exfalso. exact (principals_exist _ _ Heq). }
  cbn [negb]. rewrite bind_run. reflexivity.
Qed.

Ltac reuse_event := repeat split; first [reflexivity | discriminate | exact I].

(** X12. When every lookup of a service principal finds one, a run of [main]
    creates no service principal, requests no role assignment and does not
    write [github-actions-credentials.json], however far the run gets. *)
Theorem rerun_reuses_service_principals (fuel : nat) (a : args) (st : state) :
  Forall reuses_principals
    (events_of (main w json_loads strftime upper fuel a st)).
Proof.
  revert st. change (emits reuses_principals
                       (main w json_loads strftime upper fuel a)).
  assert (Hsp : forall p s t, emits reuses_principals
                  (create_service_principal w json_loads p s t)).
  { intros p s t st. rewrite create_service_principal_existing.
    repeat constructor. }
  assert (Hret : forall p s t st d,
            result_of (create_service_principal w json_loads p s t st) = Ret d ->
            d !! "sp_output" = None).
  { intros p s t st d. rewrite create_service_principal_existing.
    intros [= <-]. apply lookup_singleton_ne. discriminate. }
  unfold main. destruct (select_environments a) as [envs |].
  2:{ emits_auto; reuse_event. }
  apply emits_bind; [emits_auto; reuse_event |]. intros _.
  apply emits_bind; [emits_auto; reuse_event |]. intros _.
  apply emits_bind; [emits_auto; reuse_event |]. intros _.
  apply emits_try_except; [| intros e h [= <-]; emits_auto; reuse_event].
  unfold setup.
  apply emits_bind.
  { unfold check_prerequisites.
    apply emits_bind; [emits_auto; reuse_event |]. intros _.
    apply emits_bind; [emits_auto; reuse_event |]. intros _.
    apply emits_bind; [emits_auto; reuse_event |]. intros result.
    apply emits_bind; [emits_auto; reuse_event |]. intros _.
    apply emits_bind; [| intros _; emits_auto; reuse_event].
    apply emits_check_and_register_providers; intros; reuse_event. }
  intros _.
  apply emits_bind.
  { unfold get_subscription_info. emits_auto; reuse_event. }
  intros azure_info.
  apply emits_bind.
  { unfold create_state_resource_group. emits_auto; reuse_event. }
  intros rg_name.
  apply emits_bind.
  { unfold create_storage_accounts. emits_auto; reuse_event. }
  intros storage_accounts.
  apply emits_bind; [apply Hsp |]. intros terraform_sp.
  apply (emits_bind_returned _ (fun d => d !! "sp_output" = None));
    [apply Hsp | apply Hret |].
  intros github_sp Hnone. rewrite Hnone.
  apply emits_bind.
  { unfold generate_env_file. emits_auto; reuse_event. }
  intros _.
  apply emits_bind.
  { unfold generate_backend_configs. emits_auto; reuse_event. }
  intros _.
  apply emits_bind.
  { unfold generate_terraform_tfvars. emits_auto; reuse_event. }
  intros _.
  emits_auto; reuse_event.
Qed.

End Rerun.

(** *** The subscription and the resource group *)

Ltac sub_close :=
  intros;
  repeat match goal with
         | H : _ /\ _ |- _ => destruct H
         | H : exists _, _ |- _ => destruct H
         end;
  first [reflexivity | assumption | contradiction | congruence].

Section Subscription.

Variable w : world.
Variable json_loads : string -> string + gmap string string.

(** X13. [get_subscription_info] runs one command, [az account show --output
    json], and writes nothing. It returns exactly when that command exits
    with zero and its output decodes to an object that has the fields [id],
    [name] and [tenantId], and then returns these three values; a failed
    command exits with code 1. *)
Theorem subscription_info_needs_complete_document (st : state) :
  let command := ["az"; "account"; "show"; "--output"; "json"] in
  let shown := respond w (calls st) command in
  let run := get_subscription_info w json_loads st in
  commands (events_of run) = [command] /\
  written (events_of run) = [] /\
  (forall info,
     result_of run = Ret info <->
     returncode shown = 0%Z /\
     exists account_info,
       json_loads (stdout shown) = inr account_info /\
       account_info !! "id" = Some (subscription_id info) /\
       account_info !! "name" = Some (subscription_name info) /\
       account_info !! "tenantId" = Some (tenant_id info)) /\
  (result_of run = Exit 1 <-> returncode shown <> 0%Z).
Proof.
  intros command shown run. subst run.
  unfold get_subscription_info, print_status, emit.
  rewrite bind_run. cbn [result_of state_of events_of fst snd].
  fold command.
  destruct (Z.eq_dec (returncode shown) 0%Z) as [Hrc | Hrc].
  2:{ rewrite bind_run, (run_command_checked_fail w command st Hrc).
      cbn [result_of state_of events_of fst snd app commands written].
      repeat split; sub_close. }
  rewrite bind_run, (run_command_checked_ok w command st Hrc).
  cbn [result_of state_of events_of fst snd]. fold shown.
  unfold loads. rewrite bind_run.
  destruct (json_loads (stdout shown)) as [message | account_info].
  { cbn [raise result_of state_of events_of fst snd app commands written].
    repeat split; sub_close. }
  cbn [ret result_of state_of events_of fst snd]. unfold getitem.
  destruct (account_info !! "id") as [id |] eqn:Hid.
  2:{ rewrite bind_run.
      cbn [raise result_of state_of events_of fst snd app commands written].
      repeat split; sub_close. }
  rewrite bind_run. cbn [ret result_of state_of events_of fst snd].
  destruct (account_info !! "name") as [name |] eqn:Hname.
  2:{ rewrite bind_run.
      cbn [raise result_of state_of events_of fst snd app commands written].
      repeat split; sub_close. }
  rewrite bind_run. cbn [ret result_of state_of events_of fst snd].
  destruct (account_info !! "tenantId") as [tenant |] eqn:Htenant.
  2:{ rewrite bind_run.
      cbn [raise result_of state_of events_of fst snd app commands written].
      repeat split; sub_close. }
  unfold print_success, emit.
  repeat (rewrite bind_run; cbn [ret result_of state_of events_of fst snd]).
  cbn [app commands written].
  repeat split; try sub_close.
  - match goal with H : Ret _ = Ret _ |- _ => injection H as <- end.
    exists account_info. repeat split; assumption.
  - intros (_ & doc & Hdoc & Hid' & Hname' & Htenant').
    destruct info as [i n t]. cbn in *. congruence.
Qed.

(** X14. When the lookup of the resource group fails, for whatever reason, the
    group is taken to be missing: its creation is the next and last command,
    with the tags [Purpose] and [Project], and the routine returns the name
    of the group exactly when the creation exits with zero; otherwise the
    process exits with code 1. *)
Theorem missing_resource_group_is_created
    (project_name location : string) (st : state) :
  let rg_name := project_name ++ "-terraform-state-rg" in
  let created :=
    respond w (S (calls st)) (group_create rg_name location project_name) in
  returncode (respond w (calls st) (group_show rg_name)) <> 0%Z ->
  let run := create_state_resource_group w project_name location st in
  commands (events_of run)
  = [group_show rg_name; group_create rg_name location project_name] /\
  (returncode created = 0%Z -> result_of run = Ret rg_name) /\
  (returncode created <> 0%Z -> result_of run = Exit 1).
Proof.
  intros rg_name created Hshow run. subst run.
  unfold create_state_resource_group, print_status, print_success, emit.
  fold rg_name.
  rewrite bind_run. cbn [result_of state_of events_of fst snd].
  rewrite (bind_returns _ _ _ _ _ _ (run_command_unchecked w _ st)).
  apply Z.eqb_neq in Hshow. rewrite Hshow.
  destruct (Z.eq_dec (returncode created) 0%Z) as [Hrc | Hrc].
  - rewrite !bind_run.
    rewrite (run_command_checked_ok w _ (after_call w st) Hrc).
    cbn [result_of state_of events_of fst snd app commands ret].
    repeat split; try reflexivity. intros H. contradiction.
  - rewrite !bind_run.
    rewrite (run_command_checked_fail w _ (after_call w st) Hrc).
    cbn [result_of state_of events_of fst snd app commands ret].
    repeat split; try reflexivity. intros H. contradiction.
Qed.

End Subscription.

(** *** What a successful run has done *)

(** A sequence that returns: both parts returned, one after the other. *)
Lemma bind_ret_inv {A B} (m : M A) (f : A -> M B) (st : state) (b : B) :
  result_of (bind m f st) = Ret b ->
  exists a,
    result_of (m st) = Ret a /\
    result_of (f a (state_of (m st))) = Ret b /\
    events_of (bind m f st)
    = (events_of (m st) ++ events_of (f a (state_of (m st))))%list.
Proof.
  rewrite bind_run.
  destruct (m st) as [[[a | c | e |] st1] evs1];
    cbn [result_of state_of events_of fst snd]; try discriminate.
  intros Hres. exists a. repeat split. exact Hres.
Qed.

Lemma generate_env_file_returns (strftime : Q -> string)
    (upper : string -> string) (project_name : string)
    (azure_info : subscription) (terraform_sp : gmap string string)
    (storage_accounts : list (string * string)) (st : state) :
  result_of
    (generate_env_file strftime upper project_name azure_info terraform_sp
       storage_accounts st) = Ret tt ->
  written
    (events_of
       (generate_env_file strftime upper project_name azure_info terraform_sp
          storage_accounts st)) = [".env"].
Proof.
  destruct (terraform_sp !! "app_id") as [app_id |] eqn:Hid.
  - intros _.
    destruct (generate_env_file_summary strftime upper project_name azure_info
                terraform_sp storage_accounts st (ex_intro _ app_id Hid))
      as (st' & evs & -> & _ & Hw).
    exact Hw.
  - unfold generate_env_file, print_status, emit, time_time, getitem.
    rewrite Hid.
    repeat (rewrite bind_run; cbn [raise result_of state_of events_of fst snd]).
    discriminate.
Qed.

(** The configurations written from the dictionary that the loop of
    [create_storage_accounts] builds. *)
Lemma generate_backend_configs_of_accounts
    (project_name rg_name : string) (now : Q) (environments : list string)
    (st : state) :
  List.filter is_write
    (events_of
       (generate_backend_configs project_name rg_name
          (fold_left
             (fun d env => dict_set env (account_name project_name now env) d)
             environments [])
          environments st))
  = map (fun env =>
           EvWrite (backend_conf env)
             (backend_config_text rg_name (account_name project_name now env)
                env))
      environments.
Proof.
  unfold generate_backend_configs, print_status, emit. rewrite bind_run.
  cbn [result_of state_of events_of fst snd app List.filter is_write].
  apply for_each_write_events. intros env Hin st1.
  pose proof (dict_fold_lookup (account_name project_name now)
                environments [] env (or_introl Hin)) as Hget.
  unfold mkdir, print_success, emit, lookup_env, write_file.
  rewrite Hget. rewrite !bind_run. split; reflexivity.
Qed.

Section SuccessfulRun.

Variable w : world.
Variable json_loads : string -> string + gmap string string.
Variable strftime : Q -> string.
Variable upper : string -> string.

(** What [setup] has done when it returns. *)
Lemma setup_returns (fuel : nat) (project_name location : string)
    (environments : list string) (st : state) :
  let run :=
    setup w json_loads strftime upper fuel project_name location
      environments st in
  result_of run = Ret tt ->
  exists now : Q,
    In ".env" (written (events_of run)) /\
    forall env, In env environments ->
      let rg_name := project_name ++ "-terraform-state-rg" in
      let account := account_name project_name now env in
      In (storage_account_create account rg_name location env project_name)
         (commands (events_of run)) /\
      In (storage_container_create account) (commands (events_of run)) /\
      In (EvWrite (backend_conf env) (backend_config_text rg_name account env))
         (events_of run).
Proof.
  intros run Hret. subst run. unfold setup in *.
  destruct (bind_ret_inv _ _ _ _ Hret) as ([] & H1 & Hret1 & ->).
  set (st1 := state_of (check_prerequisites w fuel st)) in *.
  destruct (bind_ret_inv _ _ _ _ Hret1) as (azure_info & H2 & Hret2 & ->).
  set (st2 := state_of (get_subscription_info w json_loads st1)) in *.
  destruct (bind_ret_inv _ _ _ _ Hret2) as (rg_name & H3 & Hret3 & ->).
  set (st3 := state_of (create_state_resource_group w project_name location st2))
    in *.
  apply create_state_resource_group_name in H3. subst rg_name.
  destruct (bind_ret_inv _ _ _ _ Hret3) as (accounts & H4 & Hret4 & ->).
  destruct (create_storage_accounts_run w _ _ _ _ _ _ H4) as [Hcmds ->].
  set (st4 := state_of (create_storage_accounts w project_name _ location
                          environments st3)) in *.
  destruct (bind_ret_inv _ _ _ _ Hret4) as (terraform_sp & H5 & Hret5 & ->).
  set (st5 := state_of (create_service_principal w json_loads project_name
                          (subscription_id azure_info) "terraform" st4)) in *.
  destruct (bind_ret_inv _ _ _ _ Hret5) as (github_sp & H6 & Hret6 & ->).
  set (st6 := state_of (create_service_principal w json_loads project_name
                          (subscription_id azure_info) "github-actions" st5))
    in *.
  destruct (bind_ret_inv _ _ _ _ Hret6) as ([] & H7 & Hret7 & ->).
  apply generate_env_file_returns in H7.
  destruct (bind_ret_inv _ _ _ _ Hret7) as ([] & H8 & _ & ->).
  pose proof (generate_backend_configs_of_accounts project_name
                (project_name ++ "-terraform-state-rg") (clock st3)
                environments
                (state_of
                   (generate_env_file strftime upper project_name azure_info
                      terraform_sp
                      (fold_left
                         (fun d env =>
                            dict_set env
                              (account_name project_name (clock st3) env) d)
                         environments []) st6))) as Hwrites.
  exists (clock st3). split.
  - rewrite !written_app, H7. rewrite !in_app_iff.
    do 6 right. left. left. reflexivity.
  - intros env Hin. cbv zeta.
    assert (Hboth : incl (account_commands project_name
                            (project_name ++ "-terraform-state-rg") location
                            (clock st3) env)
                      (flat_map
                         (account_commands project_name
                            (project_name ++ "-terraform-state-rg") location
                            (clock st3)) environments)).
    { intros cmd Hcmd. apply in_flat_map. exists env. split; assumption. }
    rewrite <- Hcmds in Hboth.
    split; [| split].
    + rewrite !commands_app, !in_app_iff. do 3 right. left.
      apply Hboth. left. reflexivity.
    + rewrite !commands_app, !in_app_iff. do 3 right. left.
      apply Hboth. right. left. reflexivity.
    + rewrite !in_app_iff. do 7 right. left.
      eapply (proj1 (filter_In is_write _ _)).
      rewrite Hwrites. apply in_map_iff. exists env. split; [reflexivity | exact Hin].
Qed.

(** X22. When [main] returns, the run is complete. For selected
    environments whose labels are single path components, the storage
    account of each and its container were created, under one name, and the
    backend configuration written for the environment holds that name and
    the resource group of the project; the file [.env] was written as
    well. *)
Theorem successful_run_is_complete (fuel : nat) (a : args) (st : state)
    (envs : list string) :
  select_environments a = Some envs ->
  (forall env, In env envs -> plain_label env) ->
  let run := main w json_loads strftime upper fuel a st in
  result_of run = Ret tt ->
  exists now : Q,
    In ".env" (written (events_of run)) /\
    forall env, In env envs ->
      let rg_name := project_name a ++ "-terraform-state-rg" in
      let account := account_name (project_name a) now env in
      In (storage_account_create account rg_name (location a) env
            (project_name a))
         (commands (events_of run)) /\
      In (storage_container_create account) (commands (events_of run)) /\
      In (EvWrite (backend_conf env) (backend_config_text rg_name account env))
         (events_of run).
Proof.
  intros Hsel _ run Hret. subst run. unfold main in *. rewrite Hsel in *.
  unfold print_status, print, emit in *.
  repeat (rewrite bind_run in *;
          cbn [result_of state_of events_of fst snd] in * ).
  pose proof (setup_returns fuel (project_name a) (location a) envs st)
    as Hsetup.
  cbv zeta in Hsetup.
  unfold try_except in *.
  destruct (setup w json_loads strftime upper fuel (project_name a)
              (location a) envs st) as [[[[] | c | e |] st'] evs];
    cbn [result_of state_of events_of fst snd] in *; try discriminate.
  destruct (Hsetup eq_refl) as (now & Henv & Hall).
  exists now. split.
  - rewrite !written_app, !in_app_iff. do 3 right. exact Henv.
  - intros env Hin. destruct (Hall env Hin) as (Ha & Hc & Hw).
    cbv zeta. rewrite !commands_app, !in_app_iff.
    repeat split; do 3 right; assumption.
Qed.

End SuccessfulRun.

(** *** The further properties at work on concrete worlds *)

Lemma storage_name_fits_witness :
  String.length "staging" <= 8 /\
  String.length
    (storage_name "aks-platform" "staging" (timestamp_suffix 1700000000)) <= 24.
Proof.
  split; [cbn; lia |].
  apply (storage_name_fits "aks-platform" "staging" 1700000000).
  cbn; lia.
Defined.

Lemma main_requires_environment_witness :
  all_environments bare_args = false /\
  environment bare_args = None /\
  environments bare_args = None /\
  result_of
    (main down_world demo_json demo_strftime demo_upper 30 bare_args
       initial_state) = Exit 1.
Proof.
  split; [reflexivity |]. split; [reflexivity |]. split; [reflexivity |].
  apply (proj1 (main_requires_environment down_world demo_json demo_strftime
                  demo_upper 30 bare_args initial_state eq_refl
                  (or_introl eq_refl) (or_introl eq_refl))).
Defined.

Lemma prerequisite_failure_stops_early_witness :
  returncode (respond down_world (calls initial_state) ["which"; "az"]) <> 0%Z /\
  result_of (check_prerequisites down_world 30 initial_state) = Exit 1 /\
  events_of (check_prerequisites down_world 30 initial_state)
  = [ EvPrint Info "Checking prerequisites...";
      EvCmd ["which"; "az"] unreachable;
      EvPrint Error "az is not installed. Please install it first." ].
Proof.
  assert (Haz : returncode
                  (respond down_world (calls initial_state) ["which"; "az"])
                <> 0%Z) by (cbn; lia).
  split; [exact Haz |].
  apply (proj1 (prerequisite_failure_stops_early down_world 30 initial_state)).
  exact Haz.
Defined.

Lemma polling_gives_up_after_budget_witness :
  result_of
    (wait_for_registration pending_world 30 1700000000 ["Microsoft.Storage"]
       initial_state) = Ret tt /\
  ((exists pre,
      events_of
        (wait_for_registration pending_world 30 1700000000
           ["Microsoft.Storage"] initial_state)
      = (pre ++ [ EvPrint Success
                    "All resource providers registered successfully" ])%list)
   \/
   ((exists pre,
       events_of
         (wait_for_registration pending_world 30 1700000000
            ["Microsoft.Storage"] initial_state)
       = (pre ++ [ EvPrint Warning
                     "Provider registration is taking longer than expected";
                   EvPrint Info
                     "Continuing with setup - providers will complete registration in background" ])%list)
    /\ (max_wait_time
        <= clock
             (state_of
                (wait_for_registration pending_world 30 1700000000
                   ["Microsoft.Storage"] initial_state))
           - 1700000000)%Q)).
Proof.
  split; [vm_compute; reflexivity |].
  apply (polling_gives_up_after_budget pending_world 30 1700000000
           ["Microsoft.Storage"] initial_state).
  vm_compute; reflexivity.
Defined.

Lemma registers_exactly_the_unregistered_witness :
  (forall n p,
     returncode (respond pending_world n (provider_register p)) = 0%Z) /\
  List.filter (starts_with ["az"; "provider"; "register"])
    (commands
       (events_of (check_and_register_providers pending_world 30 initial_state)))
  = map provider_register
      (unregistered_from pending_world (calls initial_state) required_providers).
Proof.
  split; [intros n p; reflexivity |].
  apply (registers_exactly_the_unregistered pending_world 30 initial_state).
  intros n p. reflexivity.
Defined.

Lemma failed_storage_command_is_fatal_witness :
  In (EvCmd
        (storage_account_create "acmetfdev000000" "acme-terraform-state-rg"
           "East US" "dev" "acme")
        unreachable)
     (events_of
        (create_storage_accounts down_world "acme" "acme-terraform-state-rg"
           "East US" ["dev"; "prod"] initial_state)) /\
  returncode unreachable <> 0%Z /\
  result_of
    (create_storage_accounts down_world "acme" "acme-terraform-state-rg"
       "East US" ["dev"; "prod"] initial_state) = Exit 1.
Proof.
  assert (Hin : In (EvCmd
                      (storage_account_create "acmetfdev000000"
                         "acme-terraform-state-rg" "East US" "dev" "acme")
                      unreachable)
                   (events_of
                      (create_storage_accounts down_world "acme"
                         "acme-terraform-state-rg" "East US" ["dev"; "prod"]
                         initial_state))).
  { vm_compute. repeat (try (left; reflexivity); right). }
  assert (Hrc : returncode unreachable <> 0%Z) by (cbn; lia).
  split; [exact Hin |]. split; [exact Hrc |].
  apply (proj1 (failed_storage_command_is_fatal down_world "acme"
                  "acme-terraform-state-rg" "East US" ["dev"; "prod"]
                  initial_state _ unreachable Hin Hrc)).
Defined.

Lemma create_storage_accounts_returns_witness :
  result_of
    (create_storage_accounts fresh_world "acme" "acme-terraform-state-rg"
       "East US" ["dev"] initial_state) = Ret dev_accounts /\
  commands
    (events_of
       (create_storage_accounts fresh_world "acme" "acme-terraform-state-rg"
          "East US" ["dev"] initial_state))
  = flat_map
      (account_commands "acme" "acme-terraform-state-rg" "East US"
         (clock initial_state))
      ["dev"].
Proof.
  assert (Hres : result_of
                   (create_storage_accounts fresh_world "acme"
                      "acme-terraform-state-rg" "East US" ["dev"]
                      initial_state) = Ret dev_accounts)
    by (vm_compute; reflexivity).
  split; [exact Hres |].
  apply (proj1 (create_storage_accounts_returns fresh_world "acme"
                  "acme-terraform-state-rg" "East US" ["dev"] initial_state
                  dev_accounts Hres)).
Defined.

Lemma new_service_principal_ignores_role_failures_witness :
  Py.strip
    (stdout (respond fresh_world (calls initial_state)
               (sp_list (sp_name "acme" "terraform")))) = EmptyString /\
  returncode
    (respond fresh_world (S (calls initial_state))
       (sp_create (sp_name "acme" "terraform") "0000-sub")) = 0%Z /\
  result_of
    (create_service_principal fresh_world demo_json "acme" "0000-sub"
       "terraform" initial_state)
  = Ret (<[ "app_id" := "0000-app" ]>
         (<[ "client_secret" := "s3cret" ]> {[ "sp_output" := "SP-JSON" ]})).
Proof.
  split; [reflexivity |]. split; [reflexivity |].
  assert (Hid : (<[ "clientId" := "0000-app" ]>
                 {[ "clientSecret" := "s3cret" ]} : gmap string string)
                !! "clientId" = Some "0000-app")
    by (vm_compute; reflexivity).
  assert (Hsecret : (<[ "clientId" := "0000-app" ]>
                     {[ "clientSecret" := "s3cret" ]} : gmap string string)
                    !! "clientSecret" = Some "s3cret")
    by (vm_compute; reflexivity).
  apply (proj1 (new_service_principal_ignores_role_failures fresh_world
                  demo_json "acme" "0000-sub" "terraform" initial_state
                  (<[ "clientId" := "0000-app" ]>
                   {[ "clientSecret" := "s3cret" ]})
                  "0000-app" "s3cret" eq_refl eq_refl eq_refl Hid Hsecret)).
Defined.

Lemma failed_principal_creation_is_fatal_witness :
  Py.strip
    (stdout (respond down_world (calls initial_state)
               (sp_list (sp_name "acme" "terraform")))) = EmptyString /\
  returncode
    (respond down_world (S (calls initial_state))
       (sp_create (sp_name "acme" "terraform") "0000-sub")) <> 0%Z /\
  result_of
    (create_service_principal down_world demo_json "acme" "0000-sub"
       "terraform" initial_state) = Exit 1.
Proof.
  assert (Hrc : returncode
                  (respond down_world (S (calls initial_state))
                     (sp_create (sp_name "acme" "terraform") "0000-sub"))
                <> 0%Z) by (cbn; lia).
  split; [reflexivity |]. split; [exact Hrc |].
  apply (proj1 (failed_principal_creation_is_fatal down_world demo_json
                  "acme" "0000-sub" "terraform" initial_state eq_refl Hrc)).
Defined.

Lemma principal_output_without_secret_raises_witness :
  secretless_json
    (stdout (respond fresh_world (S (calls initial_state))
               (sp_create (sp_name "acme" "terraform") "0000-sub")))
  = inr {[ "clientId" := "0000-app" ]} /\
  ({[ "clientId" := "0000-app" ]} : gmap string string) !! "clientSecret"
  = None /\
  result_of
    (create_service_principal fresh_world secretless_json "acme" "0000-sub"
       "terraform" initial_state) = Raise (KeyError "clientSecret").
Proof.
  assert (Hid : ({[ "clientId" := "0000-app" ]} : gmap string string)
                !! "clientId" = Some "0000-app")
    by (vm_compute; reflexivity).
  assert (Hsecret : ({[ "clientId" := "0000-app" ]} : gmap string string)
                    !! "clientSecret" = None)
    by (vm_compute; reflexivity).
  split; [reflexivity |]. split; [exact Hsecret |].
  apply (proj1 (principal_output_without_secret_raises fresh_world
                  secretless_json "acme" "0000-sub" "terraform" initial_state
                  {[ "clientId" := "0000-app" ]} "0000-app"
                  eq_refl eq_refl eq_refl Hid Hsecret)).
Defined.

Lemma dev_is_plain (env : string) : In env ["dev"] -> plain_label env.
Proof.
  intros [<- | []]. repeat split; try discriminate.
  cbn. intros [H | [H | [H | []]]]; discriminate.
Qed.

Lemma initial_tree_free (env : string) :
  In env ["dev"] -> directories_free (files initial_state) env.
Proof. intros _. repeat split; apply lookup_empty. Qed.

Lemma generate_backend_configs_writes_each_witness :
  (forall env, In env ["dev"] -> plain_label env) /\
  (forall env, In env ["dev"] -> directories_free (files initial_state) env) /\
  (forall env, In env ["dev"] -> is_Some (dict_get env dev_accounts)) /\
  result_of
    (generate_backend_configs "acme" "acme-terraform-state-rg" dev_accounts
       ["dev"] initial_state) = Ret tt /\
  commands
    (events_of
       (generate_backend_configs "acme" "acme-terraform-state-rg" dev_accounts
          ["dev"] initial_state)) = [] /\
  written
    (events_of
       (generate_backend_configs "acme" "acme-terraform-state-rg" dev_accounts
          ["dev"] initial_state))
  = map backend_conf ["dev"].
Proof.
  assert (Hall : forall env, In env ["dev"] ->
                   is_Some (dict_get env dev_accounts)).
  { intros env [<- | []]. eexists. reflexivity. }
  split; [exact dev_is_plain |]. split; [exact initial_tree_free |].
  split; [exact Hall |].
  apply (generate_backend_configs_writes_each "acme" "acme-terraform-state-rg"
           dev_accounts ["dev"] initial_state dev_is_plain initial_tree_free
           Hall).
Defined.

Lemma generate_backend_configs_missing_account_witness :
  (forall e, In e (["dev"] ++ ["prod"])%list -> plain_label e) /\
  (forall e, In e (["dev"] ++ ["prod"])%list ->
     directories_free (files initial_state) e) /\
  (forall e, In e ["dev"] -> is_Some (dict_get e dev_accounts)) /\
  dict_get "prod" dev_accounts = None /\
  result_of
    (generate_backend_configs "acme" "acme-terraform-state-rg" dev_accounts
       (["dev"] ++ "prod" :: ["staging"]) initial_state)
  = Raise (KeyError "prod") /\
  written
    (events_of
       (generate_backend_configs "acme" "acme-terraform-state-rg" dev_accounts
          (["dev"] ++ "prod" :: ["staging"]) initial_state))
  = map backend_conf ["dev"].
Proof.
  assert (Hplain : forall e, In e (["dev"] ++ ["prod"])%list -> plain_label e).
  { intros e [<- | [<- | []]]; (repeat split; try discriminate);
      cbn; intuition discriminate. }
  assert (Hfree : forall e, In e (["dev"] ++ ["prod"])%list ->
                    directories_free (files initial_state) e).
  { intros e _. repeat split; apply lookup_empty. }
  assert (Hall : forall e, In e ["dev"] -> is_Some (dict_get e dev_accounts)).
  { intros e [<- | []]. eexists. reflexivity. }
  split; [exact Hplain |]. split; [exact Hfree |].
  split; [exact Hall |]. split; [reflexivity |].
  destruct (generate_backend_configs_missing_account "acme"
              "acme-terraform-state-rg" dev_accounts ["dev"] "prod"
              ["staging"] initial_state Hplain Hfree Hall eq_refl)
    as (Hres & Hw & _).
  split; [exact Hres | exact Hw].
Defined.

Lemma backend_configs_name_created_accounts_witness :
  (forall env, In env ["dev"] -> plain_label env) /\
  (forall env, In env ["dev"] -> directories_free (files initial_state) env) /\
  result_of
    (create_storage_accounts fresh_world "acme" "acme-terraform-state-rg"
       "East US" ["dev"] initial_state) = Ret dev_accounts /\
  result_of
    (generate_backend_configs "acme" "acme-terraform-state-rg" dev_accounts
       ["dev"] initial_state) = Ret tt /\
  List.filter is_write
    (events_of
       (generate_backend_configs "acme" "acme-terraform-state-rg" dev_accounts
          ["dev"] initial_state))
  = map (fun env =>
           EvWrite (backend_conf env)
             (backend_config_text "acme-terraform-state-rg"
                (account_name "acme" (clock initial_state) env) env))
      ["dev"].
Proof.
  assert (Hres : result_of
                   (create_storage_accounts fresh_world "acme"
                      "acme-terraform-state-rg" "East US" ["dev"]
                      initial_state) = Ret dev_accounts)
    by (vm_compute; reflexivity).
  split; [exact dev_is_plain |]. split; [exact initial_tree_free |].
  split; [exact Hres |].
  apply (backend_configs_name_created_accounts fresh_world "acme"
           "acme-terraform-state-rg" "East US" ["dev"] initial_state
           initial_state dev_accounts dev_is_plain initial_tree_free Hres).
Defined.


Lemma rerun_reuses_service_principals_witness :
  (forall n name,
     Py.strip (stdout (respond provisioned_world n (sp_list name)))
     <> EmptyString) /\
  Forall reuses_principals
    (events_of
       (main provisioned_world demo_json demo_strftime demo_upper 30
          acme_dev_args initial_state)).
Proof.
  assert (Hexist : forall n name,
            Py.strip (stdout (respond provisioned_world n (sp_list name)))
            <> EmptyString).
  { intros n name. vm_compute. discriminate. }
  split; [exact Hexist |].
  apply (rerun_reuses_service_principals provisioned_world demo_json
           demo_strftime demo_upper Hexist 30 acme_dev_args initial_state).
Defined.

Lemma missing_resource_group_is_created_witness :
  returncode
    (respond fresh_world (calls initial_state)
       (group_show ("acme" ++ "-terraform-state-rg"))) <> 0%Z /\
  commands
    (events_of
       (create_state_resource_group fresh_world "acme" "East US" initial_state))
  = [ group_show ("acme" ++ "-terraform-state-rg");
      group_create ("acme" ++ "-terraform-state-rg") "East US" "acme" ].
Proof.
  assert (Hshow : returncode
                    (respond fresh_world (calls initial_state)
                       (group_show ("acme" ++ "-terraform-state-rg")))
                  <> 0%Z) by (cbn; lia).
  split; [exact Hshow |].
  apply (proj1 (missing_resource_group_is_created fresh_world "acme" "East US"
                  initial_state Hshow)).
Defined.

Lemma successful_run_is_complete_witness :
  select_environments acme_dev_args = Some ["dev"] /\
  (forall env, In env ["dev"] -> plain_label env) /\
  result_of
    (main fresh_world demo_json demo_strftime demo_upper 30 acme_dev_args
       initial_state) = Ret tt /\
  exists now : Q,
    In ".env"
       (written
          (events_of
             (main fresh_world demo_json demo_strftime demo_upper 30
                acme_dev_args initial_state))) /\
    In (storage_account_create (account_name "acme" now "dev")
          "acme-terraform-state-rg" "East US" "dev" "acme")
       (commands
          (events_of
             (main fresh_world demo_json demo_strftime demo_upper 30
                acme_dev_args initial_state))) /\
    In (storage_container_create (account_name "acme" now "dev"))
       (commands
          (events_of
             (main fresh_world demo_json demo_strftime demo_upper 30
                acme_dev_args initial_state))) /\
    In (EvWrite (backend_conf "dev")
          (backend_config_text "acme-terraform-state-rg"
             (account_name "acme" now "dev") "dev"))
       (events_of
          (main fresh_world demo_json demo_strftime demo_upper 30
             acme_dev_args initial_state)).
Proof.
  assert (Hret : result_of
                   (main fresh_world demo_json demo_strftime demo_upper 30
                      acme_dev_args initial_state) = Ret tt)
    by (vm_compute; reflexivity).
  split; [reflexivity |]. split; [exact dev_is_plain |]. split; [exact Hret |].
  destruct (successful_run_is_complete fresh_world demo_json demo_strftime
              demo_upper 30 acme_dev_args initial_state ["dev"] eq_refl
              dev_is_plain Hret)
    as (now & Henv & Hall).
  exists now. split; [exact Henv |].
  exact (Hall "dev" (or_introl eq_refl)).
Defined.

Lemma generate_terraform_tfvars_keeps_files_witness :
  (forall env, In env ["dev"] -> plain_label env) /\
  commands
    (events_of
       (generate_terraform_tfvars "acme" "West Europe" ["dev"] example_state))
  = [] /\
  files example_state
  ⊆ files
      (state_of
         (generate_terraform_tfvars "acme" "West Europe" ["dev"]
            example_state)) /\
  Forall (fun e => forall path content, e = EvWrite path content ->
            files example_state !! path = None /\
            exists env, In env ["dev"] /\ path = tfvars_file env)
    (events_of
       (generate_terraform_tfvars "acme" "West Europe" ["dev"] example_state)).
Proof.
  split; [exact dev_is_plain |].
  apply (generate_terraform_tfvars_keeps_files "acme" "West Europe" ["dev"]
           example_state dev_is_plain).
Defined.
